(** * Jansarthi: case lifecycle and admin authentication of [server.js]

    A shallow embedding of the request handlers of [server.js] that create,
    track and resolve complaints and that issue and verify admin one-time
    codes, together with the part of the PostgreSQL store they talk to.

    Conventions of the model.
    - A string is the text in UTF-8, a list of bytes.  The white space of
      JavaScript is that of ECMAScript, in one, two or three bytes; the case
      mapping and the white space of the store are the ASCII ones.
    - Time is one clock, in milliseconds, read both by [Date.now()] and by the
      store's [NOW()].  The node process and the store session may be in
      different time zones: [zone_shift] is how far the wall clock of the
      first is ahead of that of the second.
    - A call of [Math.random()] is a draw [k] standing for the number
      [k / 2^53]; the rounding of binary64 products is not modelled.
    - A text parameter cannot carry the byte 0.  The statements of the
      tracking and of the registration refuse it; the texts that reach the
      other statements are taken to be free of it.
    - Requests are handled one at a time: the statements of a handler are
      not interleaved with those of another request. *)

From Stdlib Require Import ZArith QArith Qround List String Ascii Bool Lia.
From Stdlib Require Import DecimalString DecimalZ DecimalPos.
From Stdlib Require Import Sorted Permutation.
Import ListNotations.

Local Open Scope string_scope.
Local Open Scope Z_scope.

(** ** JavaScript primitives used by the handlers *)

Module Js.

(** [!x] for a body field: a field is falsy when it is absent or empty. *)
Definition falsy (x : option string) : bool :=
  match x with
  | None => true
  | Some s => String.eqb s ""
  end.


(** [s.charAt(i)]: the one-character string at [i], or the empty string. *)
Definition charAt (s : string) (i : Z) : string :=
  if i <? 0 then ""
  else match String.get (Z.to_nat i) s with
       | Some c => String c ""
       | None => ""
       end.

(** [Math.random()] for the draw [k]. *)
Definition Math_random (k : Z) : Q := k # (2 ^ 53).

Definition valid_draw (k : Z) : Prop := 0 <= k < 2 ^ 53.

Definition Math_floor (x : Q) : Z := Qfloor x.

(** [n.toString()] for an integer number. *)
Definition toString (n : Z) : string := NilZero.string_of_int (Z.to_int n).

(** The white space of one byte: TAB, LF, VT, FF, CR and SP. *)
Definition is_space (c : ascii) : bool :=
  let n := N_of_ascii c in
  (N.eqb n 32 || (N.leb 9 n && N.leb n 13))%N.

Definition is_byte (n : N) (c : ascii) : bool := N.eqb (N_of_ascii c) n.

(** The first byte of a white space character of two or three bytes. *)
Definition space_lead (c : ascii) : bool :=
  is_byte 194 c || is_byte 225 c || is_byte 226 c || is_byte 227 c
  || is_byte 239 c.

(** The two bytes of U+00A0. *)
Definition space2 (a b : ascii) : bool := is_byte 194 a && is_byte 160 b.

(** The three bytes of U+1680, of U+2000 to U+200A, U+2028, U+2029, U+202F
    and U+205F, of U+3000 and of U+FEFF. *)
Definition space3 (a b c : ascii) : bool :=
  let n := N_of_ascii c in
  (is_byte 225 a && is_byte 154 b && is_byte 128 c)
  || (is_byte 226 a && is_byte 128 b
      && ((N.leb 128 n && N.leb n 138) || N.eqb n 168 || N.eqb n 169
          || N.eqb n 175)%N)
  || (is_byte 226 a && is_byte 129 b && is_byte 159 c)
  || (is_byte 227 a && is_byte 128 b && is_byte 128 c)
  || (is_byte 239 a && is_byte 187 b && is_byte 191 c).

(** [s.trimStart()]: the white space characters at the start are dropped. *)
Fixpoint trimStart (s : string) : string :=
  match s with
  | String a s1 =>
      if is_space a then trimStart s1
      else if space_lead a then
        match s1 with
        | String b s2 =>
            if space2 a b then trimStart s2
            else match s2 with
                 | String c s3 => if space3 a b c then trimStart s3 else s
                 | EmptyString => s
                 end
        | EmptyString => s
        end
      else s
  | EmptyString => EmptyString
  end.

(** [s] is one white space character. *)
Definition space_char (s : string) : bool :=
  match s with
  | String a EmptyString => is_space a
  | String a (String b EmptyString) => space2 a b
  | String a (String b (String c EmptyString)) => space3 a b c
  | _ => false
  end.

(** [s.trimEnd()]: what is left of the text from a byte on is dropped when it
    is one white space character. *)
Fixpoint trimEnd (s : string) : string :=
  match s with
  | String c s' =>
      let t := String c (trimEnd s') in
      if space_char t then EmptyString else t
  | EmptyString => EmptyString
  end.

(** [s.trim()]. *)
Definition trim (s : string) : string := trimEnd (trimStart s).

Definition is_digit (c : ascii) : bool :=
  let n := N_of_ascii c in (N.leb 48 n && N.leb n 57)%N.

Definition digit_value (c : ascii) : Z := Z.of_N (N_of_ascii c) - 48.

(** The value of the longest prefix of decimal digits of [s], continuing
    from [acc], and the rest of [s]. *)
Fixpoint read_digits (acc : Z) (s : string) : Z * string :=
  match s with
  | String c s' =>
      if is_digit c then read_digits (acc * 10 + digit_value c) s'
      else (acc, s)
  | EmptyString => (acc, s)
  end.

Definition starts_with_digit (s : string) : bool :=
  match s with
  | String c _ => is_digit c
  | EmptyString => false
  end.

(** [parseInt(s, 10)]; [None] is [NaN]. *)
Definition parseInt (s : string) : option Z :=
  match trimStart s with
  | String "-" s' =>
      if starts_with_digit s' then Some (- fst (read_digits 0 s')) else None
  | String "+" s' =>
      if starts_with_digit s' then Some (fst (read_digits 0 s')) else None
  | s' =>
      if starts_with_digit s' then Some (fst (read_digits 0 s')) else None
  end.

(** [x || 0] for a number [x]: [NaN] and [0] give [0]. *)
Definition or_zero (x : option Z) : Z :=
  match x with
  | Some n => n
  | None => 0
  end.

End Js.

(** ** The PostgreSQL store

    The four statements of [ensureTables] fix the columns; a nullable column
    is an [option].  A table is the list of its rows in insertion order;
    the order in which a statement without [ORDER BY] finds them is the
    store's own. *)

Module Pg.

Inductive error : Type :=
| connection_failure
| not_null_violation (column : string)
| unique_violation (constraint : string)
| invalid_text_representation (type : string)
| numeric_value_out_of_range (type : string)
| invalid_datetime_format
| character_not_in_repertoire.

(** [=] on two nullable texts inside a [WHERE]: unknown counts as false. *)
Definition text_eq (a b : option string) : bool :=
  match a, b with
  | Some x, Some y => String.eqb x y
  | _, _ => false
  end.

Definition upper_char (c : ascii) : ascii :=
  let n := N_of_ascii c in
  if (N.leb 97 n && N.leb n 122)%N then ascii_of_N (n - 32) else c.

(** [UPPER(s)]. *)
Fixpoint upper (s : string) : string :=
  match s with
  | String c s' => String (upper_char c) (upper s')
  | EmptyString => EmptyString
  end.

Definition UPPER (a : option string) : option string := option_map upper a.

(** A text parameter with the byte 0 is refused when it is bound. *)
Definition has_nul (s : string) : bool :=
  existsb (Js.is_byte 0) (list_ascii_of_string s).

(** The white space that the input of a number skips: that of one byte. *)
Fixpoint skip_space (s : string) : string :=
  match s with
  | String c s' => if Js.is_space c then skip_space s' else s
  | EmptyString => EmptyString
  end.

(** Input of a decimal integer of the given type and range: optional white
    space, an optional sign, digits, optional white space.  This is the
    syntax that every version of the store reads, and reads alike; from
    version 16 on the store also reads integers written with [0x], [0o] or
    [0b] and with [_] between digits, where this input answers with an
    error.  All of these begin with a digit after the sign: see
    [not_a_number]. *)
Definition int_in (type : string) (lo hi : Z) (s : string) : error + Z :=
  let body := skip_space s in
  let '(neg, digits) :=
    match body with
    | String "-" r => (true, r)
    | String "+" r => (false, r)
    | r => (false, r)
    end in
  if Js.starts_with_digit digits then
    let '(v, rest) := Js.read_digits 0 digits in
    match skip_space rest with
    | EmptyString =>
        let n := if neg then - v else v in
        if (lo <=? n) && (n <=? hi) then inr n
        else inl (numeric_value_out_of_range type)
    | String _ _ => inl (invalid_text_representation type)
    end
  else inl (invalid_text_representation type).

Definition int4_in : string -> error + Z :=
  int_in "integer" (- 2 ^ 31) (2 ^ 31 - 1).

Definition int8_in : string -> error + Z :=
  int_in "bigint" (- 2 ^ 63) (2 ^ 63 - 1).

(** A text that no version of the store reads as an integer: after the white
    space and the sign it does not begin with a digit. *)
Definition not_a_number (s : string) : bool :=
  match skip_space s with
  | String "-" r | String "+" r => negb (Js.starts_with_digit r)
  | r => negb (Js.starts_with_digit r)
  end.

(** A byte that continues a character of more than one byte. *)
Definition continuation (c : ascii) : bool :=
  let n := N_of_ascii c in (N.leb 128 n && N.ltb n 192)%N.

(** The number of characters of a text: the bytes that begin one. *)
Fixpoint char_length (s : string) : nat :=
  match s with
  | String c s' =>
      if continuation c then char_length s' else S (char_length s')
  | EmptyString => O
  end.

(** The first [n] characters of a text, and the rest of it. *)
Fixpoint split_chars (n : nat) (s : string) : string * string :=
  match s with
  | String c s' =>
      if continuation c
      then let '(a, b) := split_chars n s' in (String c a, b)
      else match n with
           | O => (EmptyString, s)
           | S n' => let '(a, b) := split_chars n' s' in (String c a, b)
           end
  | EmptyString => (EmptyString, EmptyString)
  end.

(** A query parameter bound to a nullable column of an integer type;
    [undefined] is sent as [NULL]. *)
Definition nullable (f : string -> error + Z) (p : option string)
  : error + option Z :=
  match p with
  | None => inr None
  | Some s => match f s with
              | inl e => inl e
              | inr n => inr (Some n)
              end
  end.

(** Output of a [bigint], as the driver hands it to the handler. *)
Definition int8_out (n : Z) : string := NilZero.string_of_int (Z.to_int n).

End Pg.

(** Table [admins]. *)
Module Admin.
Record row : Type := mk {
  id : Z;
  name : string;
  department_name : option string;
  department_id : option string;
  mobile_no : option Z;
  otp : option string;
  otp_expires : option Z;
  created_at : option Z
}.

Definition set_otp (code : option string) (expires : option Z) (r : row) : row :=
  mk (id r) (name r) (department_name r) (department_id r) (mobile_no r)
     code expires (created_at r).
End Admin.

(** Table [codinCluc], the complaints. *)
Module Complaint.
Record row : Type := mk {
  id : Z;
  case_id : option string;
  subject : string;
  description : string;
  category : option string;
  image_path : option string;
  mobile_no : Z;
  location : option string;
  created_at : option Z;
  status : option string
}.

Definition set_status (s : option string) (r : row) : row :=
  mk (id r) (case_id r) (subject r) (description r) (category r)
     (image_path r) (mobile_no r) (location r) (created_at r) s.
End Complaint.

(** Table [missing_persons]. *)
Module MissingPerson.
Record row : Type := mk {
  id : Z;
  case_id : string;
  name : string;
  age : option Z;
  gender : option string;
  last_seen_date : option Z;
  last_seen_location : option string;
  description : option string;
  media_path : option string;
  reporter_mobile : option Z;
  status : option string;
  created_at : option Z
}.
End MissingPerson.

Record DB : Type := mkDB {
  admins : list Admin.row;
  admins_id_seq : Z;
  codinCluc : list Complaint.row;
  codinCluc_id_seq : Z;
  missing_persons : list MissingPerson.row;
  missing_persons_id_seq : Z
}.

(** The store after [ensureTables] on a fresh database. *)
Definition empty_db : DB := mkDB [] 0 [] 0 [] 0.


(** ** Queries, the world and the handlers' monad *)

Inductive param : Type :=
| p_null
| p_text (s : string)
| p_time (t : Z).

(** A body field as a query parameter. *)
Definition p_field (x : option string) : param :=
  match x with
  | Some s => p_text s
  | None => p_null
  end.

(** The statements of [server.js] that the model covers. *)
Inductive sql : Type :=
| select_admin_id_by_department
| update_admin_otp
| insert_admin
| select_admin_by_otp
| update_complaint_resolved
| insert_complaint
| select_complaint_by_case_id
| count_complaints
| insert_missing_person.

Record query : Type := mkQuery { text : sql; values : list param }.

(** What a handler can see and change: the tables, whether the store can be
    reached, the clock, and the record of every [pool.query] call made so far
    with the error it raised, if any. *)
Record World : Type := mkWorldIn {
  tables : DB;
  online : bool;
  clock : Z;
  qlog : list (query * option Pg.error);
  zone_shift : Z
}.

(** A world in which the node process and the store session are in the same
    time zone. *)
Definition mkWorld (db : DB) (o : bool) (t : Z)
    (log : list (query * option Pg.error)) : World :=
  mkWorldIn db o t log 0.

Definition set_clock (t : Z) (w : World) : World :=
  mkWorldIn (tables w) (online w) t (qlog w) (zone_shift w).

Definition set_online (b : bool) (w : World) : World :=
  mkWorldIn (tables w) b (clock w) (qlog w) (zone_shift w).

(** A [Date] bound to a [TIMESTAMP] column.  The driver writes the date as
    the wall clock of the node process with its offset, and the input of a
    [TIMESTAMP] without time zone drops the offset; [NOW()] is read on the
    wall clock of the session.  So the store holds the instant moved by
    [zone_shift]. *)
Definition timestamp_in (w : World) (date : Z) : Z := date + zone_shift w.

(** Code that may throw a store error. *)
Definition M (A : Type) : Type := World -> (Pg.error + A) * World.

Definition ret {A} (a : A) : M A := fun w => (inr a, w).

Definition bind {A B} (m : M A) (f : A -> M B) : M B :=
  fun w => match m w with
           | (inl e, w') => (inl e, w')
           | (inr a, w') => f a w'
           end.

Notation "x <- m ;; k" := (bind m (fun x => k))
  (at level 61, m at next level, right associativity).
Notation "m ;;; k" := (bind m (fun _ => k))
  (at level 61, right associativity).

(** [try { body } catch (err) { return handler(err) }]. *)
Definition try_catch {A} (body : M A) (handler : Pg.error -> A)
  : World -> A * World :=
  fun w => match body w with
           | (inl e, w') => (handler e, w')
           | (inr a, w') => (a, w')
           end.

Definition outcome {A} (r : Pg.error + A) : option Pg.error :=
  match r with
  | inl e => Some e
  | inr _ => None
  end.

(** [await pool.query(text, values)], the statement's effect on the tables
    being [exec]. *)
Definition pool_query {A} (q : query)
    (exec : Z -> DB -> (Pg.error + A) * DB) : M A :=
  fun w =>
    if online w then
      let '(r, db') := exec (clock w) (tables w) in
      (r, mkWorldIn db' true (clock w) (qlog w ++ [(q, outcome r)])
                    (zone_shift w))
    else
      (inl Pg.connection_failure,
       mkWorldIn (tables w) false (clock w)
               (qlog w ++ [(q, Some Pg.connection_failure)]) (zone_shift w)).

(** ** The statements *)

(** [SELECT id FROM admins WHERE department_id = $1] *)
Definition exec_select_admin_id_by_department (department_id : option string)
    (now : Z) (db : DB) : (Pg.error + list Z) * DB :=
  (inr (map Admin.id
          (filter (fun r => Pg.text_eq (Admin.department_id r) department_id)
                  (admins db))),
   db).

(** [UPDATE admins SET otp = $1, otp_expires = $2 WHERE department_id = $3] *)
Definition exec_update_admin_otp (otp : string) (expires : Z)
    (department_id : option string)
    (now : Z) (db : DB) : (Pg.error + unit) * DB :=
  (inr tt,
   mkDB (map (fun r => if Pg.text_eq (Admin.department_id r) department_id
                       then Admin.set_otp (Some otp) (Some expires) r
                       else r)
             (admins db))
        (admins_id_seq db) (codinCluc db) (codinCluc_id_seq db)
        (missing_persons db) (missing_persons_id_seq db)).

(** [INSERT INTO admins (name, department_name, department_id, mobile_no,
    otp, otp_expires) VALUES ($1, $2, $3, $4, $5, $6)] *)
Definition exec_insert_admin (name department_name department_id mobile_no
                              : option string) (otp : string) (expires : Z)
    (now : Z) (db : DB) : (Pg.error + unit) * DB :=
  match Pg.nullable Pg.int8_in mobile_no with
  | inl e => (inl e, db)
  | inr mobile =>
      let id := admins_id_seq db + 1 in
      match name with
      | None =>
          (inl (Pg.not_null_violation "name"),
           mkDB (admins db) id (codinCluc db) (codinCluc_id_seq db)
                (missing_persons db) (missing_persons_id_seq db))
      | Some n =>
          (inr tt,
           mkDB (admins db ++
                   [Admin.mk id n department_name department_id mobile
                             (Some otp) (Some expires) (Some now)])
                id (codinCluc db) (codinCluc_id_seq db)
                (missing_persons db) (missing_persons_id_seq db))
      end
  end.

(** [a] comes strictly before [b] under [ORDER BY created_at DESC]. *)
Definition newer (a b : option Z) : bool :=
  match a, b with
  | None, Some _ => true
  | Some x, Some y => y <? x
  | _, _ => false
  end.

Fixpoint newest_admin (best : Admin.row) (rows : list Admin.row) : Admin.row :=
  match rows with
  | [] => best
  | r :: rs =>
      newest_admin
        (if newer (Admin.created_at r) (Admin.created_at best) then r else best)
        rs
  end.

Definition order_by_created_at_desc_limit_1 (rows : list Admin.row)
  : list Admin.row :=
  match rows with
  | [] => []
  | r :: rs => [newest_admin r rs]
  end.

(** [otp_expires > NOW()] *)
Definition unexpired (now : Z) (r : Admin.row) : bool :=
  match Admin.otp_expires r with
  | Some e => now <? e
  | None => false
  end.

(** [SELECT * FROM admins WHERE otp=$1 AND otp_expires > NOW()
    ORDER BY created_at DESC LIMIT 1] *)
Definition exec_select_admin_by_otp (otpInput : option string)
    (now : Z) (db : DB) : (Pg.error + list Admin.row) * DB :=
  (inr (order_by_created_at_desc_limit_1
          (filter (fun r => Pg.text_eq (Admin.otp r) otpInput && unexpired now r)
                  (admins db))),
   db).

(** [UPDATE codinCluc SET status='Resolved' WHERE id=$1] *)
Definition exec_update_complaint_resolved (id : string)
    (now : Z) (db : DB) : (Pg.error + unit) * DB :=
  match Pg.int4_in id with
  | inl e => (inl e, db)
  | inr i =>
      (inr tt,
       mkDB (admins db) (admins_id_seq db)
            (map (fun r => if Complaint.id r =? i
                           then Complaint.set_status (Some "Resolved") r
                           else r)
                 (codinCluc db))
            (codinCluc_id_seq db)
            (missing_persons db) (missing_persons_id_seq db))
  end.

(** [INSERT INTO codinCluc (case_id, subject, description, category,
    image_path, location, mobile_no) VALUES ($1, $2, $3, $4, $5, $6, $7)] *)
Definition exec_insert_complaint (case_id subject description category
                                  image_path location mobile : option string)
    (now : Z) (db : DB) : (Pg.error + unit) * DB :=
  match Pg.nullable Pg.int8_in mobile with
  | inl e => (inl e, db)
  | inr mobile_no =>
      let id := codinCluc_id_seq db + 1 in
      let rejected e :=
        (inl e,
         mkDB (admins db) (admins_id_seq db) (codinCluc db) id
              (missing_persons db) (missing_persons_id_seq db)) in
      match subject, description, mobile_no with
      | None, _, _ => rejected (Pg.not_null_violation "subject")
      | Some _, None, _ => rejected (Pg.not_null_violation "description")
      | Some _, Some _, None => rejected (Pg.not_null_violation "mobile_no")
      | Some s, Some d, Some m =>
          if existsb (fun r => Pg.text_eq (Complaint.case_id r) case_id)
                     (codinCluc db)
          then rejected (Pg.unique_violation "codincluc_case_id_key")
          else
            (inr tt,
             mkDB (admins db) (admins_id_seq db)
                  (codinCluc db ++
                     [Complaint.mk id case_id s d category image_path m
                                   location (Some now) (Some "Submitted")])
                  id (missing_persons db) (missing_persons_id_seq db))
      end
  end.

(** [SELECT * FROM codinCluc WHERE UPPER(case_id) = UPPER($1)]; a text with
    the byte 0 is refused when it is bound. *)
Definition exec_select_complaint_by_case_id (caseId : string)
    (now : Z) (db : DB) : (Pg.error + list Complaint.row) * DB :=
  if Pg.has_nul caseId then (inl Pg.character_not_in_repertoire, db)
  else
    (inr (filter (fun r => Pg.text_eq (Pg.UPPER (Complaint.case_id r))
                                      (Pg.UPPER (Some caseId)))
                 (codinCluc db)),
     db).

Definition is_resolved (r : Complaint.row) : bool :=
  Pg.text_eq (Complaint.status r) (Some "Resolved").

(** [SELECT COUNT( * ) AS total,
    COUNT( * ) FILTER (WHERE status = 'Resolved') AS resolved FROM codinCluc];
    the one row of the result, its two [bigint] counts as text. *)
Definition exec_count_complaints
    (now : Z) (db : DB) : (Pg.error + string * string) * DB :=
  (inr (Pg.int8_out (Z.of_nat (List.length (codinCluc db))),
        Pg.int8_out (Z.of_nat (List.length (filter is_resolved (codinCluc db))))),
   db).

(** ** The handlers *)

Inductive jval : Type :=
| j_null
| j_bool (b : bool)
| j_str (s : string).

Definition j_field (x : option string) : jval :=
  match x with
  | Some s => j_str s
  | None => j_null
  end.

Inductive response : Type :=
| json (status : Z) (body : list (string * jval))
| redirect (url : string)
| render_adminLogin (message : option string)
| render_home (total resolved pending : Z)
| render_trackStatusForm (complaint : option Complaint.row)
                         (message : option string).

Definition Handler : Type := World -> response * World.

Definition chars : string := "ABCDEFGHIJKLMNOPQRSTUVWXYZ0123456789".

(** The [for] loop of [generateCaseId], with [n] rounds left; [rnd i] is the
    draw of round [i]. *)
Fixpoint generateCaseId_loop (rnd : nat -> Z) (n i : nat) (id : string)
  : string :=
  match n with
  | O => id
  | S n' =>
      generateCaseId_loop rnd n' (S i)
        (id ++ Js.charAt chars
                 (Js.Math_floor
                    (Js.Math_random (rnd i)
                     * inject_Z (Z.of_nat (String.length chars)))%Q))
  end.

Definition generateCaseId (rnd : nat -> Z) : string :=
  generateCaseId_loop rnd 6 0 "CASE-".

(** [GET /] *)
Definition get_home : Handler :=
  try_catch
    (statsResult <- pool_query (mkQuery count_complaints [])
                               exec_count_complaints ;;
     let total := Js.or_zero (Js.parseInt (fst statsResult)) in
     let resolved := Js.or_zero (Js.parseInt (snd statsResult)) in
     let pending := total - resolved in
     ret (render_home total resolved pending))
    (fun _ => render_home 0 0 0).

(** [POST /adminLogin]; [k] is the draw behind the code. *)
Definition post_adminLogin
    (name department_name department_id mobile_no : option string) (k : Z)
  : Handler :=
  fun w =>
    if Js.falsy name || Js.falsy department_name
       || Js.falsy department_id || Js.falsy mobile_no
    then (json 200 [("success", j_bool false);
                    ("message", j_str "All fields are required")], w)
    else
      let otp :=
        Js.toString
          (Js.Math_floor (inject_Z 100000
                          + Js.Math_random k * inject_Z 900000)%Q) in
      let expires := clock w + 5 * 60 * 1000 in
      let otp_expires := timestamp_in w expires in
      try_catch
        (existingAdmin <-
           pool_query (mkQuery select_admin_id_by_department
                               [p_field department_id])
                      (exec_select_admin_id_by_department department_id) ;;
         (if (0 <? List.length existingAdmin)%nat
          then pool_query (mkQuery update_admin_otp
                                   [p_text otp; p_time expires;
                                    p_field department_id])
                          (exec_update_admin_otp otp otp_expires
                                                 department_id)
          else pool_query (mkQuery insert_admin
                                   [p_field name; p_field department_name;
                                    p_field department_id; p_field mobile_no;
                                    p_text otp; p_time expires])
                          (exec_insert_admin name department_name
                                             department_id mobile_no
                                             otp otp_expires)) ;;;
         ret (json 200 [("success", j_bool true); ("otp", j_str otp)]))
        (fun _ => json 200 [("success", j_bool false);
                            ("message", j_str "Server error")])
        w.

(** [POST /verify-admin-otp] *)
Definition post_verify_admin_otp (otpInput : option string) : Handler :=
  try_catch
    (result <- pool_query (mkQuery select_admin_by_otp [p_field otpInput])
                          (exec_select_admin_by_otp otpInput) ;;
     if (List.length result =? 0)%nat
     then ret (render_adminLogin (Some "❌ Invalid or expired OTP"))
     else ret (redirect "/adminDashboard"))
    (fun _ => render_adminLogin (Some "Database error")).

(** [POST /mark-resolved/:id] *)
Definition post_mark_resolved (id : string) : Handler :=
  try_catch
    (pool_query (mkQuery update_complaint_resolved [p_text id])
                (exec_update_complaint_resolved id) ;;;
     ret (json 200 [("success", j_bool true)]))
    (fun _ => json 200 [("success", j_bool false)]).

(** [req.file ? "/uploads/" + req.file.filename : null] *)
Definition upload_path (file : option string) : option string :=
  match file with
  | Some filename => Some ("/uploads/" ++ filename)
  | None => None
  end.

(** [POST /submitComplaint]; [file] is the name multer stored the upload
    under, if there was one. *)
Definition post_submitComplaint
    (subject description location mobile otp category : option string)
    (file : option string) (rnd : nat -> Z) : Handler :=
  try_catch
    (let image_path := upload_path file in
     if Js.falsy subject || Js.falsy description
        || Js.falsy location || Js.falsy category
     then ret (json 400 [("success", j_bool false);
                         ("message", j_str "Missing required fields.")])
     else
       let caseId := generateCaseId rnd in
       pool_query (mkQuery insert_complaint
                           [p_text caseId; p_field subject;
                            p_field description; p_field category;
                            p_field image_path; p_field location;
                            p_field mobile])
                  (exec_insert_complaint (Some caseId) subject description
                                         category image_path location
                                         mobile) ;;;
       ret (json 200 [("success", j_bool true);
                      ("caseId", j_str caseId);
                      ("subject", j_field subject);
                      ("category", j_field category);
                      ("location", j_field location)]))
    (fun _ => json 500 [("success", j_bool false);
                        ("message",
                         j_str "Error submitting complaint to the database.")]).

(** [POST /trackStatus] *)
Definition post_trackStatus (caseId : option string) : Handler :=
  fun w =>
    match caseId with
    | None | Some "" =>
        (render_trackStatusForm None (Some "⚠️ Please enter a Case ID"), w)
    | Some id =>
        try_catch
          (result <- pool_query (mkQuery select_complaint_by_case_id
                                         [p_text (Js.trim id)])
                                (exec_select_complaint_by_case_id (Js.trim id)) ;;
           match result with
           | [] => ret (render_trackStatusForm None (Some "❌ Case ID not found"))
           | complaint :: _ => ret (render_trackStatusForm (Some complaint) None)
           end)
          (fun _ => render_trackStatusForm None (Some "⚠️ Server error"))
          w
    end.

Section MissingPersons.

(** Input of a [DATE]; the store decides which texts are dates. *)
Variable date_in : string -> option Z.

Definition date_param (p : option string) : Pg.error + option Z :=
  match p with
  | None => inr None
  | Some s => match date_in s with
              | Some d => inr (Some d)
              | None => inl Pg.invalid_datetime_format
              end
  end.

(** [INSERT INTO missing_persons (case_id, name, age, gender, last_seen_date,
    last_seen_location, description, media_path, reporter_mobile)
    VALUES ($1, $2, $3, $4, $5, $6, $7, $8, $9)] *)
Definition exec_insert_missing_person (case_id : string)
    (name age gender lastSeen location description media_path reporter_mobile
     : option string)
    (now : Z) (db : DB) : (Pg.error + unit) * DB :=
  match Pg.nullable Pg.int4_in age with
  | inl e => (inl e, db)
  | inr age' =>
  match date_param lastSeen with
  | inl e => (inl e, db)
  | inr last_seen_date =>
  match Pg.nullable Pg.int8_in reporter_mobile with
  | inl e => (inl e, db)
  | inr mobile =>
      let id := missing_persons_id_seq db + 1 in
      let rejected e :=
        (inl e,
         mkDB (admins db) (admins_id_seq db) (codinCluc db)
              (codinCluc_id_seq db) (missing_persons db) id) in
      match name with
      | None => rejected (Pg.not_null_violation "name")
      | Some n =>
          if existsb (fun r => String.eqb (MissingPerson.case_id r) case_id)
                     (missing_persons db)
          then rejected (Pg.unique_violation "missing_persons_case_id_key")
          else
            (inr tt,
             mkDB (admins db) (admins_id_seq db) (codinCluc db)
                  (codinCluc_id_seq db)
                  (missing_persons db ++
                     [MissingPerson.mk id case_id n age' gender last_seen_date
                                       location description media_path mobile
                                       (Some "Active") (Some now)])
                  id)
      end
  end end end.

(** [POST /submit-missing-person] *)
Definition post_submit_missing_person
    (name age gender lastSeen location description reporter_mobile
     : option string)
    (file : option string) (rnd : nat -> Z) : Handler :=
  try_catch
    (let media_path := upload_path file in
     if Js.falsy name || Js.falsy age || Js.falsy gender
        || Js.falsy lastSeen || Js.falsy location || Js.falsy reporter_mobile
     then ret (json 400 [("success", j_bool false);
                         ("message", j_str "Missing required fields.")])
     else
       let caseId := generateCaseId rnd in
       pool_query (mkQuery insert_missing_person
                           [p_text caseId; p_field name; p_field age;
                            p_field gender; p_field lastSeen;
                            p_field location; p_field description;
                            p_field media_path; p_field reporter_mobile])
                  (exec_insert_missing_person caseId name age gender lastSeen
                                              location description media_path
                                              reporter_mobile) ;;;
       ret (json 200 [("success", j_bool true);
                      ("caseId", j_str caseId);
                      ("message",
                       j_str "Missing person report submitted successfully.")]))
    (fun _ => json 500 [("success", j_bool false);
                        ("message",
                         j_str "Error submitting report to the database.")]).

End MissingPersons.


(** ** Vocabulary of the properties *)

Definition upper_alnum (c : ascii) : bool :=
  let n := N_of_ascii c in
  ((N.leb 65 n && N.leb n 90) || (N.leb 48 n && N.leb n 57))%N.

(** The shape of a generated case identifier: ["CASE-"] and six upper-case
    letters or digits. *)
Definition case_id_shape (s : string) : bool :=
  match s with
  | String "C" (String "A" (String "S" (String "E" (String "-" suffix)))) =>
      (String.length suffix =? 6)%nat
      && forallb upper_alnum (list_ascii_of_string suffix)
  | _ => false
  end.

Definition lower_char (c : ascii) : ascii :=
  let n := N_of_ascii c in
  if (N.leb 65 n && N.leb n 90)%N then ascii_of_N (n + 32) else c.

(** The lowercased form of an identifier. *)
Fixpoint lower (s : string) : string :=
  match s with
  | String c s' => String (lower_char c) (lower s')
  | EmptyString => EmptyString
  end.

(** [y] is [x] up to the case of its letters. *)
Definition case_variant (x y : string) : Prop := lower y = lower x.

(** An ASCII character that is not white space and not the byte 0. *)
Definition plain_char (c : ascii) : bool :=
  negb (Js.is_space c) && (0 <? N_of_ascii c)%N && (N_of_ascii c <? 128)%N.

(** An ASCII text without white space. *)
Definition no_space (s : string) : bool :=
  forallb plain_char (list_ascii_of_string s).

(** An ASCII text that a text parameter can carry: no byte is 0. *)
Definition ascii_text (s : string) : bool :=
  forallb (fun c => (0 <? N_of_ascii c)%N && (N_of_ascii c <? 128)%N)
          (list_ascii_of_string s).

(** The validity window of a code, in milliseconds. *)
Definition otp_window : Z := 5 * 60 * 1000.

(** No stored code outlives the window counted from the present, as the
    store reads it. *)
Definition otp_expiries_bounded (w : World) : Prop :=
  Forall (fun r => match Admin.otp_expires r with
                   | Some e => e <= timestamp_in w (clock w + otp_window)
                   | None => True
                   end)
         (admins (tables w)).

(** Code of a handler that leaves the time zones alone. *)
Definition keeps_zone {A} (m : M A) : Prop :=
  forall w, zone_shift (snd (m w)) = zone_shift w.

(** Every stored complaint carries a generated identifier, and no two carry
    the same one. *)
Definition complaints_wf (db : DB) : Prop :=
  Forall (fun r => exists x, Complaint.case_id r = Some x
                             /\ case_id_shape x = true)
         (codinCluc db)
  /\ NoDup (map Complaint.case_id (codinCluc db)).

Definition ok_true : response := json 200 [("success", j_bool true)].
Definition ok_false : response := json 200 [("success", j_bool false)].

Definition validation_error : response :=
  json 400 [("success", j_bool false);
            ("message", j_str "Missing required fields.")].

Definition complaint_store_error : response :=
  json 500 [("success", j_bool false);
            ("message", j_str "Error submitting complaint to the database.")].

Definition report_store_error : response :=
  json 500 [("success", j_bool false);
            ("message", j_str "Error submitting report to the database.")].

Definition otp_issued (code : string) : response :=
  json 200 [("success", j_bool true); ("otp", j_str code)].

Definition otp_accepted : response := redirect "/adminDashboard".

Definition otp_rejected : response :=
  render_adminLogin (Some "❌ Invalid or expired OTP").

(** What [UPDATE codinCluc SET status='Resolved' WHERE id=i] does to a row. *)
Definition resolve_row (i : Z) (r : Complaint.row) : Complaint.row :=
  if Complaint.id r =? i then Complaint.set_status (Some "Resolved") r else r.

(** The code that [POST /adminLogin] makes of the draw [k]. *)
Definition admin_otp (k : Z) : string :=
  Js.toString
    (Js.Math_floor (inject_Z 100000 + Js.Math_random k * inject_Z 900000)%Q).

(** The row belongs to department [d]. *)
Definition of_department (d : option string) (r : Admin.row) : bool :=
  Pg.text_eq (Admin.department_id r) d.

(** The row holds [code] unexpired at [now]: the [WHERE] of the verification. *)
Definition holds_code (code : option string) (now : Z) (r : Admin.row) : bool :=
  Pg.text_eq (Admin.otp r) code && unexpired now r.

(** Some row other than those of department [d] holds [code] unexpired. *)
Definition held_elsewhere (d : option string) (code : string) (now : Z)
    (db : DB) : bool :=
  existsb (fun r => negb (of_department d r) && holds_code (Some code) now r)
          (admins db).

(** The queries of the two creation paths. *)
Definition insert_complaint_query (caseId : string)
    (subject description category image_path location mobile : option string)
  : query :=
  mkQuery insert_complaint
          [p_text caseId; p_field subject; p_field description;
           p_field category; p_field image_path; p_field location;
           p_field mobile].

Definition insert_missing_person_query (caseId : string)
    (name age gender lastSeen location description media_path reporter_mobile
     : option string) : query :=
  mkQuery insert_missing_person
          [p_text caseId; p_field name; p_field age; p_field gender;
           p_field lastSeen; p_field location; p_field description;
           p_field media_path; p_field reporter_mobile].

(** White space characters of more than one byte: U+00A0, U+2028 and
    U+FEFF. *)
Definition nbsp : string := String "194" (String "160" "").
Definition line_separator : string :=
  String "226" (String "128" (String "168" "")).
Definition byte_order_mark : string :=
  String "239" (String "187" (String "191" "")).

(** The given texts one after the other. *)
Fixpoint join (l : list string) : string :=
  match l with
  | [] => ""
  | u :: l' => u ++ join l'
  end.

(** Worlds and draws used in the examples. *)
Definition world_start : World := mkWorld empty_db true 0 [].

(** Six draws of 0, which give ["CASE-AAAAAA"]. *)
Definition draws_A : nat -> Z := fun _ => 0.

(** Six draws of 0 and then draws of [2^52], which give ["CASE-SSSSSS"]. *)
Definition draws_A_then_S : nat -> Z :=
  fun i => if (i <? 6)%nat then 0 else 2 ^ 52.

Definition world_one_complaint : World :=
  snd (post_submitComplaint (Some "Pothole") (Some "Large pothole")
                            (Some "Main St") (Some "9876543210") None
                            (Some "Roads") None draws_A world_start).

(** A second complaint, one second later. *)
Definition world_two_complaints : World :=
  snd (post_submitComplaint (Some "Lamp") (Some "Street lamp out")
                            (Some "Hill Rd") (Some "9876500000") None
                            (Some "Lights") (Some "lamp.jpg")
                            (fun i => draws_A_then_S (6 + i)%nat)
                            (set_clock 1000 world_one_complaint)).

Definition any_date : string -> option Z := fun _ => Some 0.

Definition world_one_of_each : World :=
  snd (post_submit_missing_person any_date (Some "Asha") (Some "9")
                                  (Some "F") (Some "2024-01-05")
                                  (Some "Main St") None (Some "9876543210")
                                  None draws_A world_one_complaint).

(** Departments D1 and D2 are both issued the code of draw 0, and then D1 is
    issued the code of draw [2^52], one second later. *)
Definition world_two_admins : World :=
  snd (post_adminLogin (Some "Bina") (Some "Water") (Some "D2")
                       (Some "9876500000") 0
         (snd (post_adminLogin (Some "Asha") (Some "Roads") (Some "D1")
                               (Some "9876543210") 0 world_start))).

Definition world_reissued : World :=
  snd (post_adminLogin (Some "Asha") (Some "Roads") (Some "D1")
                       (Some "9876543210") (2 ^ 52)
                       (set_clock 1000 world_two_admins)).

(** The requests of the model and the states they lead to. *)
Inductive request : Type :=
| GET_home
| POST_adminLogin (name department_name department_id mobile_no : option string)
                  (k : Z)
| POST_verify_admin_otp (otpInput : option string)
| POST_mark_resolved (id : string)
| POST_submitComplaint (subject description location mobile otp category
                        file : option string) (rnd : nat -> Z)
| POST_trackStatus (caseId : option string)
| POST_submit_missing_person (name age gender lastSeen location description
                              reporter_mobile file : option string)
                             (rnd : nat -> Z).

(** The request is an admin login. *)
Definition is_login (r : request) : bool :=
  match r with
  | POST_adminLogin _ _ _ _ _ => true
  | _ => false
  end.

(** The draws of a request are draws of [Math.random()]. *)
Definition valid_request (r : request) : Prop :=
  match r with
  | POST_adminLogin _ _ _ _ k => Js.valid_draw k
  | POST_submitComplaint _ _ _ _ _ _ _ rnd
  | POST_submit_missing_person _ _ _ _ _ _ _ _ rnd =>
      forall i, (i < 6)%nat -> Js.valid_draw (rnd i)
  | _ => True
  end.

Section Server.

Variable date_in : string -> option Z.

Definition handle (r : request) : Handler :=
  match r with
  | GET_home => get_home
  | POST_adminLogin n dn d m k => post_adminLogin n dn d m k
  | POST_verify_admin_otp c => post_verify_admin_otp c
  | POST_mark_resolved id => post_mark_resolved id
  | POST_submitComplaint s d l m o c f rnd =>
      post_submitComplaint s d l m o c f rnd
  | POST_trackStatus c => post_trackStatus c
  | POST_submit_missing_person n a g ls l d m f rnd =>
      post_submit_missing_person date_in n a g ls l d m f rnd
  end.

(** The worlds the server can be in: it starts on empty tables, serves
    requests one after the other, time passes and the store comes and
    goes. *)
Inductive reachable : World -> Prop :=
| reachable_start : forall o t z, reachable (mkWorldIn empty_db o t [] z)
| reachable_request : forall w r,
    reachable w -> valid_request r -> reachable (snd (handle r w))
| reachable_tick : forall w t,
    reachable w -> clock w <= t -> reachable (set_clock t w)
| reachable_outage : forall w b,
    reachable w -> reachable (set_online b w).

(** The worlds that follow [w] while no admin logs in: other requests are
    served, time passes and the store comes and goes. *)
Inductive follows_without_login (w : World) : World -> Prop :=
| follows_at_once : follows_without_login w w
| follows_request : forall w2 r,
    follows_without_login w w2 -> is_login r = false ->
    follows_without_login w (snd (handle r w2))
| follows_tick : forall w2 t,
    follows_without_login w w2 -> clock w2 <= t ->
    follows_without_login w (set_clock t w2)
| follows_outage : forall w2 b,
    follows_without_login w w2 -> follows_without_login w (set_online b w2).

End Server.


(** ** Further routes and vocabulary *)

(** The number behind the one-time code of draw [k]:
    [Math.floor(100000 + Math.random() * 900000)]. *)
Definition otp_number (k : Z) : Z :=
  Js.Math_floor (inject_Z 100000 + Js.Math_random k * inject_Z 900000)%Q.

(** [/^\d{10}$/.test(s)] *)
Definition ten_digits (s : string) : bool :=
  (String.length s =? 10)%nat && forallb Js.is_digit (list_ascii_of_string s).

(** [POST /send-otp]; [k] is the draw behind the code. *)
Definition post_send_otp (mobile : option string) (k : Z) : Handler :=
  fun w =>
    if Js.falsy mobile
       || negb (match mobile with Some s => ten_digits s | None => false end)
    then (json 400 [("success", j_bool false);
                    ("message", j_str "Invalid mobile number.")], w)
    else
      let otp :=
        Js.toString
          (Js.Math_floor (inject_Z 100000
                          + Js.Math_random k * inject_Z 900000)%Q) in
      (json 200 [("success", j_bool true);
                 ("message", j_str "OTP sent successfully.");
                 ("otp", j_str otp)], w).

(** [path.startsWith(prefix)] *)
Definition startsWith (prefix s : string) : bool := String.prefix prefix s.

(** [res.locals.getMediaPath] *)
Definition getMediaPath (path : option string) : string :=
  match path with
  | Some p =>
      if negb (Js.falsy path) && startsWith "/uploads/" p then p
      else "https://via.placeholder.com/320x200?text=No+Image"
  | None => "https://via.placeholder.com/320x200?text=No+Image"
  end.

(** [getStatusColor] of [POST /trackStatus]. *)
Definition getStatusColor (status : option string) : string :=
  match status with
  | Some "Submitted" => "#ff9800"
  | Some "In Review" => "#2196f3"
  | Some "Resolved" => "#4caf50"
  | Some "Closed" => "#9e9e9e"
  | _ => "#000"
  end.


(** A text field that is present and not empty. *)
Definition filled (x : option string) : Prop :=
  exists s, x = Some s /\ s <> "".

(** The status values that the code writes to a complaint. *)
Definition written_status (s : option string) : Prop :=
  s = Some "Submitted" \/ s = Some "Resolved".

(** A stored media path: none, or a file under ["/uploads/"]. *)
Definition uploaded (p : option string) : Prop :=
  p = None \/ exists filename, p = Some ("/uploads/" ++ filename).

(** What holds of the admins: a department identifier that is filled in,
    and primary keys handed out by the sequence. *)
Definition admins_inv (rows : list Admin.row) (seq : Z) : Prop :=
  0 <= seq
  /\ NoDup (map Admin.id rows)
  /\ Forall (fun r => filled (Admin.department_id r)
                      /\ 0 < Admin.id r <= seq)
            rows.

(** What holds of the complaints besides [complaints_wf]: primary keys handed
    out by the sequence, the fields that the validation asks for, and a
    status that the code writes. *)
Definition complaints_inv (rows : list Complaint.row) (seq : Z) : Prop :=
  0 <= seq
  /\ NoDup (map Complaint.id rows)
  /\ Forall (fun r => 0 < Complaint.id r <= seq
                      /\ written_status (Complaint.status r)
                      /\ Complaint.subject r <> ""
                      /\ Complaint.description r <> ""
                      /\ filled (Complaint.category r)
                      /\ filled (Complaint.location r)
                      /\ uploaded (Complaint.image_path r))
            rows.

(** What holds of the missing-person reports: distinct generated
    identifiers, primary keys handed out by the sequence, a name, and the
    status they were created with. *)
Definition reports_inv (rows : list MissingPerson.row) (seq : Z) : Prop :=
  0 <= seq
  /\ NoDup (map MissingPerson.case_id rows)
  /\ NoDup (map MissingPerson.id rows)
  /\ Forall (fun r => case_id_shape (MissingPerson.case_id r) = true
                      /\ 0 < MissingPerson.id r <= seq
                      /\ MissingPerson.name r <> ""
                      /\ MissingPerson.status r = Some "Active"
                      /\ uploaded (MissingPerson.media_path r))
            rows.

Definition store_inv (db : DB) : Prop :=
  admins_inv (admins db) (admins_id_seq db)
  /\ complaints_inv (codinCluc db) (codinCluc_id_seq db)
  /\ reports_inv (missing_persons db) (missing_persons_id_seq db).

(** [b] is the admin row [a], possibly with another code and expiry. *)
Definition same_admin (a b : Admin.row) : Prop :=
  Admin.id b = Admin.id a /\ Admin.name b = Admin.name a
  /\ Admin.department_name b = Admin.department_name a
  /\ Admin.department_id b = Admin.department_id a
  /\ Admin.mobile_no b = Admin.mobile_no a
  /\ Admin.created_at b = Admin.created_at a.

(** The complaint that [POST /submitComplaint] stores. *)
Definition new_complaint (db : DB) (now : Z) (caseId s d : string)
    (category image_path : option string) (m : Z) (location : option string)
  : Complaint.row :=
  Complaint.mk (codinCluc_id_seq db + 1) (Some caseId) s d category image_path
               m location (Some now) (Some "Submitted").


(** ** The routes beside the core: listings and registration

    These routes read the tables of the core and keep the table
    [LoginDeatails].  Their state is a [Site]: the world of the core, that
    table, and the record of their own [pool.query] calls. *)

(** Table [LoginDeatails]. *)
Module Registrant.
Record row : Type := mk {
  id : Z;
  first_name : string;
  last_name : string;
  gender : string;
  age : option Z;
  email_id : string;
  address : string;
  created_at : option Z
}.
End Registrant.

Inductive site_error : Type :=
| store_error (e : Pg.error)
| check_violation (constraint : string)
| string_data_right_truncation (length : nat).

Inductive site_sql : Type :=
| select_complaints_by_mobile
| select_complaints_newest_first
| select_missing_persons_newest_first
| select_complaints_located
| select_registrant_by_name
| insert_registrant.

Record site_query : Type :=
  mkSiteQuery { site_text : site_sql; site_values : list param }.

Record Site : Type := mkSite {
  core : World;
  LoginDeatails : list Registrant.row;
  LoginDeatails_id_seq : Z;
  site_log : list (site_query * option site_error)
}.

(** The site when the server starts on a fresh database. *)
Definition site_start : Site := mkSite world_start [] 0 [].

(** Code of these routes that may throw a store error. *)
Definition SiteM (A : Type) : Type := Site -> (site_error + A) * Site.

Definition retS {A} (a : A) : SiteM A := fun s => (inr a, s).

Definition bindS {A B} (m : SiteM A) (f : A -> SiteM B) : SiteM B :=
  fun s => match m s with
           | (inl e, s') => (inl e, s')
           | (inr a, s') => f a s'
           end.

Notation "x <~ m ;; k" := (bindS m (fun x => k))
  (at level 61, m at next level, right associativity).

Definition try_catchS {A} (body : SiteM A) (handler : site_error -> A)
  : Site -> A * Site :=
  fun s => match body s with
           | (inl e, s') => (handler e, s')
           | (inr a, s') => (a, s')
           end.

Definition site_outcome {A} (r : site_error + A) : option site_error :=
  match r with
  | inl e => Some e
  | inr _ => None
  end.

(** [await pool.query(text, values)] for a [SELECT] on the tables of the
    core. *)
Definition select_query {A} (q : site_query)
    (exec : Z -> DB -> site_error + A) : SiteM A :=
  fun s =>
    if online (core s) then
      let r := exec (clock (core s)) (tables (core s)) in
      (r, mkSite (core s) (LoginDeatails s) (LoginDeatails_id_seq s)
                 (site_log s ++ [(q, site_outcome r)]))
    else
      (inl (store_error Pg.connection_failure),
       mkSite (core s) (LoginDeatails s) (LoginDeatails_id_seq s)
              (site_log s
               ++ [(q, Some (store_error Pg.connection_failure))])).

(** [await pool.query(text, values)] for a statement on [LoginDeatails]. *)
Definition registry_query {A} (q : site_query)
    (exec : Z -> list Registrant.row -> Z
            -> (site_error + A) * (list Registrant.row * Z)) : SiteM A :=
  fun s =>
    if online (core s) then
      let '(r, (rows, seq)) :=
        exec (clock (core s)) (LoginDeatails s) (LoginDeatails_id_seq s) in
      (r, mkSite (core s) rows seq (site_log s ++ [(q, site_outcome r)]))
    else
      (inl (store_error Pg.connection_failure),
       mkSite (core s) (LoginDeatails s) (LoginDeatails_id_seq s)
              (site_log s
               ++ [(q, Some (store_error Pg.connection_failure))])).

(** [ORDER BY created_at DESC], as a stable insertion sort: rows with equal
    creation times keep the order of the table. *)
Fixpoint insert_newest {A} (key : A -> option Z) (x : A) (l : list A)
  : list A :=
  match l with
  | [] => [x]
  | y :: l' =>
      if newer (key y) (key x) then y :: insert_newest key x l'
      else x :: y :: l'
  end.

Fixpoint order_by_desc {A} (key : A -> option Z) (l : list A) : list A :=
  match l with
  | [] => []
  | x :: l' => insert_newest key x (order_by_desc key l')
  end.

(** [a] may come before [b] under [ORDER BY created_at DESC]. *)
Definition not_older {A} (key : A -> option Z) (a b : A) : Prop :=
  newer (key b) (key a) = false.

Inductive page : Type :=
| render_myComplaints (complaints : list Complaint.row)
                      (mobile : option string) (message : option string)
| render_adminDashboard (complaints : list Complaint.row)
                        (missing_persons : list MissingPerson.row)
| render_map (complaints : list (option string * string
                                 * option string * option string))
| render_missing_persons_list (missing_persons : list MissingPerson.row)
| render_userLogin (message : option string)
| redirect_to (url : string)
| send (status : Z) (body : string).

Definition SiteHandler : Type := Site -> page * Site.

(** [SELECT * FROM codinCluc WHERE mobile_no = $1 ORDER BY created_at DESC] *)
Definition exec_select_complaints_by_mobile (mobile : string)
    (now : Z) (db : DB) : site_error + list Complaint.row :=
  match Pg.int8_in mobile with
  | inl e => inl (store_error e)
  | inr m =>
      inr (order_by_desc Complaint.created_at
             (filter (fun r => Complaint.mobile_no r =? m) (codinCluc db)))
  end.

(** [POST /my-complaints] *)
Definition post_my_complaints (mobile : option string) : SiteHandler :=
  fun s =>
    match mobile with
    | None | Some "" =>
        (render_myComplaints [] None (Some "Please enter a mobile number."), s)
    | Some m =>
        try_catchS
          (result <~ select_query (mkSiteQuery select_complaints_by_mobile
                                               [p_text m])
                                  (exec_select_complaints_by_mobile m) ;;
           retS (render_myComplaints result mobile None))
          (fun _ => render_myComplaints [] mobile
                                        (Some "Error fetching complaints."))
          s
    end.

(** [SELECT * FROM codinCluc ORDER BY created_at DESC] *)
Definition exec_select_complaints_newest_first
    (now : Z) (db : DB) : site_error + list Complaint.row :=
  inr (order_by_desc Complaint.created_at (codinCluc db)).

(** [SELECT * FROM missing_persons ORDER BY created_at DESC] *)
Definition exec_select_missing_persons_newest_first
    (now : Z) (db : DB) : site_error + list MissingPerson.row :=
  inr (order_by_desc MissingPerson.created_at (missing_persons db)).

(** [GET /adminDashboard] *)
Definition get_adminDashboard : SiteHandler :=
  try_catchS
    (complaintsResult <~
       select_query (mkSiteQuery select_complaints_newest_first [])
                    exec_select_complaints_newest_first ;;
     missingPersonsResult <~
       select_query (mkSiteQuery select_missing_persons_newest_first [])
                    exec_select_missing_persons_newest_first ;;
     retS (render_adminDashboard complaintsResult missingPersonsResult))
    (fun _ => send 500 "Database error").

(** [GET /missing-persons] *)
Definition get_missing_persons : SiteHandler :=
  try_catchS
    (result <~
       select_query (mkSiteQuery select_missing_persons_newest_first [])
                    exec_select_missing_persons_newest_first ;;
     retS (render_missing_persons_list result))
    (fun _ => send 500 "Error fetching missing person reports.").

(** [location IS NOT NULL AND location <> ''] *)
Definition located (r : Complaint.row) : bool :=
  match Complaint.location r with
  | Some l => negb (String.eqb l "")
  | None => false
  end.

Section MapView.

(** The statement of the map view has no [ORDER BY]: the rows come in the
    order in which the store finds them, which is its own. *)
Variable scan_order : list Complaint.row -> list Complaint.row.

(** [SELECT case_id, subject, location, status FROM codinCluc
    WHERE location IS NOT NULL AND location <> ''] *)
Definition exec_select_complaints_located (now : Z) (db : DB)
  : site_error + list (option string * string * option string * option string) :=
  inr (map (fun r => (Complaint.case_id r, Complaint.subject r,
                      Complaint.location r, Complaint.status r))
           (filter located (scan_order (codinCluc db)))).

(** [GET /map-view] *)
Definition get_map_view : SiteHandler :=
  try_catchS
    (result <~ select_query (mkSiteQuery select_complaints_located [])
                            exec_select_complaints_located ;;
     retS (render_map result))
    (fun _ => send 500 "Error loading map data").

End MapView.

(** What the store does with the parameters of a statement before it runs
    the statement. *)
Definition and_then {A B} (r : site_error + A) (k : A -> site_error + B)
  : site_error + B :=
  match r with
  | inl e => inl e
  | inr a => k a
  end.

Notation "x <-- r ;; k" := (and_then r (fun x => k))
  (at level 61, r at next level, right associativity).

(** A text parameter. *)
Definition text_in (s : string) : site_error + string :=
  if Pg.has_nul s then inl (store_error Pg.character_not_in_repertoire)
  else inr s.

(** An [INT] parameter. *)
Definition int4_param (s : string) : site_error + Z :=
  _ <-- text_in s ;;
  match Pg.int4_in s with
  | inl e => inl (store_error e)
  | inr a => inr a
  end.

(** [SELECT * FROM LoginDeatails WHERE first_name=$1 AND last_name=$2
    LIMIT 1] *)
Definition exec_select_registrant_by_name (first_name last_name : string)
    (now : Z) (rows : list Registrant.row) (seq : Z)
  : (site_error + list Registrant.row) * (list Registrant.row * Z) :=
  (f <-- text_in first_name ;;
   l <-- text_in last_name ;;
   inr (firstn 1
          (filter (fun r => String.eqb (Registrant.first_name r) f
                            && String.eqb (Registrant.last_name r) l)
                  rows)),
   (rows, seq)).

(** A text stored in a [VARCHAR(n)] column, whose length is counted in
    characters: longer texts are an error, unless only spaces are cut
    off. *)
Definition varchar (n : nat) (s : string) : site_error + string :=
  if (Pg.char_length s <=? n)%nat then inr s
  else
    let '(kept, cut) := Pg.split_chars n s in
    if forallb (fun c => Ascii.eqb c " ") (list_ascii_of_string cut)
    then inr kept
    else inl (string_data_right_truncation n).

(** [INSERT INTO LoginDeatails (first_name, last_name, gender, age, email_id,
    address) VALUES ($1,$2,$3,$4,$5,$6) RETURNING *], with
    [CHECK (age >= 5 AND age <= 120)].  The parameters are read and cut to
    their columns before the statement runs, and so before the sequence is
    advanced; the check comes after. *)
Definition exec_insert_registrant
    (first_name last_name gender age email_id address : string)
    (now : Z) (rows : list Registrant.row) (seq : Z)
  : (site_error + Registrant.row) * (list Registrant.row * Z) :=
  let bound :=
    f <-- text_in first_name ;;
    l <-- text_in last_name ;;
    g <-- text_in gender ;;
    a <-- int4_param age ;;
    m <-- text_in email_id ;;
    ad <-- text_in address ;;
    f <-- varchar 100 f ;;
    l <-- varchar 100 l ;;
    g <-- varchar 20 g ;;
    m <-- varchar 100 m ;;
    ad <-- varchar 250 ad ;;
    inr (fun id => Registrant.mk id f l g (Some a) m ad (Some now), a) in
  match bound with
  | inl e => (inl e, (rows, seq))
  | inr (row, a) =>
      let id := seq + 1 in
      if (5 <=? a) && (a <=? 120)
      then (inr (row id), ((rows ++ [row id])%list, id))
      else (inl (check_violation "logindeatails_age_check"), (rows, id))
  end.

(** The text of a body field that is present. *)
Definition field_text (x : option string) : string :=
  match x with
  | Some s => s
  | None => ""
  end.

(** [POST /userLogin] *)
Definition post_userLogin
    (first_name last_name gender age email_id address : option string)
  : SiteHandler :=
  fun s =>
    if Js.falsy first_name || Js.falsy last_name || Js.falsy gender
       || Js.falsy age || Js.falsy email_id || Js.falsy address
    then (render_userLogin (Some "All fields are required"), s)
    else
      try_catchS
        (result <~
           registry_query (mkSiteQuery select_registrant_by_name
                                       [p_field first_name; p_field last_name])
                          (exec_select_registrant_by_name
                             (field_text first_name) (field_text last_name)) ;;
         if (List.length result =? 0)%nat
         then
           (insertResult <~
              registry_query (mkSiteQuery insert_registrant
                                          [p_field first_name;
                                           p_field last_name; p_field gender;
                                           p_field age; p_field email_id;
                                           p_field address])
                             (exec_insert_registrant
                                (field_text first_name) (field_text last_name)
                                (field_text gender) (field_text age)
                                (field_text email_id) (field_text address)) ;;
            retS (redirect_to "/?login=success"))
         else retS (redirect_to "/?login=success"))
        (fun _ => render_userLogin (Some "Database error"))
        s.


(** What holds of the registrants: an age between 5 and 120 and texts
    within the lengths of their columns, counted in characters. *)
Definition registry_inv (rows : list Registrant.row) : Prop :=
  Forall (fun r => (exists a, Registrant.age r = Some a /\ 5 <= a <= 120)
                   /\ (Pg.char_length (Registrant.first_name r) <= 100)%nat
                   /\ (Pg.char_length (Registrant.last_name r) <= 100)%nat
                   /\ (Pg.char_length (Registrant.gender r) <= 20)%nat
                   /\ (Pg.char_length (Registrant.email_id r) <= 100)%nat
                   /\ (Pg.char_length (Registrant.address r) <= 250)%nat)
         rows.

(** Some registrant has this first and last name. *)
Definition registered (first_name last_name : string)
    (rows : list Registrant.row) : bool :=
  existsb (fun r => String.eqb (Registrant.first_name r) first_name
                    && String.eqb (Registrant.last_name r) last_name)
          rows.


(** A name of 60 characters in 120 bytes: U+00E9 sixty times. *)
Definition long_name : string :=
  join (repeat (String "195" (String "169" "")) 60).


(** * Properties *)

(** ** Characters and strings *)

Ltac each_ascii c :=
  destruct c as [[] [] [] [] [] [] [] []]; try reflexivity; try discriminate.

Lemma upper_of_lower_char (c : ascii) :
  Pg.upper_char (lower_char c) = Pg.upper_char c.
Proof. each_ascii c. Qed.

Lemma upper_of_lower (s : string) : Pg.upper (lower s) = Pg.upper s.
Proof.
  induction s as [|c s IH]; simpl; [reflexivity|].
  now rewrite upper_of_lower_char, IH.
Qed.

Lemma case_variant_upper (x y : string) :
  case_variant x y -> Pg.upper y = Pg.upper x.
Proof.
  unfold case_variant; intros H.
  rewrite <- (upper_of_lower y), <- (upper_of_lower x).
  now rewrite H.
Qed.

Lemma lower_idempotent_char (c : ascii) : lower_char (lower_char c) = lower_char c.
Proof. each_ascii c. Qed.

Lemma lower_is_case_variant (x : string) : case_variant x (lower x).
Proof.
  unfold case_variant.
  induction x as [|c x IH]; simpl; [reflexivity|].
  now rewrite lower_idempotent_char, IH.
Qed.

Lemma upper_alnum_fixed (c : ascii) :
  upper_alnum c = true -> Pg.upper_char c = c.
Proof. each_ascii c. Qed.

Lemma upper_alnum_no_space (c : ascii) :
  upper_alnum c = true -> plain_char c = true.
Proof. each_ascii c. Qed.

Lemma space_of_upper_char (c : ascii) :
  plain_char (Pg.upper_char c) = plain_char c.
Proof. each_ascii c. Qed.

Lemma plain_char_no_nul (c : ascii) :
  plain_char c = true -> Js.is_byte 0 c = false.
Proof. each_ascii c. Qed.

Lemma plain_char_first (c : ascii) :
  plain_char c = true -> Js.is_space c = false /\ Js.space_lead c = false.
Proof. each_ascii c; now split. Qed.

Lemma plain_char_last (c : ascii) (s : string) :
  plain_char c = true -> Js.space_char (String c s) = false.
Proof.
  intros H. destruct (plain_char_first c H) as [Hs Hl].
  destruct s as [|b [|d [|e s]]]; cbn [Js.space_char]; try reflexivity.
  - exact Hs.
  - unfold Js.space2. unfold Js.space_lead in Hl.
    destruct (Js.is_byte 194 c); [discriminate | reflexivity].
  - unfold Js.space3. unfold Js.space_lead in Hl.
    destruct (Js.is_byte 194 c); [discriminate|].
    destruct (Js.is_byte 225 c); [discriminate|].
    destruct (Js.is_byte 226 c); [discriminate|].
    destruct (Js.is_byte 227 c); [discriminate|].
    destruct (Js.is_byte 239 c); [discriminate | reflexivity].
Qed.

Lemma upper_fixed (s : string) :
  forallb upper_alnum (list_ascii_of_string s) = true -> Pg.upper s = s.
Proof.
  induction s as [|c s IH]; simpl; [reflexivity|].
  intros H. apply andb_true_iff in H as [Hc Hs].
  now rewrite (upper_alnum_fixed _ Hc), (IH Hs).
Qed.

Lemma no_space_upper (s : string) : no_space (Pg.upper s) = no_space s.
Proof.
  unfold no_space.
  induction s as [|c s IH]; simpl; [reflexivity|].
  now rewrite space_of_upper_char, IH.
Qed.

Lemma no_space_alnum (s : string) :
  forallb upper_alnum (list_ascii_of_string s) = true -> no_space s = true.
Proof.
  unfold no_space.
  induction s as [|c s IH]; simpl; [reflexivity|].
  intros H. apply andb_true_iff in H as [Hc Hs].
  now rewrite (upper_alnum_no_space _ Hc), (IH Hs).
Qed.

Lemma trimStart_no_space (s : string) : no_space s = true -> Js.trimStart s = s.
Proof.
  destruct s as [|c s]; [reflexivity|].
  unfold no_space; cbn [list_ascii_of_string forallb].
  intros H. apply andb_true_iff in H as [Hc _].
  destruct (plain_char_first c Hc) as [Hs Hl].
  cbn [Js.trimStart]. now rewrite Hs, Hl.
Qed.

Lemma trimEnd_no_space (s : string) : no_space s = true -> Js.trimEnd s = s.
Proof.
  unfold no_space.
  induction s as [|c s IH]; [reflexivity|].
  cbn [list_ascii_of_string forallb Js.trimEnd].
  intros H. apply andb_true_iff in H as [Hc Hs].
  rewrite (IH Hs). cbv zeta. now rewrite (plain_char_last c s Hc).
Qed.

Lemma no_space_no_nul (s : string) : no_space s = true -> Pg.has_nul s = false.
Proof.
  unfold no_space, Pg.has_nul.
  induction s as [|c s IH]; [reflexivity|].
  cbn [list_ascii_of_string forallb existsb].
  intros H. apply andb_true_iff in H as [Hc Hs].
  now rewrite (plain_char_no_nul c Hc), (IH Hs).
Qed.

Lemma trim_no_space (s : string) : no_space s = true -> Js.trim s = s.
Proof.
  intros H. unfold Js.trim.
  rewrite (trimStart_no_space _ H). now apply trimEnd_no_space.
Qed.

Lemma ascii_text_no_nul (s : string) :
  ascii_text s = true -> Pg.has_nul s = false.
Proof.
  unfold ascii_text, Pg.has_nul, Js.is_byte.
  induction s as [|c s IH]; [reflexivity|].
  cbn [list_ascii_of_string forallb existsb].
  intros H. apply andb_true_iff in H as [Hc Hs]. rewrite (IH Hs).
  apply andb_true_iff in Hc as [Hc _]. apply N.ltb_lt in Hc.
  destruct (N.eqb_spec (N_of_ascii c) 0); [lia | reflexivity].
Qed.

(** ** White space of more than one byte *)

Ltac byte_facts :=
  unfold Js.space2, Js.space3, Js.space_lead, Js.is_space, Js.is_byte;
  cbv zeta;
  repeat first [ rewrite orb_true_iff | rewrite andb_true_iff
               | rewrite orb_false_iff | rewrite andb_false_iff
               | rewrite N.eqb_eq | rewrite N.leb_le
               | rewrite N.eqb_neq | rewrite N.leb_gt ];
  lia.

Lemma space2_first (a b : ascii) :
  Js.space2 a b = true -> Js.is_space a = false /\ Js.space_lead a = true.
Proof. byte_facts. Qed.

Lemma space2_last (a b : ascii) :
  Js.space2 a b = true -> Js.is_space b = false.
Proof. byte_facts. Qed.

Lemma space3_first (a b c : ascii) :
  Js.space3 a b c = true ->
  Js.is_space a = false /\ Js.space_lead a = true /\ Js.space2 a b = false.
Proof. byte_facts. Qed.

Lemma space3_last (a b c : ascii) :
  Js.space3 a b c = true -> Js.is_space c = false /\ Js.space2 b c = false.
Proof. byte_facts. Qed.

Lemma append_assoc (s t u : string) : (s ++ t) ++ u = s ++ (t ++ u).
Proof.
  induction s as [|c s IH]; cbn [append]; [reflexivity | now rewrite IH].
Qed.

Lemma trimStart_space (u s : string) :
  Js.space_char u = true -> Js.trimStart (u ++ s) = Js.trimStart s.
Proof.
  destruct u as [|a [|b [|c [|e u]]]]; cbn [Js.space_char]; try discriminate;
    intros H; cbn [append Js.trimStart].
  - now rewrite H.
  - destruct (space2_first a b H) as [-> ->]. now rewrite H.
  - destruct (space3_first a b c H) as (-> & -> & ->). now rewrite H.
Qed.

Lemma trimStart_join (l : list string) (s : string) :
  Forall (fun u => Js.space_char u = true) l ->
  Js.trimStart (join l ++ s) = Js.trimStart s.
Proof.
  induction 1 as [|u l Hu _ IH]; [reflexivity|].
  cbn [join]. now rewrite append_assoc, trimStart_space.
Qed.

Lemma trimEnd_space (u s : string) :
  Js.space_char u = true -> Js.trimEnd s = "" -> Js.trimEnd (u ++ s) = "".
Proof.
  destruct u as [|a [|b [|c [|e u]]]]; cbn [Js.space_char]; try discriminate;
    intros H Hs; cbn [append Js.trimEnd]; rewrite Hs; cbv zeta;
    cbn [Js.space_char].
  - now rewrite H.
  - rewrite (space2_last a b H). cbn [Js.space_char]. now rewrite H.
  - destruct (space3_last a b c H) as [-> ->]. cbn [Js.space_char].
    now rewrite H.
Qed.

Lemma trimEnd_join (l : list string) :
  Forall (fun u => Js.space_char u = true) l -> Js.trimEnd (join l) = "".
Proof.
  induction 1 as [|u l Hu _ IH]; [reflexivity|].
  cbn [join]. now apply trimEnd_space.
Qed.

Lemma trimEnd_before_spaces (z s : string) :
  no_space z = true -> z <> "" -> Js.trimEnd s = "" ->
  Js.trimEnd (z ++ s) = z.
Proof.
  unfold no_space. intros Hz Hne Hs.
  induction z as [|c z IH]; [congruence|].
  cbn [list_ascii_of_string forallb] in Hz.
  apply andb_true_iff in Hz as [Hc Hz].
  cbn [append Js.trimEnd]. cbv zeta.
  destruct z as [|c' z'].
  - cbn [append]. rewrite Hs. now rewrite (plain_char_last c "" Hc).
  - rewrite IH by (exact Hz || discriminate).
    now rewrite (plain_char_last c _ Hc).
Qed.

(** [trim] drops the white space characters around a text that has none. *)
Lemma trim_surrounded (before after : list string) (z : string) :
  Forall (fun u => Js.space_char u = true) before ->
  Forall (fun u => Js.space_char u = true) after ->
  no_space z = true -> z <> "" ->
  Js.trim (join before ++ z ++ join after) = z.
Proof.
  intros Hb Ha Hz Hne. unfold Js.trim.
  rewrite trimStart_join by exact Hb.
  assert (Js.trimStart (z ++ join after) = z ++ join after) as ->.
  { destruct z as [|c z]; [congruence|].
    unfold no_space in Hz. cbn [list_ascii_of_string forallb] in Hz.
    apply andb_true_iff in Hz as [Hc _].
    destruct (plain_char_first c Hc) as [Hs Hl].
    cbn [append Js.trimStart]. now rewrite Hs, Hl. }
  apply trimEnd_before_spaces; [exact Hz | exact Hne |].
  now apply trimEnd_join.
Qed.

(** ** Texts that are not numbers *)

Lemma not_a_number_int_in (type : string) (lo hi : Z) (s : string) :
  Pg.not_a_number s = true ->
  Pg.int_in type lo hi s = inl (Pg.invalid_text_representation type).
Proof.
  unfold Pg.not_a_number, Pg.int_in. cbv zeta.
  destruct (Pg.skip_space s) as [|c r]; [reflexivity|].
  destruct c as [[] [] [] [] [] [] [] []]; cbv beta iota;
    intros H; apply negb_true_iff in H; now rewrite H.
Qed.

Lemma shape_inv (x : string) :
  case_id_shape x = true ->
  exists suffix,
    x = "CASE-" ++ suffix
    /\ String.length suffix = 6%nat
    /\ forallb upper_alnum (list_ascii_of_string suffix) = true.
Proof.
  unfold case_id_shape.
  do 5 (destruct x as [|c x]; [discriminate|];
        destruct c as [[] [] [] [] [] [] [] []]; try discriminate).
  intros H. apply andb_true_iff in H as [Hlen Hall].
  exists x. repeat split; [now apply Nat.eqb_eq | exact Hall].
Qed.

(** A generated identifier is its own upper-case form and has no white
    space. *)
Lemma shape_upper (x : string) : case_id_shape x = true -> Pg.upper x = x.
Proof.
  intros H. destruct (shape_inv _ H) as (suffix & -> & _ & Hall).
  simpl. now rewrite (upper_fixed _ Hall).
Qed.

Lemma shape_no_space (x : string) : case_id_shape x = true -> no_space x = true.
Proof.
  intros H. destruct (shape_inv _ H) as (suffix & -> & _ & Hall).
  apply no_space_alnum in Hall. unfold no_space in *. simpl. exact Hall.
Qed.

Lemma shape_not_empty (x : string) : case_id_shape x = true -> x <> "".
Proof. destruct x; [discriminate | congruence]. Qed.

(** ** Random draws *)

Lemma Math_floor_random_scaled (k n : Z) :
  Js.Math_floor (Js.Math_random k * inject_Z n)%Q = (k * n) / 2 ^ 53.
Proof.
  unfold Js.Math_floor, Js.Math_random, Qfloor, Qmult, inject_Z. simpl.
  reflexivity.
Qed.

(** [Math.floor(Math.random() * n)] is an index below [n]. *)
Lemma random_index_range (k n : Z) :
  Js.valid_draw k -> 0 < n ->
  0 <= Js.Math_floor (Js.Math_random k * inject_Z n)%Q < n.
Proof.
  unfold Js.valid_draw. intros Hk Hn.
  rewrite Math_floor_random_scaled.
  split.
  - apply Z.div_pos; nia.
  - apply Z.div_lt_upper_bound; nia.
Qed.

Lemma get_in (s : string) (n : nat) (c : ascii) :
  String.get n s = Some c -> In c (list_ascii_of_string s).
Proof.
  revert n. induction s as [|a s IH]; intros n; simpl; [discriminate|].
  destruct n as [|n].
  - intros [= ->]. now left.
  - intros H. right. now apply (IH n).
Qed.

Lemma get_some (s : string) (n : nat) :
  (n < String.length s)%nat -> exists c, String.get n s = Some c.
Proof.
  revert n. induction s as [|a s IH]; intros n; simpl; [lia|].
  destruct n as [|n]; [eauto|].
  intros H. apply IH. lia.
Qed.

Lemma charAt_in_range (s : string) (i : Z) :
  0 <= i < Z.of_nat (String.length s) ->
  exists c, Js.charAt s i = String c "" /\ In c (list_ascii_of_string s).
Proof.
  intros Hi. unfold Js.charAt.
  destruct (Z.ltb_spec i 0) as [?|_]; [lia|].
  destruct (get_some s (Z.to_nat i)) as [c Hc]; [lia|].
  rewrite Hc. exists c. split; [reflexivity | now apply get_in with (Z.to_nat i)].
Qed.

(** One round of the loop appends one symbol of [chars]. *)
Lemma generateCaseId_round (k : Z) :
  Js.valid_draw k ->
  exists c,
    Js.charAt chars
      (Js.Math_floor
         (Js.Math_random k * inject_Z (Z.of_nat (String.length chars)))%Q)
    = String c ""
    /\ In c (list_ascii_of_string chars).
Proof.
  intros Hk. apply charAt_in_range.
  apply random_index_range; [exact Hk | reflexivity].
Qed.

Lemma append_one (s : string) (c : ascii) (t : string) :
  (s ++ String c "") ++ t = s ++ String c t.
Proof. induction s as [|a s IH]; simpl; [reflexivity | now rewrite IH]. Qed.

Lemma generateCaseId_loop_spec (rnd : nat -> Z) (n i : nat) (id : string) :
  (forall j, (i <= j < i + n)%nat -> Js.valid_draw (rnd j)) ->
  exists suffix,
    generateCaseId_loop rnd n i id = id ++ suffix
    /\ String.length suffix = n
    /\ Forall (fun c => In c (list_ascii_of_string chars))
              (list_ascii_of_string suffix).
Proof.
  revert i id. induction n as [|n IH]; intros i id Hrnd;
    cbn [generateCaseId_loop].
  - exists "". split; [|split; [reflexivity | constructor]].
    clear. induction id as [|a id IH]; simpl; [reflexivity | now rewrite <- IH].
  - destruct (generateCaseId_round (rnd i)) as (c & Hc & Hin).
    { apply Hrnd. lia. }
    rewrite Hc.
    destruct (IH (S i) (id ++ String c "")) as (suffix & Heq & Hlen & Hall).
    { intros j Hj. apply Hrnd. lia. }
    exists (String c suffix). split; [|split].
    + rewrite Heq. apply append_one.
    + simpl. now rewrite Hlen.
    + simpl. now constructor.
Qed.

Lemma chars_upper_alnum :
  forallb upper_alnum (list_ascii_of_string chars) = true.
Proof. reflexivity. Qed.

Lemma chars_distinct : NoDup (list_ascii_of_string chars).
Proof.
  simpl.
  repeat (constructor; [simpl; intros H; repeat (destruct H as [H | H]; [discriminate H|]); exact H|]).
  constructor.
Qed.

Lemma generateCaseId_spec (rnd : nat -> Z) :
  (forall i, (i < 6)%nat -> Js.valid_draw (rnd i)) ->
  exists suffix,
    generateCaseId rnd = "CASE-" ++ suffix
    /\ String.length suffix = 6%nat
    /\ Forall (fun c => In c (list_ascii_of_string chars))
              (list_ascii_of_string suffix).
Proof.
  intros H. apply generateCaseId_loop_spec.
  intros j Hj. apply H. lia.
Qed.

Lemma generateCaseId_shape (rnd : nat -> Z) :
  (forall i, (i < 6)%nat -> Js.valid_draw (rnd i)) ->
  case_id_shape (generateCaseId rnd) = true.
Proof.
  intros H. destruct (generateCaseId_spec rnd H) as (suffix & -> & Hlen & Hall).
  simpl. rewrite Hlen. simpl.
  apply forallb_forall. intros c Hc.
  rewrite Forall_forall in Hall.
  pose proof chars_upper_alnum as Hchars.
  rewrite forallb_forall in Hchars. apply Hchars. now apply Hall.
Qed.

(** C6.  Whatever the draws, the generated identifier is the constant prefix
    ["CASE-"] followed by exactly six symbols, each one of the 36 distinct
    symbols of [chars], which are upper-case letters and digits. *)
Theorem generateCaseId_fixed_shape (rnd : nat -> Z) :
  (forall i, (i < 6)%nat -> Js.valid_draw (rnd i)) ->
  exists suffix,
    generateCaseId rnd = "CASE-" ++ suffix
    /\ String.length suffix = 6%nat
    /\ (forall c, In c (list_ascii_of_string suffix) ->
                  In c (list_ascii_of_string chars) /\ upper_alnum c = true)
    /\ String.length chars = 36%nat
    /\ NoDup (list_ascii_of_string chars).
Proof.
  intros H. destruct (generateCaseId_spec rnd H) as (suffix & Heq & Hlen & Hall).
  exists suffix. repeat split; try assumption.
  - rewrite Forall_forall in Hall. now apply Hall.
  - rewrite Forall_forall in Hall.
    pose proof chars_upper_alnum as Hchars.
    rewrite forallb_forall in Hchars. apply Hchars. now apply Hall.
  - apply chars_distinct.
Qed.

Lemma generateCaseId_fixed_shape_witness :
  exists suffix,
    generateCaseId (fun i => Z.of_nat i * 2 ^ 50) = "CASE-" ++ suffix
    /\ String.length suffix = 6%nat
    /\ (forall c, In c (list_ascii_of_string suffix) ->
                  In c (list_ascii_of_string chars) /\ upper_alnum c = true)
    /\ String.length chars = 36%nat
    /\ NoDup (list_ascii_of_string chars).
Proof.
  apply (generateCaseId_fixed_shape (fun i => Z.of_nat i * 2 ^ 50)).
  intros i Hi. unfold Js.valid_draw. lia.
Defined.

(** ** Decimal text of counts *)

Lemma read_digits_step (acc : Z) (c : ascii) (s : string) :
  Js.is_digit c = true ->
  Js.read_digits acc (String c s)
  = Js.read_digits (acc * 10 + Js.digit_value c) s.
Proof. intros H. cbn [Js.read_digits]. now rewrite H. Qed.

Ltac eval_digit :=
  match goal with
  | |- context [Js.digit_value ?c] =>
      let v := eval vm_compute in (Js.digit_value c) in
      change (Js.digit_value c) with v
  end.

Lemma read_digits_acc (d : Decimal.uint) (acc : positive) :
  Js.read_digits (Z.pos acc) (NilEmpty.string_of_uint d)
  = (Z.pos (Pos.of_uint_acc d acc), "").
Proof.
  revert acc. induction d; intros acc;
    cbn [NilEmpty.string_of_uint Pos.of_uint_acc]; [reflexivity|..];
    rewrite read_digits_step by reflexivity;
    rewrite <- IHd; f_equal; eval_digit; lia.
Qed.

Lemma read_digits_uint (d : Decimal.uint) :
  Js.read_digits 0 (NilEmpty.string_of_uint d) = (Z.of_N (Pos.of_uint d), "").
Proof.
  induction d; cbn [NilEmpty.string_of_uint Pos.of_uint];
    [reflexivity | ..];
    rewrite read_digits_step by reflexivity; eval_digit;
    [exact IHd | apply (read_digits_acc d) ..].
Qed.

Lemma parseInt_uint (d : Decimal.uint) :
  d <> Decimal.Nil ->
  Js.parseInt (NilEmpty.string_of_uint d) = Some (Z.of_N (Pos.of_uint d)).
Proof.
  intros Hd.
  assert (Js.parseInt (NilEmpty.string_of_uint d)
          = Some (fst (Js.read_digits 0 (NilEmpty.string_of_uint d)))) as ->
    by (destruct d; [congruence | reflexivity ..]).
  now rewrite read_digits_uint.
Qed.

(** [parseInt] reads back the text of a count. *)
Lemma parseInt_int8_out (n : Z) :
  0 <= n -> Js.parseInt (Pg.int8_out n) = Some n.
Proof.
  intros Hn. unfold Pg.int8_out.
  destruct n as [|p|p]; [reflexivity | | lia].
  simpl. unfold NilZero.string_of_uint.
  pose proof (DecimalPos.Unsigned.to_uint_nonnil p) as Hnil.
  pose proof (DecimalPos.Unsigned.of_to p) as Hof.
  destruct (Pos.to_uint p) eqn:E; [congruence|..];
    rewrite parseInt_uint by discriminate; now rewrite Hof.
Qed.

(** ** Aggregate counts *)

Ltac run_handler :=
  unfold try_catch, bind, pool_query, ret, outcome.

Lemma count_split {A} (p : A -> bool) (l : list A) :
  (List.length (filter p l)
   + List.length (filter (fun x => negb (p x)) l))%nat = List.length l.
Proof.
  induction l as [|a l IH]; simpl; [reflexivity|].
  destruct (p a); simpl; lia.
Qed.

Lemma get_home_online (w : World) :
  online w = true ->
  get_home w
  = (let total := Z.of_nat (List.length (codinCluc (tables w))) in
     let resolved :=
       Z.of_nat (List.length (filter is_resolved (codinCluc (tables w)))) in
     render_home total resolved (total - resolved),
     mkWorldIn (tables w) true (clock w)
             (qlog w ++ [(mkQuery count_complaints [], None)]) (zone_shift w)).
Proof.
  intros Hon. unfold get_home. run_handler.
  rewrite Hon. unfold exec_count_complaints. cbn [fst snd].
  now rewrite !parseInt_int8_out by lia.
Qed.

Lemma get_home_offline (w : World) :
  online w = false ->
  get_home w
  = (render_home 0 0 0,
     mkWorldIn (tables w) false (clock w)
             (qlog w ++ [(mkQuery count_complaints [],
                          Some Pg.connection_failure)]) (zone_shift w)).
Proof.
  intros Hoff. unfold get_home. run_handler. now rewrite Hoff.
Qed.

(** C8.  In every world the home page shows pending = total - resolved.  The
    handler writes nothing: when the store answers, total is the number of
    complaints, resolved the number of those whose status is "Resolved", and
    pending, computed from these two, is the number of the others; when the
    store cannot be reached all three are 0. *)
Theorem home_pending_is_total_minus_resolved (w : World) :
  exists total resolved pending,
    fst (get_home w) = render_home total resolved pending
    /\ pending = total - resolved
    /\ tables (snd (get_home w)) = tables w
    /\ (total, resolved, pending)
       = if online w
         then (Z.of_nat (List.length (codinCluc (tables w))),
               Z.of_nat (List.length (filter is_resolved (codinCluc (tables w)))),
               Z.of_nat (List.length (filter (fun r => negb (is_resolved r))
                                             (codinCluc (tables w)))))
         else (0, 0, 0).
Proof.
  destruct (online w) eqn:Hon.
  - rewrite (get_home_online w Hon). cbn [fst snd tables].
    do 3 eexists. repeat split.
    pose proof (count_split is_resolved (codinCluc (tables w))) as H.
    repeat f_equal. lia.
  - rewrite (get_home_offline w Hon). cbn [fst snd tables].
    do 3 eexists. repeat split.
Qed.

(** ** Submitting a complaint *)

(** A request without subject, description, location or category is refused
    before anything is sent to the store. *)
Lemma submitComplaint_validation
    (subject description location mobile otp category file : option string)
    (rnd : nat -> Z) (w : World) :
  Js.falsy subject || Js.falsy description
  || Js.falsy location || Js.falsy category = true ->
  post_submitComplaint subject description location mobile otp category
                       file rnd w
  = (validation_error, w).
Proof.
  intros H. unfold post_submitComplaint. run_handler. now rewrite H.
Qed.

(** Any other request sends exactly one [INSERT], with the identifier
    generated from the first six draws, and answers by its outcome. *)
Lemma submitComplaint_insert
    (subject description location mobile otp category file : option string)
    (rnd : nat -> Z) (w : World) :
  Js.falsy subject || Js.falsy description
  || Js.falsy location || Js.falsy category = false ->
  let caseId := generateCaseId rnd in
  let q := insert_complaint_query caseId subject description category
                                  (upload_path file) location mobile in
  let r := exec_insert_complaint (Some caseId) subject description category
                                 (upload_path file) location mobile
                                 (clock w) (tables w) in
  post_submitComplaint subject description location mobile otp category
                       file rnd w
  = if online w
    then (match fst r with
          | inr _ => json 200 [("success", j_bool true);
                               ("caseId", j_str caseId);
                               ("subject", j_field subject);
                               ("category", j_field category);
                               ("location", j_field location)]
          | inl _ => complaint_store_error
          end,
          mkWorldIn (snd r) true (clock w) (qlog w ++ [(q, outcome (fst r))])
                    (zone_shift w))
    else (complaint_store_error,
          mkWorldIn (tables w) false (clock w)
                  (qlog w ++ [(q, Some Pg.connection_failure)]) (zone_shift w)).
Proof.
  intros H. cbv zeta. unfold post_submitComplaint. run_handler.
  rewrite H. destruct (online w); [|reflexivity].
  destruct (exec_insert_complaint _ _ _ _ _ _ _ _ _) as [[e|[]] db'];
    reflexivity.
Qed.



(** C1, at the input where it fails.  A complaint with every required field
    but the contact is not refused by the validation: the [INSERT] is sent,
    the store raises the NOT NULL violation of [mobile_no], and the answer is
    the store error with status 500, not the validation error with status
    400.  No row is created. *)
Theorem submitComplaint_missing_contact_reaches_store :
  let w := mkWorld empty_db true 0 [] in
  let out := post_submitComplaint (Some "Pothole") (Some "Large pothole")
                                  (Some "Main St") None None (Some "Roads")
                                  None (fun _ => 0) w in
  fst out = complaint_store_error
  /\ fst out <> validation_error
  /\ qlog (snd out)
     = [(insert_complaint_query "CASE-AAAAAA" (Some "Pothole")
                                (Some "Large pothole") (Some "Roads") None
                                (Some "Main St") None,
         Some (Pg.not_null_violation "mobile_no"))]
  /\ codinCluc (tables (snd out)) = [].
Proof.
  cbv zeta. repeat split. discriminate.
Qed.



(** ** Identifier collisions *)

Lemma existsb_witness {A} (p : A -> bool) (l : list A) (x : A) :
  In x l -> p x = true -> existsb p l = true.
Proof. intros Hin Hp. apply existsb_exists. now exists x. Qed.

(** A rejected [INSERT] leaves the complaints as they were. *)
Lemma exec_insert_complaint_rejected
    (case_id subject description category image_path location mobile
     : option string) (now : Z) (db : DB) (e : Pg.error) :
  fst (exec_insert_complaint case_id subject description category image_path
                             location mobile now db) = inl e ->
  codinCluc (snd (exec_insert_complaint case_id subject description category
                                        image_path location mobile now db))
  = codinCluc db.
Proof.
  unfold exec_insert_complaint.
  destruct (Pg.nullable Pg.int8_in mobile) as [e'|[m|]];
    destruct subject, description; try reflexivity.
  destruct (existsb _ _); [reflexivity | discriminate].
Qed.

(** The unique constraint on [case_id] rejects an identifier that is already
    stored, whatever the other values are. *)
Lemma exec_insert_complaint_collision
    (caseId : string)
    (subject description category image_path location mobile : option string)
    (now : Z) (db : DB) :
  (exists r, In r (codinCluc db) /\ Complaint.case_id r = Some caseId) ->
  exists e,
    fst (exec_insert_complaint (Some caseId) subject description category
                               image_path location mobile now db) = inl e.
Proof.
  intros (r & Hin & Hid).
  assert (existsb (fun r => Pg.text_eq (Complaint.case_id r) (Some caseId))
                  (codinCluc db) = true) as Hex.
  { apply existsb_witness with r; [exact Hin|].
    rewrite Hid. simpl. apply String.eqb_refl. }
  unfold exec_insert_complaint.
  destruct (Pg.nullable Pg.int8_in mobile) as [e'|[m|]];
    destruct subject, description; try (eexists; reflexivity).
  rewrite Hex. eexists; reflexivity.
Qed.

Section MissingPersonsFacts.

Variable date_in : string -> option Z.

Lemma submit_missing_person_insert
    (name age gender lastSeen location description reporter_mobile file
     : option string) (rnd : nat -> Z) (w : World) :
  Js.falsy name || Js.falsy age || Js.falsy gender
  || Js.falsy lastSeen || Js.falsy location || Js.falsy reporter_mobile
  = false ->
  let caseId := generateCaseId rnd in
  let q := insert_missing_person_query caseId name age gender lastSeen
             location description (upload_path file) reporter_mobile in
  let r := exec_insert_missing_person date_in caseId name age gender lastSeen
             location description (upload_path file) reporter_mobile
             (clock w) (tables w) in
  post_submit_missing_person date_in name age gender lastSeen location
                             description reporter_mobile file rnd w
  = if online w
    then (match fst r with
          | inr _ =>
              json 200 [("success", j_bool true);
                        ("caseId", j_str caseId);
                        ("message",
                         j_str "Missing person report submitted successfully.")]
          | inl _ => report_store_error
          end,
          mkWorldIn (snd r) true (clock w) (qlog w ++ [(q, outcome (fst r))])
                    (zone_shift w))
    else (report_store_error,
          mkWorldIn (tables w) false (clock w)
                  (qlog w ++ [(q, Some Pg.connection_failure)]) (zone_shift w)).
Proof.
  intros H. cbv zeta. unfold post_submit_missing_person. run_handler.
  rewrite H. destruct (online w); [|reflexivity].
  destruct (exec_insert_missing_person _ _ _ _ _ _ _ _ _ _ _ _)
    as [[e|[]] db']; reflexivity.
Qed.

Lemma exec_insert_missing_person_rejected
    (caseId : string)
    (name age gender lastSeen location description media_path reporter_mobile
     : option string) (now : Z) (db : DB) (e : Pg.error) :
  fst (exec_insert_missing_person date_in caseId name age gender lastSeen
         location description media_path reporter_mobile now db) = inl e ->
  missing_persons
    (snd (exec_insert_missing_person date_in caseId name age gender lastSeen
            location description media_path reporter_mobile now db))
  = missing_persons db.
Proof.
  unfold exec_insert_missing_person.
  destruct (Pg.nullable Pg.int4_in age); [reflexivity|].
  destruct (date_param date_in lastSeen); [reflexivity|].
  destruct (Pg.nullable Pg.int8_in reporter_mobile); [reflexivity|].
  destruct name; [|reflexivity].
  destruct (existsb _ _); [reflexivity | discriminate].
Qed.

Lemma exec_insert_missing_person_collision
    (caseId : string)
    (name age gender lastSeen location description media_path reporter_mobile
     : option string) (now : Z) (db : DB) :
  (exists r, In r (missing_persons db) /\ MissingPerson.case_id r = caseId) ->
  exists e,
    fst (exec_insert_missing_person date_in caseId name age gender lastSeen
           location description media_path reporter_mobile now db) = inl e.
Proof.
  intros (r & Hin & Hid).
  assert (existsb (fun r => String.eqb (MissingPerson.case_id r) caseId)
                  (missing_persons db) = true) as Hex.
  { apply existsb_witness with r; [exact Hin|].
    rewrite Hid. apply String.eqb_refl. }
  unfold exec_insert_missing_person.
  destruct (Pg.nullable Pg.int4_in age); [eexists; reflexivity|].
  destruct (date_param date_in lastSeen); [eexists; reflexivity|].
  destruct (Pg.nullable Pg.int8_in reporter_mobile); [eexists; reflexivity|].
  destruct name; [|eexists; reflexivity].
  rewrite Hex. eexists; reflexivity.
Qed.

(** C9, as the code has it.  When the freshly generated identifier is already
    stored, either creation path makes its one [INSERT] and nothing more: the
    identifier is not generated again, the insert is not tried again, the
    caller gets the store error with status 500, and no row is added. *)
Theorem creation_collision_surfaces_at_once (rnd : nat -> Z) (w : World) :
  (forall subject description location mobile otp category file,
      Js.falsy subject || Js.falsy description
      || Js.falsy location || Js.falsy category = false ->
      (exists r, In r (codinCluc (tables w))
                 /\ Complaint.case_id r = Some (generateCaseId rnd)) ->
      let out := post_submitComplaint subject description location mobile otp
                                      category file rnd w in
      fst out = complaint_store_error
      /\ codinCluc (tables (snd out)) = codinCluc (tables w)
      /\ exists e,
           qlog (snd out)
           = (qlog w ++ [(insert_complaint_query (generateCaseId rnd) subject
                            description category (upload_path file) location
                            mobile, Some e)])%list)
  /\
  (forall name age gender lastSeen location description reporter_mobile file,
      Js.falsy name || Js.falsy age || Js.falsy gender
      || Js.falsy lastSeen || Js.falsy location || Js.falsy reporter_mobile
      = false ->
      (exists r, In r (missing_persons (tables w))
                 /\ MissingPerson.case_id r = generateCaseId rnd) ->
      let out := post_submit_missing_person date_in name age gender lastSeen
                   location description reporter_mobile file rnd w in
      fst out = report_store_error
      /\ missing_persons (tables (snd out)) = missing_persons (tables w)
      /\ exists e,
           qlog (snd out)
           = (qlog w ++ [(insert_missing_person_query (generateCaseId rnd)
                            name age gender lastSeen location description
                            (upload_path file) reporter_mobile,
                          Some e)])%list).
Proof.
  split.
  - intros subject description location mobile otp category file Hval Hcol.
    cbv zeta. rewrite submitComplaint_insert by exact Hval. cbv zeta.
    destruct (online w); [|cbn; repeat split; eauto].
    destruct (exec_insert_complaint_collision (generateCaseId rnd) subject
                description category (upload_path file) location mobile
                (clock w) (tables w) Hcol) as [e He].
    pose proof (exec_insert_complaint_rejected _ _ _ _ _ _ _ _ _ _ He) as Hrows.
    rewrite He. cbn [fst snd tables qlog outcome].
    repeat split; eauto.
  - intros name age gender lastSeen location description reporter_mobile file
           Hval Hcol.
    cbv zeta. rewrite submit_missing_person_insert by exact Hval. cbv zeta.
    destruct (online w); [|cbn; repeat split; eauto].
    destruct (exec_insert_missing_person_collision (generateCaseId rnd) name
                age gender lastSeen location description (upload_path file)
                reporter_mobile (clock w) (tables w) Hcol) as [e He].
    pose proof (exec_insert_missing_person_rejected _ _ _ _ _ _ _ _ _ _ _ _ He)
      as Hrows.
    rewrite He. cbn [fst snd tables qlog outcome].
    repeat split; eauto.
Qed.

End MissingPersonsFacts.

Lemma creation_collision_surfaces_at_once_witness :
  (let out := post_submitComplaint (Some "Lamp") (Some "Street lamp out")
                (Some "Hill Rd") (Some "9876500000") None (Some "Lights")
                None draws_A world_one_of_each in
   fst out = complaint_store_error
   /\ codinCluc (tables (snd out)) = codinCluc (tables world_one_of_each)
   /\ exists e,
        qlog (snd out)
        = (qlog world_one_of_each
           ++ [(insert_complaint_query (generateCaseId draws_A) (Some "Lamp")
                  (Some "Street lamp out") (Some "Lights") (upload_path None)
                  (Some "Hill Rd") (Some "9876500000"), Some e)])%list)
  /\
  (let out := post_submit_missing_person any_date (Some "Ravi") (Some "12")
                (Some "M") (Some "2024-02-01") (Some "Hill Rd") None
                (Some "9876500000") None draws_A world_one_of_each in
   fst out = report_store_error
   /\ missing_persons (tables (snd out))
      = missing_persons (tables world_one_of_each)
   /\ exists e,
        qlog (snd out)
        = (qlog world_one_of_each
           ++ [(insert_missing_person_query (generateCaseId draws_A)
                  (Some "Ravi") (Some "12") (Some "M") (Some "2024-02-01")
                  (Some "Hill Rd") None (upload_path None)
                  (Some "9876500000"), Some e)])%list).
Proof.
  destruct (creation_collision_surfaces_at_once any_date draws_A
                                                world_one_of_each) as [H1 H2].
  split.
  - apply H1; [reflexivity|].
    eexists. split; [left; reflexivity | reflexivity].
  - apply H2; [reflexivity|].
    eexists. split; [left; reflexivity | reflexivity].
Defined.

(** C9 as stated fails: a complaint whose generated identifier is already
    stored gets the store error after a single [INSERT], although the next
    six draws give an identifier that the store accepts. *)
Lemma creation_collision_is_not_retried :
  let submit := post_submitComplaint (Some "Lamp") (Some "Street lamp out")
                  (Some "Hill Rd") (Some "9876500000") None (Some "Lights")
                  None in
  let out := submit draws_A_then_S world_one_complaint in
  fst out = complaint_store_error
  /\ qlog (snd out)
     = (qlog world_one_complaint
        ++ [(insert_complaint_query "CASE-AAAAAA" (Some "Lamp")
               (Some "Street lamp out") (Some "Lights") None (Some "Hill Rd")
               (Some "9876500000"),
             Some (Pg.unique_violation "codincluc_case_id_key"))])%list
  /\ fst (submit (fun i => draws_A_then_S (6 + i)%nat) world_one_complaint)
     = json 200 [("success", j_bool true); ("caseId", j_str "CASE-SSSSSS");
                 ("subject", j_str "Lamp"); ("category", j_str "Lights");
                 ("location", j_str "Hill Rd")].
Proof. cbv zeta. repeat split. Qed.

(** ** Marking a complaint resolved *)

Lemma mark_resolved_spec (id : string) (w : World) :
  post_mark_resolved id w
  = let q := mkQuery update_complaint_resolved [p_text id] in
    if online w then
      match Pg.int4_in id with
      | inr i =>
          (ok_true,
           mkWorldIn (mkDB (admins (tables w)) (admins_id_seq (tables w))
                         (map (resolve_row i) (codinCluc (tables w)))
                         (codinCluc_id_seq (tables w))
                         (missing_persons (tables w))
                         (missing_persons_id_seq (tables w)))
                   true (clock w) (qlog w ++ [(q, None)]) (zone_shift w))
      | inl e =>
          (ok_false,
           mkWorldIn (tables w) true (clock w) (qlog w ++ [(q, Some e)])
                     (zone_shift w))
      end
    else
      (ok_false,
       mkWorldIn (tables w) false (clock w)
               (qlog w ++ [(q, Some Pg.connection_failure)]) (zone_shift w)).
Proof.
  unfold post_mark_resolved. run_handler. cbv zeta.
  destruct (online w); [|reflexivity].
  unfold exec_update_complaint_resolved.
  destruct (Pg.int4_in id); reflexivity.
Qed.

Lemma resolve_row_idempotent (i : Z) (r : Complaint.row) :
  resolve_row i (resolve_row i r) = resolve_row i r.
Proof.
  unfold resolve_row. destruct (Complaint.id r =? i) eqn:E.
  - cbn. now rewrite E.
  - now rewrite E.
Qed.

Lemma resolve_row_status (i : Z) (r : Complaint.row) :
  Complaint.id (resolve_row i r) = i ->
  Complaint.status (resolve_row i r) = Some "Resolved".
Proof.
  unfold resolve_row. destruct (Complaint.id r =? i) eqn:E.
  - reflexivity.
  - intros H. apply Z.eqb_neq in E. contradiction.
Qed.

Lemma resolve_rows_unmatched (i : Z) (rows : list Complaint.row) :
  (forall r, In r rows -> Complaint.id r <> i) ->
  map (resolve_row i) rows = rows.
Proof.
  intros H. rewrite <- (map_id rows) at 2.
  apply map_ext_in. intros r Hr. unfold resolve_row.
  destruct (Z.eqb_spec (Complaint.id r) i) as [E|_]; [|reflexivity].
  now destruct (H r Hr).
Qed.

(** C4, as the code has it.  The identifier is a text that every version
    of the store reads alike: the decimal text of an integer, or a text that
    does not begin with a digit after white space and a sign.  When it
    matches no stored complaint nothing in the tables changes; the answer is
    success:true whenever the store takes the statement, which then updates
    no row, and success:false only when the store raises an error: the
    identifier is not the text of an integer, or the store cannot be
    reached. *)
Theorem mark_resolved_unknown_id (id : string) (w : World) :
  (forall i r, Pg.int4_in id = inr i ->
               In r (codinCluc (tables w)) -> Complaint.id r <> i) ->
  (Pg.int4_in id = inl (Pg.invalid_text_representation "integer") ->
   Pg.not_a_number id = true) ->
  let out := post_mark_resolved id w in
  tables (snd out) = tables w
  /\ fst out = if online w
               then match Pg.int4_in id with
                    | inr _ => ok_true
                    | inl _ => ok_false
                    end
               else ok_false.
Proof.
  intros Hno _. cbv zeta. rewrite mark_resolved_spec. cbv zeta.
  destruct (online w); [|split; reflexivity].
  destruct (Pg.int4_in id) as [e|i] eqn:E; [split; reflexivity|].
  cbn [fst snd tables]. split; [|reflexivity].
  rewrite resolve_rows_unmatched by (intros r Hr; now apply (Hno i r)).
  now destruct (tables w).
Qed.

Lemma mark_resolved_unknown_id_witness :
  let out := post_mark_resolved "42" world_one_complaint in
  tables (snd out) = tables world_one_complaint
  /\ fst out = if online world_one_complaint
               then match Pg.int4_in "42" with
                    | inr _ => ok_true
                    | inl _ => ok_false
                    end
               else ok_false.
Proof.
  apply (mark_resolved_unknown_id "42" world_one_complaint).
  - intros i r Hi Hr. vm_compute in Hi. injection Hi as <-.
    destruct Hr as [<- | []]. vm_compute. discriminate.
  - intros H. vm_compute in H. discriminate H.
Defined.

(** C4 as stated fails: resolving identifier 42 when the only stored
    complaint has identifier 1 is answered with success:true, not with
    success:false. *)
Lemma unknown_id_reports_success :
  map Complaint.id (codinCluc (tables world_one_complaint)) = [1]
  /\ fst (post_mark_resolved "42" world_one_complaint) = ok_true
  /\ fst (post_mark_resolved "42" world_one_complaint) <> ok_false.
Proof. repeat split. discriminate. Qed.

(** C5.  Resolving a stored complaint succeeds whatever its status is and
    leaves it "Resolved"; every row with that identifier is then "Resolved".
    Doing it again succeeds again and changes nothing. *)
Theorem resolve_is_idempotent
    (id : string) (i : Z) (r : Complaint.row) (w : World) :
  online w = true ->
  Pg.int4_in id = inr i ->
  In r (codinCluc (tables w)) ->
  Complaint.id r = i ->
  let out := post_mark_resolved id w in
  let again := post_mark_resolved id (snd out) in
  fst out = ok_true
  /\ In (Complaint.set_status (Some "Resolved") r) (codinCluc (tables (snd out)))
  /\ (forall r', In r' (codinCluc (tables (snd out))) ->
                 Complaint.id r' = i ->
                 Complaint.status r' = Some "Resolved")
  /\ fst again = ok_true
  /\ tables (snd again) = tables (snd out).
Proof.
  intros Hon Hid Hin Hr. cbv zeta.
  rewrite (mark_resolved_spec id w). cbv zeta. rewrite Hon, Hid.
  cbn [fst snd]. rewrite mark_resolved_spec. cbv zeta.
  cbn [online tables]. rewrite Hid.
  cbn [fst snd tables codinCluc admins admins_id_seq codinCluc_id_seq
       missing_persons missing_persons_id_seq].
  repeat split.
  - apply in_map_iff. exists r. split; [|exact Hin].
    unfold resolve_row. apply Z.eqb_eq in Hr. now rewrite Hr.
  - intros r' Hr' Hi. apply in_map_iff in Hr' as (r0 & <- & _).
    now apply resolve_row_status.
  - f_equal. rewrite map_map. apply map_ext. intros a.
    apply resolve_row_idempotent.
Qed.

Lemma resolve_is_idempotent_witness :
  let w := snd (post_mark_resolved "1" world_one_complaint) in
  let r := Complaint.mk 1 (Some "CASE-AAAAAA") "Pothole" "Large pothole"
                        (Some "Roads") None 9876543210 (Some "Main St")
                        (Some 0) (Some "Resolved") in
  let out := post_mark_resolved "1" w in
  let again := post_mark_resolved "1" (snd out) in
  fst out = ok_true
  /\ In (Complaint.set_status (Some "Resolved") r) (codinCluc (tables (snd out)))
  /\ (forall r', In r' (codinCluc (tables (snd out))) ->
                 Complaint.id r' = 1 ->
                 Complaint.status r' = Some "Resolved")
  /\ fst again = ok_true
  /\ tables (snd again) = tables (snd out).
Proof.
  apply (resolve_is_idempotent "1" 1
           (Complaint.mk 1 (Some "CASE-AAAAAA") "Pothole" "Large pothole"
                         (Some "Roads") None 9876543210 (Some "Main St")
                         (Some 0) (Some "Resolved"))
           (snd (post_mark_resolved "1" world_one_complaint)));
    [reflexivity | reflexivity | left; reflexivity | reflexivity].
Defined.

(** ** Tracking by case identifier *)

Lemma filter_none {A} (p : A -> bool) (l : list A) :
  (forall r, In r l -> p r = false) -> filter p l = [].
Proof.
  induction l as [|a l IH]; intros H; [reflexivity|].
  cbn [filter]. rewrite (H a (or_introl eq_refl)).
  apply IH. intros r Hr. apply H. now right.
Qed.

Lemma filter_unique {A B} (f : A -> B) (p : A -> bool) (l : list A) (x : A) :
  NoDup (map f l) ->
  In x l ->
  (forall r, In r l -> (p r = true <-> f r = f x)) ->
  filter p l = [x].
Proof.
  induction l as [|a l IH]; intros Hnd Hin Hp; [destruct Hin|].
  cbn [map] in Hnd. apply NoDup_cons_iff in Hnd as [Hnotin Hnd].
  assert (forall r, In r l -> f r <> f a) as Hfresh.
  { intros r Hr E. apply Hnotin. rewrite <- E. now apply in_map. }
  cbn [filter]. destruct Hin as [-> | Hin].
  - rewrite (proj2 (Hp x (or_introl eq_refl)) eq_refl). f_equal.
    apply filter_none. intros r Hr.
    destruct (p r) eqn:E; [|reflexivity].
    apply (Hp r (or_intror Hr)) in E. now destruct (Hfresh r Hr).
  - destruct (p a) eqn:E.
    + apply (Hp a (or_introl eq_refl)) in E.
      destruct (Hfresh x Hin). now symmetry.
    + apply IH; [exact Hnd | exact Hin |].
      intros r Hr. apply Hp. now right.
Qed.

Lemma trackStatus_query (y : string) (w : World) :
  y <> "" ->
  online w = true ->
  Pg.has_nul (Js.trim y) = false ->
  post_trackStatus (Some y) w
  = (match filter (fun r => Pg.text_eq (Pg.UPPER (Complaint.case_id r))
                                       (Pg.UPPER (Some (Js.trim y))))
                  (codinCluc (tables w)) with
     | [] => render_trackStatusForm None (Some "❌ Case ID not found")
     | complaint :: _ => render_trackStatusForm (Some complaint) None
     end,
     mkWorldIn (tables w) true (clock w)
             (qlog w ++ [(mkQuery select_complaint_by_case_id
                                  [p_text (Js.trim y)], None)]) (zone_shift w)).
Proof.
  intros Hy Hon Hnul. unfold post_trackStatus.
  destruct y as [|c y]; [congruence|].
  run_handler. rewrite Hon. unfold exec_select_complaint_by_case_id.
  rewrite Hnul. now destruct (filter _ _).
Qed.

Lemma lower_empty (s : string) : lower s = "" -> s = "".
Proof. destruct s; [reflexivity | discriminate]. Qed.

(** The query of [POST /trackStatus] for a case variant of a stored
    identifier selects the row that carries it and no other. *)
Lemma track_selects (db : DB) (row : Complaint.row) (x y : string) :
  complaints_wf db ->
  In row (codinCluc db) ->
  Complaint.case_id row = Some x ->
  case_variant x y ->
  y <> "" /\ Js.trim y = y
  /\ filter (fun r => Pg.text_eq (Pg.UPPER (Complaint.case_id r))
                                 (Pg.UPPER (Some y)))
            (codinCluc db) = [row]
  /\ Pg.has_nul y = false.
Proof.
  intros [Hshape Hnd] Hin Hx Hy.
  rewrite Forall_forall in Hshape.
  destruct (Hshape row Hin) as (x' & Hx' & Hsx).
  rewrite Hx in Hx'. injection Hx' as <-.
  pose proof (case_variant_upper x y Hy) as Hup.
  rewrite (shape_upper x Hsx) in Hup.
  assert (no_space y = true) as Hplain.
  { rewrite <- no_space_upper, Hup. now apply shape_no_space. }
  split; [|split; [|split]]; [| | |now apply no_space_no_nul].
  - intros ->. apply (shape_not_empty x Hsx). symmetry. exact Hup.
  - now apply trim_no_space.
  - apply filter_unique with (f := Complaint.case_id); [exact Hnd | exact Hin |].
    intros r Hr. destruct (Hshape r Hr) as (z & Hz & Hsz).
    rewrite Hz, Hx. cbn [Pg.UPPER option_map Pg.text_eq].
    rewrite Hup, (shape_upper z Hsz). rewrite String.eqb_eq.
    split; congruence.
Qed.

(** C7.  In a store whose complaints carry distinct generated identifiers,
    tracking by any case variant of a stored identifier, and so by its
    lowercased form, shows the row that carries it; nothing is changed. *)
Theorem track_is_case_insensitive
    (w : World) (row : Complaint.row) (x y : string) :
  online w = true ->
  complaints_wf (tables w) ->
  In row (codinCluc (tables w)) ->
  Complaint.case_id row = Some x ->
  case_variant x y ->
  fst (post_trackStatus (Some y) w) = render_trackStatusForm (Some row) None
  /\ fst (post_trackStatus (Some (lower x)) w)
     = render_trackStatusForm (Some row) None
  /\ tables (snd (post_trackStatus (Some y) w)) = tables w.
Proof.
  intros Hon Hwf Hin Hx Hy.
  destruct (track_selects _ row x y Hwf Hin Hx Hy)
    as (Hne & Htrim & Hsel & Hnul).
  destruct (track_selects _ row x (lower x) Hwf Hin Hx
                          (lower_is_case_variant x))
    as (Hne' & Htrim' & Hsel' & Hnul').
  rewrite <- Htrim in Hnul. rewrite <- Htrim' in Hnul'.
  rewrite (trackStatus_query y w Hne Hon Hnul).
  rewrite (trackStatus_query (lower x) w Hne' Hon Hnul').
  rewrite Htrim, Htrim', Hsel, Hsel'.
  repeat split.
Qed.

Lemma world_one_complaint_wf : complaints_wf (tables world_one_complaint).
Proof.
  split.
  - repeat constructor. eexists. split; reflexivity.
  - repeat constructor. intros [].
Qed.

Lemma track_is_case_insensitive_witness :
  let row := Complaint.mk 1 (Some "CASE-AAAAAA") "Pothole" "Large pothole"
                          (Some "Roads") None 9876543210 (Some "Main St")
                          (Some 0) (Some "Submitted") in
  fst (post_trackStatus (Some "Case-aAAaaA") world_one_complaint)
  = render_trackStatusForm (Some row) None
  /\ fst (post_trackStatus (Some (lower "CASE-AAAAAA")) world_one_complaint)
     = render_trackStatusForm (Some row) None
  /\ tables (snd (post_trackStatus (Some "Case-aAAaaA") world_one_complaint))
     = tables world_one_complaint.
Proof.
  apply (track_is_case_insensitive world_one_complaint
           (Complaint.mk 1 (Some "CASE-AAAAAA") "Pothole" "Large pothole"
                         (Some "Roads") None 9876543210 (Some "Main St")
                         (Some 0) (Some "Submitted"))
           "CASE-AAAAAA" "Case-aAAaaA").
  - reflexivity.
  - exact world_one_complaint_wf.
  - left; reflexivity.
  - reflexivity.
  - reflexivity.
Defined.

(** ** Admin one-time codes *)

Lemma existsb_filter_nil {A} (p : A -> bool) (l : list A) :
  existsb p l = negb (List.length (filter p l) =? 0)%nat.
Proof.
  induction l as [|a l IH]; [reflexivity|].
  cbn [existsb filter]. destruct (p a); [reflexivity | exact IH].
Qed.

Lemma existsb_partition {A} (p q : A -> bool) (l : list A) :
  existsb q l
  = existsb q (filter p l) || existsb q (filter (fun r => negb (p r)) l).
Proof.
  induction l as [|a l IH]; [reflexivity|].
  cbn [existsb filter]. rewrite IH.
  destruct (p a); cbn [negb existsb]; destruct (q a); cbn [orb];
    try reflexivity.
  now rewrite orb_true_r.
Qed.

Lemma existsb_of_filter {A} (p q : A -> bool) (l : list A) :
  existsb q (filter p l) = existsb (fun r => p r && q r) l.
Proof.
  induction l as [|a l IH]; [reflexivity|].
  cbn [existsb filter]. destruct (p a); cbn [existsb andb]; now rewrite IH.
Qed.

Lemma newest_admin_limit_1 (rows : list Admin.row) :
  (List.length (order_by_created_at_desc_limit_1 rows) =? 0)%nat
  = (List.length rows =? 0)%nat.
Proof. now destruct rows. Qed.

(** Verification accepts exactly when some row holds the code unexpired at
    the time of the check. *)
Lemma verify_spec (code : option string) (w : World) :
  online w = true ->
  fst (post_verify_admin_otp code w)
  = if existsb (holds_code code (clock w)) (admins (tables w))
    then otp_accepted else otp_rejected.
Proof.
  intros Hon. unfold post_verify_admin_otp. run_handler.
  rewrite Hon. unfold exec_select_admin_by_otp.
  rewrite newest_admin_limit_1, existsb_filter_nil.
  unfold holds_code.
  now destruct (List.length _ =? 0)%nat.
Qed.

Lemma update_keeps_others (d : option string) (f : Admin.row -> Admin.row)
    (l : list Admin.row) :
  (forall r, of_department d (f r) = of_department d r) ->
  filter (fun r => negb (of_department d r))
         (map (fun r => if of_department d r then f r else r) l)
  = filter (fun r => negb (of_department d r)) l.
Proof.
  intros Hf. induction l as [|a l IH]; [reflexivity|].
  cbn [map filter]. destruct (of_department d a) eqn:E.
  - rewrite Hf, E. exact IH.
  - rewrite E. cbn [negb]. now rewrite IH.
Qed.

(** What a successful [POST /adminLogin] leaves behind: the store is still
    reachable, the clock untouched, the rows of other departments as before,
    and at least one row of the department, all of them with the new code and
    the new expiry. *)
Lemma adminLogin_issued
    (name department_name d mobile_no : option string) (k : Z) (w : World)
    (code : string) :
  fst (post_adminLogin name department_name d mobile_no k w)
  = otp_issued code ->
  let w' := snd (post_adminLogin name department_name d mobile_no k w) in
  code = admin_otp k
  /\ online w' = true
  /\ clock w' = clock w
  /\ filter (fun r => negb (of_department d r)) (admins (tables w'))
     = filter (fun r => negb (of_department d r)) (admins (tables w))
  /\ (exists r, In r (admins (tables w')) /\ of_department d r = true)
  /\ (forall r, In r (admins (tables w')) -> of_department d r = true ->
                Admin.otp r = Some code
                /\ Admin.otp_expires r
                   = Some (timestamp_in w (clock w + otp_window))).
Proof.
  unfold post_adminLogin.
  destruct (Js.falsy name || Js.falsy department_name
            || Js.falsy d || Js.falsy mobile_no) eqn:Hval;
    [discriminate|].
  run_handler. destruct (online w) eqn:Hon; [|discriminate].
  unfold exec_select_admin_id_by_department. cbn [online tables clock].
  rewrite length_map.
  fold (admin_otp k). fold (of_department d).
  destruct (filter (of_department d) (admins (tables w))) as [|r0 rs] eqn:Hsel.
  - (* no row yet: INSERT *)
    cbn [List.length Nat.ltb Nat.leb].
    unfold exec_insert_admin.
    destruct (Pg.nullable Pg.int8_in mobile_no) as [e|mobile]; [discriminate|].
    destruct name as [n|]; [|discriminate].
    cbn. intros [= <-].
    assert (of_department d
              (Admin.mk (admins_id_seq (tables w) + 1) n department_name d
                        mobile (Some (admin_otp k))
                        (Some (timestamp_in w (clock w + 300000)))
                        (Some (clock w)))
            = true) as Hnew.
    { unfold of_department, Pg.text_eq. cbn.
      destruct d as [ds|]; [apply String.eqb_refl|].
      rewrite !orb_false_iff in Hval. now destruct Hval as [[_ Hd] _]. }
    repeat split.
    + rewrite filter_app. cbn [filter]. rewrite Hnew. cbn [negb].
      apply app_nil_r.
    + eexists. split; [apply in_or_app; right; left; reflexivity | exact Hnew].
    + apply in_app_or in H as [Hold | [<- | []]]; [|reflexivity].
      assert (In r (filter (of_department d) (admins (tables w)))) as Hin
        by (apply filter_In; now split).
      rewrite Hsel in Hin. destruct Hin.
    + apply in_app_or in H as [Hold | [<- | []]]; [|reflexivity].
      assert (In r (filter (of_department d) (admins (tables w)))) as Hin
        by (apply filter_In; now split).
      rewrite Hsel in Hin. destruct Hin.
  - (* rows exist: UPDATE *)
    cbn [List.length Nat.ltb Nat.leb].
    unfold exec_update_admin_otp. fold (of_department d).
    cbn. intros [= <-].
    assert (In r0 (admins (tables w)) /\ of_department d r0 = true) as [Hin0 Hd0].
    { apply filter_In. rewrite Hsel. now left. }
    repeat split.
    + apply (update_keeps_others d
               (Admin.set_otp (Some (admin_otp k))
                              (Some (timestamp_in w (clock w + 300000))))).
      reflexivity.
    + exists (Admin.set_otp (Some (admin_otp k))
                            (Some (timestamp_in w (clock w + 300000))) r0).
      split; [|exact Hd0].
      apply in_map_iff. exists r0. split; [|exact Hin0].
      unfold of_department in Hd0. now rewrite Hd0.
    + apply in_map_iff in H as (a & <- & _).
      destruct (Pg.text_eq (Admin.department_id a) d) eqn:E; [reflexivity|].
      unfold of_department in H0. rewrite E in H0. discriminate.
    + apply in_map_iff in H as (a & <- & _).
      destruct (Pg.text_eq (Admin.department_id a) d) eqn:E; [reflexivity|].
      unfold of_department in H0. rewrite E in H0. discriminate.
Qed.

Lemma existsb_uniform {A} (q : A -> bool) (b : bool) (l : list A) :
  (exists r, In r l) ->
  (forall r, In r l -> q r = b) ->
  existsb q l = b.
Proof.
  intros [r Hr] Hall. destruct b.
  - apply existsb_exists. exists r. split; [exact Hr | now apply Hall].
  - destruct (existsb q l) eqn:E; [|reflexivity].
    apply existsb_exists in E as (x & Hx & Hq).
    now rewrite (Hall x Hx) in Hq.
Qed.

(** After a code is issued at time [clock w], and as long as the admins are
    as the issuance left them, a code [c] is accepted exactly when it is the
    issued one and the check is before the expiry, or a row of another
    department holds it unexpired. *)
Lemma verify_after_issue_at
    (name department_name d mobile_no : option string) (k : Z) (w : World)
    (code c : string) (w2 : World) :
  fst (post_adminLogin name department_name d mobile_no k w)
  = otp_issued code ->
  admins (tables w2)
  = admins (tables (snd (post_adminLogin name department_name d mobile_no
                                         k w))) ->
  online w2 = true ->
  fst (post_verify_admin_otp (Some c) w2)
  = if (String.eqb code c
        && (clock w2 <? timestamp_in w (clock w + otp_window)))
       || held_elsewhere d c (clock w2) (tables w)
    then otp_accepted else otp_rejected.
Proof.
  intros Hiss Hadm Hon2.
  destruct (adminLogin_issued _ _ _ _ _ _ _ Hiss)
    as (_ & Hon & _ & Hothers & (r & Hr & Hdr) & Hall).
  rewrite verify_spec by exact Hon2.
  rewrite Hadm.
  rewrite (existsb_partition (of_department d)).
  rewrite Hothers, (existsb_of_filter (fun r => negb (of_department d r))).
  fold (held_elsewhere d c (clock w2) (tables w)).
  rewrite (existsb_uniform (holds_code (Some c) (clock w2))
             (String.eqb code c
              && (clock w2 <? timestamp_in w (clock w + otp_window)))).
  - reflexivity.
  - exists r. apply filter_In. now split.
  - intros x Hx. apply filter_In in Hx as [Hx Hdx].
    destruct (Hall x Hx Hdx) as [Hotp Hexp].
    unfold holds_code, unexpired. now rewrite Hotp, Hexp.
Qed.


Lemma bounded_none_held (d : option string) (c : string) (t : Z) (w : World) :
  otp_expiries_bounded w ->
  timestamp_in w (clock w + otp_window) <= t ->
  held_elsewhere d c t (tables w) = false.
Proof.
  unfold otp_expiries_bounded, held_elsewhere. intros Hb Ht.
  rewrite Forall_forall in Hb.
  destruct (existsb _ _) eqn:E; [|reflexivity].
  apply existsb_exists in E as (r & Hr & Hq).
  apply andb_true_iff in Hq as [_ Hq].
  unfold holds_code in Hq. apply andb_true_iff in Hq as [_ Hq].
  unfold unexpired in Hq. specialize (Hb r Hr).
  destruct (Admin.otp_expires r) as [e|]; [|discriminate].
  apply Z.ltb_lt in Hq. lia.
Qed.

Lemma adminLogin_zone
    (name department_name d mobile_no : option string) (k : Z) (w : World) :
  zone_shift (snd (post_adminLogin name department_name d mobile_no k w))
  = zone_shift w.
Proof.
  unfold post_adminLogin.
  destruct (Js.falsy name || Js.falsy department_name
            || Js.falsy d || Js.falsy mobile_no); [reflexivity|].
  fold (admin_otp k).
  run_handler. destruct (online w); [|reflexivity].
  unfold exec_select_admin_id_by_department.
  cbn [fst snd online tables clock zone_shift].
  destruct (0 <? List.length _)%nat.
  - reflexivity.
  - unfold exec_insert_admin.
    destruct (Pg.nullable Pg.int8_in mobile_no) as [e|mobile]; [reflexivity|].
    now destruct name.
Qed.





(** ** Reachable worlds *)

Ltac frame := cbn [fst snd clock tables admins codinCluc online].

(** No handler changes the time zones. *)
Lemma ret_zone {A} (a : A) : keeps_zone (ret a).
Proof. intros w. reflexivity. Qed.

Lemma pool_query_zone {A} (q : query)
    (exec : Z -> DB -> (Pg.error + A) * DB) : keeps_zone (pool_query q exec).
Proof.
  intros w. unfold pool_query. destruct (online w); [|reflexivity].
  now destruct (exec (clock w) (tables w)).
Qed.

Lemma bind_zone {A B} (m : M A) (f : A -> M B) :
  keeps_zone m -> (forall a, keeps_zone (f a)) -> keeps_zone (bind m f).
Proof.
  intros Hm Hf w. unfold bind. specialize (Hm w).
  destruct (m w) as [[e|a] w']; cbn [snd] in *; [exact Hm|].
  now rewrite Hf.
Qed.

Lemma try_catch_zone {A} (body : M A) (handler : Pg.error -> A) (w : World) :
  keeps_zone body -> zone_shift (snd (try_catch body handler w)) = zone_shift w.
Proof.
  intros Hm. unfold try_catch. specialize (Hm w).
  now destruct (body w) as [[e|a] w'].
Qed.

Lemma handle_zone (date_in : string -> option Z) (r : request) (w : World) :
  zone_shift (snd (handle date_in r w)) = zone_shift w.
Proof.
  destruct r; cbn [handle].
  - apply try_catch_zone, bind_zone; [apply pool_query_zone|].
    intros a. apply ret_zone.
  - apply adminLogin_zone.
  - apply try_catch_zone, bind_zone; [apply pool_query_zone|].
    intros a. destruct (List.length a =? 0)%nat; apply ret_zone.
  - apply try_catch_zone, bind_zone; [apply pool_query_zone|].
    intros a. apply ret_zone.
  - apply try_catch_zone. cbv zeta.
    destruct (Js.falsy subject || Js.falsy description
              || Js.falsy location || Js.falsy category); [apply ret_zone|].
    apply bind_zone; [apply pool_query_zone|]. intros a. apply ret_zone.
  - unfold post_trackStatus. destruct caseId as [[|c s]|]; try reflexivity.
    apply try_catch_zone, bind_zone; [apply pool_query_zone|].
    intros [|a l]; apply ret_zone.
  - apply try_catch_zone. cbv zeta.
    destruct (Js.falsy name || Js.falsy age || Js.falsy gender
              || Js.falsy lastSeen || Js.falsy location
              || Js.falsy reporter_mobile); [apply ret_zone|].
    apply bind_zone; [apply pool_query_zone|]. intros a. apply ret_zone.
Qed.

Lemma adminLogin_frame
    (name department_name d mobile_no : option string) (k : Z) (w : World) :
  let w' := snd (post_adminLogin name department_name d mobile_no k w) in
  clock w' = clock w
  /\ codinCluc (tables w') = codinCluc (tables w)
  /\ (forall r, In r (admins (tables w')) ->
                In r (admins (tables w))
                \/ Admin.otp_expires r
                   = Some (timestamp_in w (clock w + otp_window))).
Proof.
  cbv zeta. unfold post_adminLogin.
  destruct (Js.falsy name || Js.falsy department_name
            || Js.falsy d || Js.falsy mobile_no);
    [frame; auto|].
  fold (admin_otp k).
  run_handler. destruct (online w); [|frame; auto].
  unfold exec_select_admin_id_by_department. frame.
  rewrite length_map.
  destruct (filter _ (admins (tables w))) as [|r0 rs].
  - cbn [List.length Nat.ltb Nat.leb]. unfold exec_insert_admin.
    destruct (Pg.nullable Pg.int8_in mobile_no) as [e|mobile]; [frame; auto|].
    destruct name as [n|]; [|frame; auto].
    frame. repeat split. intros r Hr.
    apply in_app_or in Hr as [Hr | [<- | []]]; [now left | now right].
  - cbn [List.length Nat.ltb Nat.leb]. unfold exec_update_admin_otp.
    frame. repeat split. intros r Hr.
    apply in_map_iff in Hr as (a & <- & Ha).
    destruct (Pg.text_eq (Admin.department_id a) d); [now right | now left].
Qed.

Lemma submitComplaint_frame
    (subject description location mobile otp category file : option string)
    (rnd : nat -> Z) (w : World) :
  let w' := snd (post_submitComplaint subject description location mobile otp
                                      category file rnd w) in
  clock w' = clock w
  /\ admins (tables w') = admins (tables w)
  /\ (codinCluc (tables w') = codinCluc (tables w)
      \/ exists r,
           codinCluc (tables w') = (codinCluc (tables w) ++ [r])%list
           /\ Complaint.case_id r = Some (generateCaseId rnd)
           /\ ~ In (Some (generateCaseId rnd))
                   (map Complaint.case_id (codinCluc (tables w)))).
Proof.
  cbv zeta.
  destruct (Js.falsy subject || Js.falsy description
            || Js.falsy location || Js.falsy category) eqn:Hval.
  - rewrite submitComplaint_validation by exact Hval. frame. auto.
  - rewrite submitComplaint_insert by exact Hval. cbv zeta.
    destruct (online w); [|frame; auto].
    frame. unfold exec_insert_complaint.
    destruct (Pg.nullable Pg.int8_in mobile) as [e|[m|]];
      destruct subject as [s|], description as [ds|]; try (frame; now auto).
    destruct (existsb _ _) eqn:Hex; [frame; now auto|].
    frame. repeat split. right. eexists. repeat split.
    intros Hin. apply in_map_iff in Hin as (r & Hid & Hr).
    assert (existsb (fun r => Pg.text_eq (Complaint.case_id r)
                                         (Some (generateCaseId rnd)))
                    (codinCluc (tables w)) = true) as Hex'.
    { apply existsb_witness with r; [exact Hr|].
      rewrite Hid. cbn [Pg.text_eq]. apply String.eqb_refl. }
    congruence.
Qed.

Lemma mark_resolved_frame (id : string) (w : World) :
  let w' := snd (post_mark_resolved id w) in
  clock w' = clock w
  /\ admins (tables w') = admins (tables w)
  /\ map Complaint.case_id (codinCluc (tables w'))
     = map Complaint.case_id (codinCluc (tables w)).
Proof.
  cbv zeta. rewrite mark_resolved_spec. cbv zeta.
  destruct (online w); [|frame; auto].
  destruct (Pg.int4_in id) as [e|i]; [frame; now auto|].
  frame. repeat split. rewrite map_map. apply map_ext.
  intros r. unfold resolve_row. now destruct (Complaint.id r =? i).
Qed.

Lemma get_home_frame (w : World) :
  clock (snd (get_home w)) = clock w /\ tables (snd (get_home w)) = tables w.
Proof.
  destruct (online w) eqn:Hon;
    [rewrite get_home_online | rewrite get_home_offline]; auto.
Qed.

Lemma verify_frame (code : option string) (w : World) :
  clock (snd (post_verify_admin_otp code w)) = clock w
  /\ tables (snd (post_verify_admin_otp code w)) = tables w.
Proof.
  unfold post_verify_admin_otp. run_handler.
  destruct (online w); [|frame; auto].
  unfold exec_select_admin_by_otp.
  destruct (List.length _ =? 0)%nat; frame; auto.
Qed.

Lemma trackStatus_frame (caseId : option string) (w : World) :
  clock (snd (post_trackStatus caseId w)) = clock w
  /\ tables (snd (post_trackStatus caseId w)) = tables w.
Proof.
  unfold post_trackStatus. destruct caseId as [[|c s]|]; try (frame; now auto).
  run_handler. destruct (online w); [|frame; auto].
  unfold exec_select_complaint_by_case_id.
  destruct (Pg.has_nul _); [frame; auto|].
  destruct (filter _ _); frame; auto.
Qed.

Lemma submit_missing_person_frame (date_in : string -> option Z)
    (name age gender lastSeen location description reporter_mobile file
     : option string) (rnd : nat -> Z) (w : World) :
  let w' := snd (post_submit_missing_person date_in name age gender lastSeen
                   location description reporter_mobile file rnd w) in
  clock w' = clock w
  /\ admins (tables w') = admins (tables w)
  /\ codinCluc (tables w') = codinCluc (tables w).
Proof.
  cbv zeta. unfold post_submit_missing_person. run_handler.
  destruct (Js.falsy name || Js.falsy age || Js.falsy gender
            || Js.falsy lastSeen || Js.falsy location
            || Js.falsy reporter_mobile); [frame; auto|].
  destruct (online w); [|frame; auto].
  unfold exec_insert_missing_person.
  destruct (Pg.nullable Pg.int4_in age); [frame; now auto|].
  destruct (date_param date_in lastSeen); [frame; now auto|].
  destruct (Pg.nullable Pg.int8_in reporter_mobile); [frame; now auto|].
  destruct name; [|frame; now auto].
  destruct (existsb _ _); frame; auto.
Qed.

Lemma complaints_wf_ids (db : DB) :
  complaints_wf db
  <-> Forall (fun c => exists x, c = Some x /\ case_id_shape x = true)
             (map Complaint.case_id (codinCluc db))
      /\ NoDup (map Complaint.case_id (codinCluc db)).
Proof. unfold complaints_wf. now rewrite Forall_map. Qed.

Lemma NoDup_snoc {A} (l : list A) (a : A) :
  NoDup l -> ~ In a l -> NoDup (l ++ [a]).
Proof.
  induction l as [|b l IH]; intros Hnd Hin; cbn [app].
  - constructor; [intros [] | constructor].
  - apply NoDup_cons_iff in Hnd as [Hb Hnd].
    constructor.
    + intros H. apply in_app_or in H as [H | [-> | []]]; [now apply Hb|].
      apply Hin. now left.
    + apply IH; [exact Hnd|]. intros H. apply Hin. now right.
Qed.

Lemma bounded_same (w w' : World) :
  clock w' = clock w ->
  zone_shift w' = zone_shift w ->
  admins (tables w') = admins (tables w) ->
  otp_expiries_bounded w -> otp_expiries_bounded w'.
Proof. unfold otp_expiries_bounded, timestamp_in. now intros -> -> ->. Qed.

Lemma wf_same_ids (db db' : DB) :
  map Complaint.case_id (codinCluc db') = map Complaint.case_id (codinCluc db) ->
  complaints_wf db -> complaints_wf db'.
Proof. rewrite !complaints_wf_ids. now intros ->. Qed.

(** Serving a request keeps both invariants. *)
Lemma handle_preserves_invariants
    (date_in : string -> option Z) (r : request) (w : World) :
  valid_request r ->
  otp_expiries_bounded w /\ complaints_wf (tables w) ->
  otp_expiries_bounded (snd (handle date_in r w))
  /\ complaints_wf (tables (snd (handle date_in r w))).
Proof.
  intros Hvalid [Hb Hwf]. pose proof (handle_zone date_in r w) as Hz.
  destruct r; cbn [handle] in *.
  - destruct (get_home_frame w) as [Hc Ht].
    split; [apply (bounded_same w) | apply (wf_same_ids (tables w))];
      congruence.
  - destruct (adminLogin_frame name department_name department_id mobile_no
                               k w) as (Hc & Hrows & Hadm).
    split; [|apply (wf_same_ids (tables w)); congruence].
    unfold otp_expiries_bounded, timestamp_in in *.
    rewrite Forall_forall in *.
    intros x Hx. rewrite Hc, Hz. destruct (Hadm x Hx) as [Hold | ->].
    + now apply Hb.
    + lia.
  - destruct (verify_frame otpInput w) as [Hc Ht].
    split; [apply (bounded_same w) | apply (wf_same_ids (tables w))];
      congruence.
  - destruct (mark_resolved_frame id w) as (Hc & Ha & Hids).
    split; [now apply (bounded_same w) | now apply (wf_same_ids (tables w))].
  - destruct (submitComplaint_frame subject description location mobile otp
                                    category file rnd w)
      as (Hc & Ha & [Hsame | (row & Happ & Hid & Hfresh)]).
    + split; [now apply (bounded_same w) |
              apply (wf_same_ids (tables w)); congruence].
    + split; [now apply (bounded_same w)|].
      destruct Hwf as [Hshape Hnd]. unfold complaints_wf. rewrite Happ.
      split.
      * apply Forall_app. split; [exact Hshape|].
        constructor; [|constructor].
        exists (generateCaseId rnd). split; [exact Hid|].
        now apply generateCaseId_shape.
      * rewrite map_app. cbn [map]. rewrite Hid.
        now apply NoDup_snoc.
  - destruct (trackStatus_frame caseId w) as [Hc Ht].
    split; [apply (bounded_same w) | apply (wf_same_ids (tables w))];
      congruence.
  - destruct (submit_missing_person_frame date_in name age gender lastSeen
                location description reporter_mobile file rnd w)
      as (Hc & Ha & Hrows).
    split; [now apply (bounded_same w) |
            apply (wf_same_ids (tables w)); congruence].
Qed.

(** In every reachable world no stored code outlives the window and the
    complaints carry distinct generated identifiers. *)
Lemma reachable_invariants (date_in : string -> option Z) (w : World) :
  reachable date_in w ->
  otp_expiries_bounded w /\ complaints_wf (tables w).
Proof.
  induction 1 as [o t z | w r _ IH Hvalid | w t _ [Hb Hwf] Ht | w b _ IH].
  - split; [constructor | split; constructor].
  - now apply handle_preserves_invariants.
  - split; [|exact Hwf].
    unfold otp_expiries_bounded, timestamp_in in *.
    cbn [set_clock clock tables zone_shift].
    eapply Forall_impl; [|exact Hb].
    intros a. cbv beta. destruct (Admin.otp_expires a); [lia | trivial].
  - exact IH.
Qed.

(** ** The validity window of a code *)

(** While no admin logs in, the admins and the time zones stay as they
    are. *)
Lemma follows_keeps_admins (date_in : string -> option Z) (w w2 : World) :
  follows_without_login date_in w w2 ->
  admins (tables w2) = admins (tables w) /\ zone_shift w2 = zone_shift w.
Proof.
  induction 1 as [| w2 r _ [IHa IHz] Hr | w2 t _ IH _ | w2 b _ IH];
    [split; reflexivity | | exact IH | exact IH].
  rewrite handle_zone. split; [|exact IHz]. rewrite <- IHa.
  destruct r; try discriminate Hr; cbn [handle].
  - destruct (get_home_frame w2) as [_ Ht]. now rewrite Ht.
  - destruct (verify_frame otpInput w2) as [_ Ht]. now rewrite Ht.
  - now destruct (mark_resolved_frame id w2) as (_ & Ha & _).
  - now destruct (submitComplaint_frame subject description location mobile
                    otp category file rnd w2) as (_ & Ha & _).
  - destruct (trackStatus_frame caseId w2) as [_ Ht]. now rewrite Ht.
  - now destruct (submit_missing_person_frame date_in name age gender lastSeen
                    location description reporter_mobile file rnd w2)
      as (_ & Ha & _).
Qed.

(** C2, as the code has it.  A code is issued at time T, the clock when
    [POST /adminLogin] is served, in a store in which no code outlives the
    window, as in every reachable world.  As long as no admin logs in
    afterwards, whatever else is served, a verification at time t, the clock
    when it is served, accepts the code when t < T + 5 min and rejects it
    when t >= T + 5 min, on the clock of the store: the bound is moved by
    the distance between the time zones of the node process and of the
    store session.  When the two are in the same zone the code is accepted
    at T + 4 min and rejected at T + 6 min. *)
Theorem otp_window_boundary
    (date_in : string -> option Z)
    (name department_name d mobile_no : option string) (k : Z) (w : World)
    (code : string) (w2 : World) :
  otp_expiries_bounded w ->
  fst (post_adminLogin name department_name d mobile_no k w)
  = otp_issued code ->
  follows_without_login date_in
    (snd (post_adminLogin name department_name d mobile_no k w)) w2 ->
  online w2 = true ->
  let T := clock w in
  let t := clock w2 in
  fst (post_verify_admin_otp (Some code) w2)
  = (if t <? T + 5 * 60 * 1000 + zone_shift w
     then otp_accepted else otp_rejected)
  /\ (zone_shift w = 0 ->
      (t = T + 4 * 60 * 1000 ->
       fst (post_verify_admin_otp (Some code) w2) = otp_accepted)
      /\ (t = T + 6 * 60 * 1000 ->
          fst (post_verify_admin_otp (Some code) w2) = otp_rejected)).
Proof.
  intros Hb Hiss Hlater Hon. cbv zeta.
  destruct (follows_keeps_admins _ _ _ Hlater) as [Hadm _].
  assert (fst (post_verify_admin_otp (Some code) w2)
          = if clock w2 <? clock w + 5 * 60 * 1000 + zone_shift w
            then otp_accepted else otp_rejected) as Hgen.
  { rewrite (verify_after_issue_at _ _ _ _ _ _ _ code w2 Hiss Hadm Hon).
    rewrite String.eqb_refl. cbn [andb].
    unfold timestamp_in. fold otp_window.
    destruct (Z.ltb_spec (clock w2) (clock w + otp_window + zone_shift w))
      as [Hlt | Hge]; [reflexivity|].
    now rewrite bounded_none_held. }
  split; [exact Hgen|].
  intros Hzone. rewrite Hgen, Hzone.
  split; intros ->.
  - destruct (Z.ltb_spec (clock w + 4 * 60 * 1000)
                         (clock w + 5 * 60 * 1000 + 0));
      [reflexivity | lia].
  - destruct (Z.ltb_spec (clock w + 6 * 60 * 1000)
                         (clock w + 5 * 60 * 1000 + 0));
      [lia | reflexivity].
Qed.

Lemma otp_window_boundary_witness :
  let w := set_clock 1000 world_two_admins in
  let w' := snd (post_adminLogin (Some "Asha") (Some "Roads") (Some "D1")
                                 (Some "9876543210") (2 ^ 52) w) in
  let w2 := set_clock (1000 + 4 * 60 * 1000)
              (snd (handle any_date (POST_trackStatus (Some "CASE-AAAAAA"))
                           w')) in
  let T := clock w in
  let t := clock w2 in
  fst (post_verify_admin_otp (Some "550000") w2)
  = (if t <? T + 5 * 60 * 1000 + zone_shift w
     then otp_accepted else otp_rejected)
  /\ (zone_shift w = 0 ->
      (t = T + 4 * 60 * 1000 ->
       fst (post_verify_admin_otp (Some "550000") w2) = otp_accepted)
      /\ (t = T + 6 * 60 * 1000 ->
          fst (post_verify_admin_otp (Some "550000") w2) = otp_rejected)).
Proof.
  apply (otp_window_boundary any_date (Some "Asha") (Some "Roads") (Some "D1")
           (Some "9876543210") (2 ^ 52) (set_clock 1000 world_two_admins)
           "550000"
           (set_clock (1000 + 4 * 60 * 1000)
              (snd (handle any_date (POST_trackStatus (Some "CASE-AAAAAA"))
                      (snd (post_adminLogin (Some "Asha") (Some "Roads")
                              (Some "D1") (Some "9876543210") (2 ^ 52)
                              (set_clock 1000 world_two_admins))))))).
  - repeat constructor; vm_compute; discriminate.
  - reflexivity.
  - apply follows_tick; [|vm_compute; discriminate].
    apply follows_request; [apply follows_at_once | reflexivity].
  - reflexivity.
Defined.

(** C2 as stated fails, in worlds that the server reaches.  D1 is issued
    "100000" at time 0.  When D2 is issued the same code two minutes later,
    the code of D1 is still accepted at six minutes, through the row of D2.
    When instead D1 is issued "550000" one minute later, its first code is
    rejected at four minutes. *)
Lemma code_window_depends_on_later_logins :
  let issue := post_adminLogin (Some "Asha") (Some "Roads") (Some "D1")
                               (Some "9876543210") 0 world_start in
  let T := clock world_start in
  let shared :=
    set_clock (T + 6 * 60 * 1000)
      (snd (post_adminLogin (Some "Bina") (Some "Water") (Some "D2")
                            (Some "9876500000") 0
                            (set_clock (T + 2 * 60 * 1000) (snd issue)))) in
  let reissued :=
    set_clock (T + 4 * 60 * 1000)
      (snd (post_adminLogin (Some "Asha") (Some "Roads") (Some "D1")
                            (Some "9876543210") (2 ^ 52)
                            (set_clock (T + 1 * 60 * 1000) (snd issue)))) in
  fst issue = otp_issued "100000"
  /\ reachable any_date shared
  /\ fst (post_verify_admin_otp (Some "100000") shared) = otp_accepted
  /\ reachable any_date reissued
  /\ fst (post_verify_admin_otp (Some "100000") reissued) = otp_rejected.
Proof.
  cbv zeta.
  assert (Js.valid_draw 0) as H0 by (unfold Js.valid_draw; lia).
  assert (Js.valid_draw (2 ^ 52)) as H1 by (unfold Js.valid_draw; lia).
  assert (reachable any_date
            (snd (post_adminLogin (Some "Asha") (Some "Roads") (Some "D1")
                                  (Some "9876543210") 0 world_start)))
    as Hissue.
  { exact (reachable_request any_date world_start
             (POST_adminLogin (Some "Asha") (Some "Roads") (Some "D1")
                              (Some "9876543210") 0)
             (reachable_start any_date true 0 0) H0). }
  repeat split.
  - apply reachable_tick; [|vm_compute; discriminate].
    refine (reachable_request any_date
              (set_clock (clock world_start + 2 * 60 * 1000)
                 (snd (post_adminLogin (Some "Asha") (Some "Roads")
                         (Some "D1") (Some "9876543210") 0 world_start)))
              (POST_adminLogin (Some "Bina") (Some "Water") (Some "D2")
                               (Some "9876500000") 0) _ H0).
    apply reachable_tick; [exact Hissue | vm_compute; discriminate].
  - apply reachable_tick; [|vm_compute; discriminate].
    refine (reachable_request any_date
              (set_clock (clock world_start + 1 * 60 * 1000)
                 (snd (post_adminLogin (Some "Asha") (Some "Roads")
                         (Some "D1") (Some "9876543210") 0 world_start)))
              (POST_adminLogin (Some "Asha") (Some "Roads") (Some "D1")
                               (Some "9876543210") (2 ^ 52)) _ H1).
    apply reachable_tick; [exact Hissue | vm_compute; discriminate].
Qed.

(** * Further properties *)

(** ** The text of a one-time code *)

Lemma Math_floor_offset_random (a b k : Z) :
  Js.Math_floor (inject_Z a + Js.Math_random k * inject_Z b)%Q
  = a + (k * b) / 2 ^ 53.
Proof.
  unfold Js.Math_floor, Js.Math_random, Qfloor, Qplus, Qmult, inject_Z.
  cbn [Qnum Qden].
  change (Z.pos (2 ^ 53 * 1)) with (2 ^ 53).
  change (Z.pos (1 * (2 ^ 53 * 1))) with (2 ^ 53).
  rewrite Z.mul_1_r. apply Z.div_add_l. discriminate.
Qed.

Lemma otp_number_range (k : Z) :
  Js.valid_draw k -> 100000 <= otp_number k <= 999999.
Proof.
  unfold Js.valid_draw, otp_number. intros Hk.
  rewrite Math_floor_offset_random.
  assert (0 <= k * 900000 / 2 ^ 53 < 900000); [|lia].
  split.
  - apply Z.div_pos; lia.
  - apply Z.div_lt_upper_bound; lia.
Qed.

Lemma string_of_uint_length (d : Decimal.uint) :
  String.length (NilEmpty.string_of_uint d) = Decimal.nb_digits d.
Proof. induction d; cbn [NilEmpty.string_of_uint Decimal.nb_digits String.length]; congruence. Qed.

Lemma string_of_uint_digits (d : Decimal.uint) :
  forallb Js.is_digit (list_ascii_of_string (NilEmpty.string_of_uint d)) = true.
Proof.
  induction d; cbn [NilEmpty.string_of_uint list_ascii_of_string forallb];
    [reflexivity | ..]; rewrite IHd; reflexivity.
Qed.

Lemma of_uint_acc_bounds (d : Decimal.uint) (acc : positive) :
  Z.pos acc * 10 ^ Z.of_nat (Decimal.nb_digits d)
  <= Z.pos (Pos.of_uint_acc d acc)
  < (Z.pos acc + 1) * 10 ^ Z.of_nat (Decimal.nb_digits d).
Proof.
  revert acc.
  induction d; intros acc; cbn [Decimal.nb_digits Pos.of_uint_acc];
    [rewrite Z.pow_0_r; lia | ..];
    rewrite Nat2Z.inj_succ, Z.pow_succ_r by lia;
    match goal with
    | |- context [Pos.of_uint_acc d ?a] => specialize (IHd a)
    end;
    assert (0 < 10 ^ Z.of_nat (Decimal.nb_digits d))
      by (apply Z.pow_pos_nonneg; lia);
    nia.
Qed.

(** The decimal digits of a positive number start with a digit other than
    0. *)
Lemma to_uint_head (p : positive) :
  match Pos.to_uint p with
  | Decimal.Nil | Decimal.D0 _ => False
  | _ => True
  end.
Proof.
  pose proof (DecimalPos.Unsigned.to_uint_nonzero p) as Hz.
  pose proof (DecimalPos.Unsigned.to_uint_nonnil p) as Hn.
  pose proof (DecimalPos.Unsigned.to_of (Pos.to_uint p)) as Hnorm.
  rewrite DecimalPos.Unsigned.of_to in Hnorm. cbn [N.to_uint] in Hnorm.
  destruct (Pos.to_uint p) as [|u|u|u|u|u|u|u|u|u|u]; try exact I;
    [congruence|].
  rewrite DecimalFacts.unorm_D0 in Hnorm.
  destruct u as [|u|u|u|u|u|u|u|u|u|u]; [now apply Hz | ..];
    match type of Hnorm with
    | Decimal.D0 ?v = _ =>
        assert (v <> Decimal.Nil) as Hv by discriminate;
        pose proof (DecimalFacts.nb_digits_unorm v Hv) as Hle;
        rewrite <- Hnorm in Hle; cbn [Decimal.nb_digits] in Hle; lia
    end.
Qed.

(** A positive number lies between the powers of ten that its number of
    digits gives. *)
Lemma to_uint_bounds (p : positive) :
  10 ^ (Z.of_nat (Decimal.nb_digits (Pos.to_uint p)) - 1)
  <= Z.pos p
  < 10 ^ Z.of_nat (Decimal.nb_digits (Pos.to_uint p)).
Proof.
  pose proof (to_uint_head p) as Hhead.
  pose proof (DecimalPos.Unsigned.of_to p) as Hof.
  destruct (Pos.to_uint p) as [|u|u|u|u|u|u|u|u|u|u]; try contradiction;
    cbn [Pos.of_uint] in Hof; injection Hof as Hof;
    cbn [Decimal.nb_digits]; rewrite Nat2Z.inj_succ;
    replace (Z.succ (Z.of_nat (Decimal.nb_digits u)) - 1)
      with (Z.of_nat (Decimal.nb_digits u)) by lia;
    rewrite Z.pow_succ_r by lia;
    match type of Hof with
    | Pos.of_uint_acc u ?a = p =>
        pose proof (of_uint_acc_bounds u a) as Hb; rewrite Hof in Hb
    end;
    assert (0 < 10 ^ Z.of_nat (Decimal.nb_digits u))
      by (apply Z.pow_pos_nonneg; lia);
    nia.
Qed.

(** The text of a number of six digits has six characters, all digits, and
    reads back as the number. *)
Lemma toString_six_digits (n : Z) :
  100000 <= n <= 999999 ->
  String.length (Js.toString n) = 6%nat
  /\ forallb Js.is_digit (list_ascii_of_string (Js.toString n)) = true
  /\ Js.parseInt (Js.toString n) = Some n.
Proof.
  intros Hn. destruct n as [|p|p]; try lia.
  split; [|split].
  - unfold Js.toString. cbn [Z.to_int NilZero.string_of_int].
    unfold NilZero.string_of_uint.
    pose proof (to_uint_bounds p) as Hb.
    pose proof (string_of_uint_length (Pos.to_uint p)) as Hlen.
    pose proof (DecimalPos.Unsigned.to_uint_nonnil p) as Hnil.
    assert (Decimal.nb_digits (Pos.to_uint p) = 6%nat) as H6.
    { destruct (Nat.lt_trichotomy (Decimal.nb_digits (Pos.to_uint p)) 6)
        as [Hlt | [Heq | Hgt]]; [|exact Heq|].
      - assert (10 ^ Z.of_nat (Decimal.nb_digits (Pos.to_uint p)) <= 10 ^ 5)
          by (apply Z.pow_le_mono_r; lia).
        lia.
      - assert (10 ^ 6 <= 10 ^ (Z.of_nat (Decimal.nb_digits (Pos.to_uint p)) - 1))
          by (apply Z.pow_le_mono_r; lia).
        lia. }
    destruct (Pos.to_uint p); [congruence | ..]; congruence.
  - unfold Js.toString. cbn [Z.to_int NilZero.string_of_int].
    unfold NilZero.string_of_uint.
    pose proof (string_of_uint_digits (Pos.to_uint p)) as Hd.
    destruct (Pos.to_uint p); [reflexivity | ..]; exact Hd.
  - apply (parseInt_int8_out (Z.pos p)). lia.
Qed.

Lemma digit_value_range (c : ascii) :
  Js.is_digit c = true -> 0 <= Js.digit_value c <= 9.
Proof.
  destruct c as [[] [] [] [] [] [] [] []]; try discriminate;
    intros _; vm_compute; split; discriminate.
Qed.

(** Reading a text of digits consumes all of it. *)
Lemma read_all_digits (s : string) (acc : Z) :
  forallb Js.is_digit (list_ascii_of_string s) = true ->
  exists v,
    Js.read_digits acc s = (acc * 10 ^ Z.of_nat (String.length s) + v, "")
    /\ 0 <= v < 10 ^ Z.of_nat (String.length s).
Proof.
  revert acc. induction s as [|c s IH]; intros acc Hall.
  - exists 0. cbn [Js.read_digits String.length Z.of_nat].
    rewrite Z.pow_0_r. split; [f_equal; lia | lia].
  - cbn [list_ascii_of_string forallb] in Hall.
    apply andb_true_iff in Hall as [Hc Hs].
    rewrite read_digits_step by exact Hc.
    destruct (IH (acc * 10 + Js.digit_value c) Hs) as (v & Hv & Hrange).
    pose proof (digit_value_range c Hc) as Hdv.
    cbn [String.length]. rewrite Nat2Z.inj_succ, Z.pow_succ_r by lia.
    assert (0 < 10 ^ Z.of_nat (String.length s))
      by (apply Z.pow_pos_nonneg; lia).
    exists (Js.digit_value c * 10 ^ Z.of_nat (String.length s) + v).
    split; [rewrite Hv; f_equal; lia | nia].
Qed.

(** A text of digits is the text of an integer, accepted if in range. *)
Lemma int_in_digits (type : string) (lo hi : Z) (s : string) :
  s <> "" ->
  forallb Js.is_digit (list_ascii_of_string s) = true ->
  exists n,
    0 <= n < 10 ^ Z.of_nat (String.length s)
    /\ Pg.int_in type lo hi s
       = if (lo <=? n) && (n <=? hi) then inr n
         else inl (Pg.numeric_value_out_of_range type).
Proof.
  intros Hne Hall.
  destruct (read_all_digits s 0 Hall) as (v & Hv & Hrange).
  exists v. split; [exact Hrange|].
  destruct s as [|c s]; [congruence|].
  cbn [list_ascii_of_string forallb] in Hall.
  apply andb_true_iff in Hall as [Hc _].
  unfold Pg.int_in.
  rewrite Z.mul_0_l, Z.add_0_l in Hv.
  destruct c as [[] [] [] [] [] [] [] []]; try discriminate Hc;
    cbn [Pg.skip_space];
    match goal with
    | |- context [Js.is_space ?c] =>
        let b := eval vm_compute in (Js.is_space c) in
        change (Js.is_space c) with b
    end;
    cbv beta iota zeta; unfold Js.starts_with_digit;
    rewrite Hc, Hv; reflexivity.
Qed.

Lemma falsy_false_filled (x : option string) :
  Js.falsy x = false <-> filled x.
Proof.
  unfold filled. split.
  - destruct x as [s|]; [|discriminate]. cbn [Js.falsy]. intros H.
    exists s. split; [reflexivity|]. intros ->. discriminate H.
  - intros (s & -> & Hs). cbn [Js.falsy]. now apply String.eqb_neq.
Qed.

(** ** Issuing codes: [POST /adminLogin] and [POST /send-otp] *)

(** X1.  [POST /adminLogin] answers in one of three ways.  When a field is
    missing or empty it answers "All fields are required", sends nothing to
    the store and leaves the world as it was.  Otherwise it first asks the
    store for the rows of the department and then either issues the code of
    the draw or answers "Server error", in which case no table has
    changed. *)
Theorem adminLogin_answers
    (name department_name d mobile_no : option string) (k : Z) (w : World) :
  let out := post_adminLogin name department_name d mobile_no k w in
  if Js.falsy name || Js.falsy department_name
     || Js.falsy d || Js.falsy mobile_no
  then out = (json 200 [("success", j_bool false);
                        ("message", j_str "All fields are required")], w)
  else (exists o rest,
           qlog (snd out)
           = (qlog w
              ++ (mkQuery select_admin_id_by_department [p_field d], o)
                 :: rest)%list)
       /\ (fst out = otp_issued (admin_otp k)
           \/ (fst out = json 200 [("success", j_bool false);
                                   ("message", j_str "Server error")]
               /\ tables (snd out) = tables w)).
Proof.
  cbv zeta. unfold post_adminLogin.
  destruct (Js.falsy name || Js.falsy department_name
            || Js.falsy d || Js.falsy mobile_no) eqn:Hval; [reflexivity|].
  fold (admin_otp k). run_handler.
  destruct (online w);
    [|cbn [fst snd qlog tables]; split; [now do 2 eexists | now right]].
  unfold exec_select_admin_id_by_department. frame.
  rewrite length_map.
  destruct (filter _ (admins (tables w))) as [|r0 rs].
  - cbn [List.length Nat.ltb Nat.leb]. unfold exec_insert_admin.
    destruct (Pg.nullable Pg.int8_in mobile_no) as [e|mob].
    + cbn [fst snd qlog tables]. rewrite <- app_assoc.
      split; [now do 2 eexists | now right].
    + rewrite !orb_false_iff in Hval. destruct Hval as [[[Hn _] _] _].
      apply falsy_false_filled in Hn as (n & -> & _).
      cbn [fst snd qlog tables]. rewrite <- app_assoc.
      split; [now do 2 eexists | now left].
  - cbn [List.length Nat.ltb Nat.leb]. unfold exec_update_admin_otp.
    cbn [fst snd qlog tables]. rewrite <- app_assoc.
    split; [now do 2 eexists | now left].
Qed.

(** X2.  The code that a successful login returns is the text of a number
    between 100000 and 999999: six characters, all of them digits. *)
Theorem adminLogin_code_six_digits
    (name department_name department_id mobile_no : option string) (k : Z)
    (w : World) (code : string) :
  Js.valid_draw k ->
  fst (post_adminLogin name department_name department_id mobile_no k w)
  = otp_issued code ->
  String.length code = 6%nat
  /\ forallb Js.is_digit (list_ascii_of_string code) = true
  /\ exists n, 100000 <= n <= 999999 /\ Js.parseInt code = Some n.
Proof.
  intros Hk Hiss.
  destruct (adminLogin_issued _ _ _ _ _ _ _ Hiss) as (-> & _).
  pose proof (otp_number_range k Hk) as Hrange.
  destruct (toString_six_digits (otp_number k) Hrange) as (Hlen & Hdig & Hparse).
  repeat split; [exact Hlen | exact Hdig |].
  exists (otp_number k). split; [exact Hrange | exact Hparse].
Qed.

Lemma adminLogin_code_six_digits_witness :
  String.length "550000" = 6%nat
  /\ forallb Js.is_digit (list_ascii_of_string "550000") = true
  /\ exists n, 100000 <= n <= 999999 /\ Js.parseInt "550000" = Some n.
Proof.
  apply (adminLogin_code_six_digits (Some "Asha") (Some "Roads") (Some "D1")
           (Some "9876543210") (2 ^ 52) world_start "550000").
  - unfold Js.valid_draw. lia.
  - reflexivity.
Defined.

(** X3.  [POST /send-otp] never touches the store.  It answers 400 unless
    the mobile number is exactly ten digits; for ten digits it answers with a
    code of six digits, and such a number is always accepted by the store as
    the [BIGINT] of [mobile_no]. *)
Theorem send_otp_checks_mobile (mobile : option string) (k : Z) (w : World) :
  Js.valid_draw k ->
  snd (post_send_otp mobile k w) = w
  /\ match mobile with
     | Some s =>
         if ten_digits s
         then (exists code,
                  fst (post_send_otp mobile k w)
                  = json 200 [("success", j_bool true);
                              ("message", j_str "OTP sent successfully.");
                              ("otp", j_str code)]
                  /\ String.length code = 6%nat
                  /\ forallb Js.is_digit (list_ascii_of_string code) = true)
              /\ (exists n, Pg.int8_in s = inr n /\ 0 <= n < 10 ^ 10)
         else fst (post_send_otp mobile k w)
              = json 400 [("success", j_bool false);
                          ("message", j_str "Invalid mobile number.")]
     | None =>
         fst (post_send_otp mobile k w)
         = json 400 [("success", j_bool false);
                     ("message", j_str "Invalid mobile number.")]
     end.
Proof.
  intros Hk. unfold post_send_otp.
  destruct mobile as [s|]; [|split; reflexivity].
  destruct (ten_digits s) eqn:Hten.
  - unfold ten_digits in Hten. apply andb_true_iff in Hten as [Hlen Hdig].
    apply Nat.eqb_eq in Hlen.
    assert (s <> "") as Hne by (intros ->; discriminate Hlen).
    assert (Js.falsy (Some s) = false) as ->.
    { cbn [Js.falsy]. destruct s; [congruence | reflexivity]. }
    cbn [orb negb fst snd]. fold (otp_number k).
    destruct (toString_six_digits (otp_number k) (otp_number_range k Hk))
      as (H6 & Hd & _).
    split; [reflexivity|]. split.
    + eexists. split; [reflexivity|]. split; [exact H6 | exact Hd].
    + destruct (int_in_digits "bigint" (- 2 ^ 63) (2 ^ 63 - 1) s Hne Hdig)
        as (n & Hn & Hin).
      rewrite Hlen in Hn. exists n. split; [|exact Hn].
      unfold Pg.int8_in. rewrite Hin.
      assert (10 ^ Z.of_nat 10 < 2 ^ 63 - 1) by reflexivity.
      destruct (Z.leb_spec (- 2 ^ 63) n); [|lia].
      destruct (Z.leb_spec n (2 ^ 63 - 1)); [reflexivity | lia].
  - cbn [negb]. rewrite orb_true_r. split; reflexivity.
Qed.

Lemma send_otp_checks_mobile_witness :
  snd (post_send_otp (Some "9876543210") 0 world_start) = world_start
  /\ (if ten_digits "9876543210"
      then (exists code,
               fst (post_send_otp (Some "9876543210") 0 world_start)
               = json 200 [("success", j_bool true);
                           ("message", j_str "OTP sent successfully.");
                           ("otp", j_str code)]
               /\ String.length code = 6%nat
               /\ forallb Js.is_digit (list_ascii_of_string code) = true)
           /\ (exists n, Pg.int8_in "9876543210" = inr n /\ 0 <= n < 10 ^ 10)
      else fst (post_send_otp (Some "9876543210") 0 world_start)
           = json 400 [("success", j_bool false);
                       ("message", j_str "Invalid mobile number.")]).
Proof.
  apply (send_otp_checks_mobile (Some "9876543210") 0 world_start).
  unfold Js.valid_draw. lia.
Defined.

(** ** Verifying codes: [POST /verify-admin-otp] *)

Lemma text_eq_true (a b : option string) :
  Pg.text_eq a b = true <-> exists s, a = Some s /\ b = Some s.
Proof.
  split.
  - destruct a as [x|], b as [y|]; try discriminate.
    cbn [Pg.text_eq]. intros H. apply String.eqb_eq in H as ->. eauto.
  - intros (s & -> & ->). apply String.eqb_refl.
Qed.

Lemma verify_world (code : option string) (w : World) :
  online w = true ->
  snd (post_verify_admin_otp code w)
  = mkWorldIn (tables w) true (clock w)
            (qlog w ++ [(mkQuery select_admin_by_otp [p_field code], None)])
              (zone_shift w).
Proof.
  intros Hon. unfold post_verify_admin_otp. run_handler. rewrite Hon.
  unfold exec_select_admin_by_otp.
  now destruct (List.length _ =? 0)%nat.
Qed.

Lemma verify_offline (code : option string) (w : World) :
  online w = false ->
  fst (post_verify_admin_otp code w) = render_adminLogin (Some "Database error").
Proof.
  intros Hoff. unfold post_verify_admin_otp. run_handler. now rewrite Hoff.
Qed.

Lemma holds_code_true (code : option string) (now : Z) (r : Admin.row) :
  holds_code code now r = true ->
  exists c e,
    code = Some c /\ Admin.otp r = Some c
    /\ Admin.otp_expires r = Some e /\ now < e.
Proof.
  unfold holds_code, unexpired. intros H.
  apply andb_true_iff in H as [Heq Hexp].
  apply text_eq_true in Heq as (c & Hotp & ->).
  destruct (Admin.otp_expires r) as [e|]; [|discriminate].
  exists c, e. repeat split; try assumption. now apply Z.ltb_lt.
Qed.

(** X4.  A verification is accepted only if the store answers and some row
    holds exactly the submitted code with an expiry later than the clock of
    the check; a request without a code is never accepted. *)
Theorem verify_accepts_only_held_codes (code : option string) (w : World) :
  fst (post_verify_admin_otp code w) = otp_accepted ->
  online w = true
  /\ exists c r e,
       code = Some c
       /\ In r (admins (tables w))
       /\ Admin.otp r = Some c
       /\ Admin.otp_expires r = Some e
       /\ clock w < e.
Proof.
  intros Hacc. destruct (online w) eqn:Hon.
  - split; [reflexivity|]. rewrite verify_spec in Hacc by exact Hon.
    destruct (existsb _ _) eqn:Hex; [|discriminate].
    apply existsb_exists in Hex as (r & Hr & Hheld).
    destruct (holds_code_true _ _ _ Hheld) as (c & e & -> & Hotp & He & Hlt).
    exists c, r, e. repeat split; assumption.
  - rewrite verify_offline in Hacc by exact Hon. discriminate.
Qed.

Lemma verify_accepts_only_held_codes_witness :
  online (set_clock 2000 world_reissued) = true
  /\ exists c r e,
       Some "550000" = Some c
       /\ In r (admins (tables (set_clock 2000 world_reissued)))
       /\ Admin.otp r = Some c
       /\ Admin.otp_expires r = Some e
       /\ clock (set_clock 2000 world_reissued) < e.
Proof.
  apply (verify_accepts_only_held_codes (Some "550000")
                                        (set_clock 2000 world_reissued)).
  reflexivity.
Defined.

(** X5.  An accepted verification does not use the code up: the tables are
    left as they were, and the same code is accepted again at every later
    check before the expiry of the row that holds it. *)
Theorem verify_does_not_consume (code : option string) (w : World) :
  fst (post_verify_admin_otp code w) = otp_accepted ->
  let w' := snd (post_verify_admin_otp code w) in
  tables w' = tables w
  /\ exists e,
       clock w < e
       /\ forall t, t < e ->
            fst (post_verify_admin_otp code (set_clock t w')) = otp_accepted.
Proof.
  intros Hacc. cbv zeta.
  destruct (online w) eqn:Hon;
    [|rewrite verify_offline in Hacc by exact Hon; discriminate].
  rewrite verify_spec in Hacc by exact Hon.
  destruct (existsb _ _) eqn:Hex; [clear Hacc | discriminate].
  apply existsb_exists in Hex as (r & Hr & Hheld).
  destruct (holds_code_true _ _ _ Hheld) as (c & e & -> & Hotp & He & Hlt).
  rewrite verify_world by exact Hon. cbn [tables].
  split; [reflexivity|].
  exists e. split; [exact Hlt|]. intros t Ht.
  rewrite verify_spec by reflexivity.
  cbn [set_clock clock tables].
  rewrite (existsb_witness (holds_code (Some c) t) _ r Hr); [reflexivity|].
  unfold holds_code, unexpired. rewrite Hotp, He.
  cbn [Pg.text_eq]. rewrite String.eqb_refl.
  now apply Z.ltb_lt.
Qed.

Lemma verify_does_not_consume_witness :
  let w := set_clock 2000 world_reissued in
  let w' := snd (post_verify_admin_otp (Some "550000") w) in
  tables w' = tables w
  /\ exists e,
       clock w < e
       /\ forall t, t < e ->
            fst (post_verify_admin_otp (Some "550000") (set_clock t w'))
            = otp_accepted.
Proof.
  apply (verify_does_not_consume (Some "550000")
                                 (set_clock 2000 world_reissued)).
  reflexivity.
Defined.

(** ** What the writing routes do to the tables *)



(** Whatever the request, [POST /submitComplaint] either leaves the rows as
    they are or appends one complaint built from the request. *)
Lemma submitComplaint_effect
    (subject description location mobile otp category file : option string)
    (rnd : nat -> Z) (w : World) :
  let db := tables w in
  let db' := tables (snd (post_submitComplaint subject description location
                            mobile otp category file rnd w)) in
  admins db' = admins db /\ admins_id_seq db' = admins_id_seq db
  /\ missing_persons db' = missing_persons db
  /\ missing_persons_id_seq db' = missing_persons_id_seq db
  /\ ((codinCluc db' = codinCluc db
       /\ codinCluc_id_seq db <= codinCluc_id_seq db')
      \/ (exists s d m,
             s <> "" /\ d <> "" /\ filled category /\ filled location
             /\ codinCluc db'
                = (codinCluc db
                   ++ [new_complaint db (clock w) (generateCaseId rnd) s d
                                     category (upload_path file) m location])%list
             /\ codinCluc_id_seq db' = codinCluc_id_seq db + 1)).
Proof.
  cbv zeta.
  destruct (Js.falsy subject || Js.falsy description
            || Js.falsy location || Js.falsy category) eqn:Hval.
  - rewrite submitComplaint_validation by exact Hval.
    cbn [snd]. repeat split. left. split; [reflexivity | lia].
  - rewrite submitComplaint_insert by exact Hval. cbv zeta.
    destruct (online w); [|cbn [snd tables]; repeat split; left; split;
                           [reflexivity | lia]].
    cbn [snd tables]. unfold exec_insert_complaint.
    pose proof Hval as Hval'.
    rewrite !orb_false_iff in Hval'. destruct Hval' as [[[Hs Hd] Hl] Hc].
    apply falsy_false_filled in Hs as (s & -> & Hs).
    apply falsy_false_filled in Hd as (d & -> & Hd).
    apply falsy_false_filled in Hl. apply falsy_false_filled in Hc.
    destruct (Pg.nullable Pg.int8_in mobile) as [e|[m|]];
      try (cbn [snd admins admins_id_seq missing_persons
                missing_persons_id_seq codinCluc codinCluc_id_seq];
           repeat split; left; split; [reflexivity | lia]).
    destruct (existsb _ _);
      cbn [snd admins admins_id_seq missing_persons
           missing_persons_id_seq codinCluc codinCluc_id_seq];
      repeat split; [left; split; [reflexivity | lia]|].
    right. exists s, d, m. repeat split; assumption.
Qed.

(** Whatever the request, [POST /adminLogin] leaves the admins as they are,
    or rewrites the code and expiry of the rows of the department, or, when
    the department has no row, appends one. *)
Lemma adminLogin_effect
    (name department_name d mobile_no : option string) (k : Z) (w : World) :
  let db := tables w in
  let db' := tables (snd (post_adminLogin name department_name d mobile_no
                                          k w)) in
  codinCluc db' = codinCluc db /\ codinCluc_id_seq db' = codinCluc_id_seq db
  /\ missing_persons db' = missing_persons db
  /\ missing_persons_id_seq db' = missing_persons_id_seq db
  /\ ((admins db' = admins db /\ admins_id_seq db' = admins_id_seq db)
      \/ (admins db'
          = map (fun r => if of_department d r
                          then Admin.set_otp (Some (admin_otp k))
                                             (Some (timestamp_in w
                                                      (clock w + otp_window)))
                                             r
                          else r)
                (admins db)
          /\ admins_id_seq db' = admins_id_seq db)
      \/ (exists n mob,
             filled d
             /\ filter (of_department d) (admins db) = []
             /\ admins db'
                = (admins db
                   ++ [Admin.mk (admins_id_seq db + 1) n department_name d mob
                                (Some (admin_otp k))
                                (Some (timestamp_in w (clock w + otp_window)))
                                (Some (clock w))])%list
             /\ admins_id_seq db' = admins_id_seq db + 1)).
Proof.
  cbv zeta. unfold post_adminLogin.
  destruct (Js.falsy name || Js.falsy department_name
            || Js.falsy d || Js.falsy mobile_no) eqn:Hval;
    [cbn [snd]; repeat split; left; split; reflexivity|].
  fold (admin_otp k).
  run_handler. destruct (online w);
    [|cbn [snd tables]; repeat split; left; split; reflexivity].
  unfold exec_select_admin_id_by_department. frame.
  rewrite length_map. fold (of_department d).
  destruct (filter (of_department d) (admins (tables w))) as [|r0 rs] eqn:Hsel.
  - cbn [List.length Nat.ltb Nat.leb]. unfold exec_insert_admin.
    destruct (Pg.nullable Pg.int8_in mobile_no) as [e|mob];
      [cbn [snd tables]; repeat split; left; split; reflexivity|].
    rewrite !orb_false_iff in Hval. destruct Hval as [[[Hn _] Hd] _].
    apply falsy_false_filled in Hn as (n & -> & _).
    apply falsy_false_filled in Hd.
    cbn [snd tables codinCluc codinCluc_id_seq missing_persons
         missing_persons_id_seq admins admins_id_seq].
    repeat split. right. right. exists n, mob. repeat split; assumption.
  - cbn [List.length Nat.ltb Nat.leb]. unfold exec_update_admin_otp.
    cbn [snd tables codinCluc codinCluc_id_seq missing_persons
         missing_persons_id_seq admins admins_id_seq].
    repeat split. right. left. split; reflexivity.
Qed.

(** Whatever the request, [POST /submit-missing-person] either leaves the
    reports as they are or appends one, with a fresh identifier and the
    status "Active". *)
Lemma submit_missing_person_effect (date_in : string -> option Z)
    (name age gender lastSeen location description reporter_mobile file
     : option string) (rnd : nat -> Z) (w : World) :
  let db := tables w in
  let db' := tables (snd (post_submit_missing_person date_in name age gender
                            lastSeen location description reporter_mobile
                            file rnd w)) in
  admins db' = admins db /\ admins_id_seq db' = admins_id_seq db
  /\ codinCluc db' = codinCluc db /\ codinCluc_id_seq db' = codinCluc_id_seq db
  /\ ((missing_persons db' = missing_persons db
       /\ missing_persons_id_seq db <= missing_persons_id_seq db')
      \/ (exists n a dt mob,
             n <> ""
             /\ ~ In (generateCaseId rnd)
                     (map MissingPerson.case_id (missing_persons db))
             /\ missing_persons db'
                = (missing_persons db
                   ++ [MissingPerson.mk (missing_persons_id_seq db + 1)
                         (generateCaseId rnd) n a gender dt location
                         description (upload_path file) mob (Some "Active")
                         (Some (clock w))])%list
             /\ missing_persons_id_seq db' = missing_persons_id_seq db + 1)).
Proof.
  cbv zeta.
  destruct (Js.falsy name || Js.falsy age || Js.falsy gender
            || Js.falsy lastSeen || Js.falsy location
            || Js.falsy reporter_mobile) eqn:Hval.
  - unfold post_submit_missing_person. run_handler. rewrite Hval.
    cbn [snd]. repeat split. left. split; [reflexivity | lia].
  - rewrite submit_missing_person_insert by exact Hval. cbv zeta.
    destruct (online w); [|cbn [snd tables]; repeat split; left; split;
                           [reflexivity | lia]].
    cbn [snd tables]. unfold exec_insert_missing_person.
    rewrite !orb_false_iff in Hval.
    destruct Hval as [[[[[Hn _] _] _] _] _].
    apply falsy_false_filled in Hn as (n & -> & Hn).
    destruct (Pg.nullable Pg.int4_in age) as [e|a];
      [cbn [snd]; repeat split; left; split; [reflexivity | lia]|].
    destruct (date_param date_in lastSeen) as [e|dt];
      [cbn [snd]; repeat split; left; split; [reflexivity | lia]|].
    destruct (Pg.nullable Pg.int8_in reporter_mobile) as [e|mob];
      [cbn [snd]; repeat split; left; split; [reflexivity | lia]|].
    destruct (existsb _ _) eqn:Hex;
      cbn [snd admins admins_id_seq missing_persons
           missing_persons_id_seq codinCluc codinCluc_id_seq];
      repeat split; [left; split; [reflexivity | lia]|].
    right. exists n, a, dt, mob. repeat split; try assumption.
    intros Hin. apply in_map_iff in Hin as (r & Hid & Hr).
    assert (existsb (fun r => String.eqb (MissingPerson.case_id r)
                                         (generateCaseId rnd))
                    (missing_persons (tables w)) = true) as Hex'.
    { apply existsb_witness with r; [exact Hr|].
      rewrite Hid. apply String.eqb_refl. }
    congruence.
Qed.

(** ** Invariants of the tables *)

Lemma upload_path_uploaded (file : option string) : uploaded (upload_path file).
Proof. destruct file as [f|]; [right; now exists f | now left]. Qed.

Lemma keys_snoc {A} (key : A -> Z) (l : list A) (seq : Z) (x : A) :
  NoDup (map key l) ->
  Forall (fun r => 0 < key r <= seq) l ->
  key x = seq + 1 ->
  NoDup (map key (l ++ [x])).
Proof.
  intros Hnd Hrange Hx. rewrite map_app. cbn [map].
  apply NoDup_snoc; [exact Hnd|].
  intros Hin. apply in_map_iff in Hin as (r & Hr & Hin).
  rewrite Forall_forall in Hrange. specialize (Hrange r Hin). lia.
Qed.

Lemma admins_inv_update (d : option string) (f : Admin.row -> Admin.row)
    (rows : list Admin.row) (seq : Z) :
  (forall r, Admin.department_id (f r) = Admin.department_id r
             /\ Admin.id (f r) = Admin.id r) ->
  admins_inv rows seq ->
  admins_inv (map (fun r => if of_department d r then f r else r) rows) seq.
Proof.
  intros Hf (Hseq & Hid & Hall).
  assert (map Admin.id
              (map (fun r => if of_department d r then f r else r) rows)
          = map Admin.id rows) as Hmap.
  { rewrite map_map. apply map_ext. intros r.
    destruct (of_department d r); [apply Hf | reflexivity]. }
  repeat split; try assumption.
  - now rewrite Hmap.
  - rewrite Forall_forall in *. intros r Hr.
    apply in_map_iff in Hr as (a & <- & Ha). specialize (Hall a Ha).
    destruct (of_department d a); [|exact Hall].
    destruct (Hf a) as [-> ->]. exact Hall.
Qed.

Lemma admins_inv_insert (d : option string) (row : Admin.row)
    (rows : list Admin.row) (seq : Z) :
  filled d ->
  Admin.department_id row = d ->
  Admin.id row = seq + 1 ->
  admins_inv rows seq ->
  admins_inv (rows ++ [row]) (seq + 1).
Proof.
  intros Hd Hrow Hid (Hseq & Hids & Hall).
  repeat split.
  - lia.
  - apply keys_snoc with seq; [exact Hids | | exact Hid].
    eapply Forall_impl; [|exact Hall]. now intros a [_ Ha].
  - apply Forall_app. split.
    + eapply Forall_impl; [|exact Hall]. intros a [Hf Ha]. split; [exact Hf | lia].
    + constructor; [|constructor]. rewrite Hrow, Hid. split; [exact Hd | lia].
Qed.

Lemma complaints_inv_resolve (i : Z) (rows : list Complaint.row) (seq : Z) :
  complaints_inv rows seq -> complaints_inv (map (resolve_row i) rows) seq.
Proof.
  intros (Hseq & Hids & Hall).
  assert (map Complaint.id (map (resolve_row i) rows) = map Complaint.id rows)
    as Hmap.
  { rewrite map_map. apply map_ext. intros r. unfold resolve_row.
    now destruct (Complaint.id r =? i). }
  repeat split; [exact Hseq | now rewrite Hmap |].
  rewrite Forall_forall in *. intros r Hr.
  apply in_map_iff in Hr as (a & <- & Ha). specialize (Hall a Ha).
  unfold resolve_row. destruct (Complaint.id a =? i); [|exact Hall].
  destruct Hall as (H1 & _ & H3). cbn. repeat split; try apply H1; try apply H3.
  now right.
Qed.

Lemma complaints_inv_seq (rows : list Complaint.row) (seq seq' : Z) :
  seq <= seq' -> complaints_inv rows seq -> complaints_inv rows seq'.
Proof.
  intros Hle (Hseq & Hids & Hall). repeat split; [lia | exact Hids |].
  eapply Forall_impl; [|exact Hall].
  intros a (Hr & Hrest). split; [lia | exact Hrest].
Qed.

Lemma reports_inv_seq (rows : list MissingPerson.row) (seq seq' : Z) :
  seq <= seq' -> reports_inv rows seq -> reports_inv rows seq'.
Proof.
  intros Hle (Hseq & Hc & Hids & Hall). repeat split; [lia | exact Hc | exact Hids |].
  eapply Forall_impl; [|exact Hall].
  intros a (Hs & Hr & Hrest). repeat split; try lia; try apply Hrest; exact Hs.
Qed.

Lemma store_inv_same (db db' : DB) :
  db' = db -> store_inv db -> store_inv db'.
Proof. now intros ->. Qed.

(** Serving a request keeps the invariants of the tables. *)
Lemma handle_preserves_store_inv
    (date_in : string -> option Z) (r : request) (w : World) :
  valid_request r ->
  store_inv (tables w) ->
  store_inv (tables (snd (handle date_in r w))).
Proof.
  intros Hvalid (Hadm & Hcom & Hrep). destruct r; cbn [handle].
  - apply store_inv_same with (tables w); [apply get_home_frame | now split].
  - destruct (adminLogin_effect name department_name department_id mobile_no
                                k w) as (Hc & Hcs & Hm & Hms & Ha).
    cbv zeta in *. unfold store_inv. rewrite Hc, Hcs, Hm, Hms.
    split; [|now split].
    destruct Ha as [[-> ->] | [[-> ->] | (n & mob & Hd & Hnone & -> & ->)]].
    + exact Hadm.
    + apply admins_inv_update; [|exact Hadm]. intros a. split; reflexivity.
    + apply admins_inv_insert with department_id; try assumption; reflexivity.
  - apply store_inv_same with (tables w); [apply verify_frame | now split].
  - rewrite mark_resolved_spec. cbv zeta.
    destruct (online w); [|now split].
    destruct (Pg.int4_in id) as [e|i]; [now split|].
    cbn [snd tables]. split; [exact Hadm | split; [|exact Hrep]].
    cbn [codinCluc codinCluc_id_seq]. now apply complaints_inv_resolve.
  - destruct (submitComplaint_effect subject description location mobile otp
                                     category file rnd w)
      as (Ha & Has & Hm & Hms & Hrows).
    cbv zeta in *. unfold store_inv. rewrite Ha, Has, Hm, Hms.
    split; [exact Hadm | split; [|exact Hrep]].
    destruct Hrows as [[-> Hle] |
                       (s & d & m & Hs & Hd & Hcat & Hloc & -> & ->)].
    + now apply complaints_inv_seq with (codinCluc_id_seq (tables w)).
    + destruct Hcom as (Hseq & Hids & Hall). repeat split.
      * lia.
      * apply keys_snoc with (codinCluc_id_seq (tables w));
          [exact Hids | | reflexivity].
        eapply Forall_impl; [|exact Hall]. now intros a [Hr _].
      * apply Forall_app. split.
        -- eapply Forall_impl; [|exact Hall].
           intros a (Hr & Hrest). split; [lia | exact Hrest].
        -- constructor; [|constructor]. cbn.
           repeat split; try assumption; try lia;
             [now left | apply upload_path_uploaded].
  - apply store_inv_same with (tables w); [apply trackStatus_frame | now split].
  - destruct (submit_missing_person_effect date_in name age gender lastSeen
                location description reporter_mobile file rnd w)
      as (Ha & Has & Hc & Hcs & Hrows).
    cbv zeta in *. unfold store_inv. rewrite Ha, Has, Hc, Hcs.
    split; [exact Hadm | split; [exact Hcom|]].
    destruct Hrows as [[-> Hle] |
                       (n & a & dt & mob & Hn & Hfresh & -> & ->)].
    + now apply reports_inv_seq with (missing_persons_id_seq (tables w)).
    + destruct Hrep as (Hseq & Hcase & Hids & Hall). repeat split.
      * lia.
      * rewrite map_app. cbn [map MissingPerson.case_id].
        now apply NoDup_snoc.
      * apply keys_snoc with (missing_persons_id_seq (tables w));
          [exact Hids | | reflexivity].
        eapply Forall_impl; [|exact Hall]. now intros x (_ & Hr & _).
      * apply Forall_app. split.
        -- eapply Forall_impl; [|exact Hall].
           intros x (Hsh & Hr & Hrest).
           repeat split; try lia; try apply Hrest; exact Hsh.
        -- constructor; [|constructor]. cbn [MissingPerson.case_id
             MissingPerson.id MissingPerson.name MissingPerson.status
             MissingPerson.media_path].
           repeat split; try assumption; try lia;
             [now apply generateCaseId_shape | apply upload_path_uploaded].
Qed.

Lemma reachable_store_inv (date_in : string -> option Z) (w : World) :
  reachable date_in w -> store_inv (tables w).
Proof.
  induction 1 as [o t | w r _ IH Hvalid | w t _ IH Ht | w b _ IH].
  - cbn [tables]. unfold store_inv, admins_inv, complaints_inv, reports_inv.
    cbn. repeat split; try lia; constructor.
  - now apply handle_preserves_store_inv.
  - exact IH.
  - exact IH.
Qed.

Lemma draws_A_valid : forall i, (i < 6)%nat -> Js.valid_draw (draws_A i).
Proof. intros i _. unfold draws_A, Js.valid_draw. lia. Qed.

Lemma world_one_complaint_reachable (date_in : string -> option Z) :
  reachable date_in world_one_complaint.
Proof.
  exact (reachable_request date_in world_start
           (POST_submitComplaint (Some "Pothole") (Some "Large pothole")
              (Some "Main St") (Some "9876543210") None (Some "Roads") None
              draws_A)
           (reachable_start date_in true 0 0) draws_A_valid).
Qed.

Lemma world_two_complaints_reachable (date_in : string -> option Z) :
  reachable date_in world_two_complaints.
Proof.
  refine (reachable_request date_in (set_clock 1000 world_one_complaint)
            (POST_submitComplaint (Some "Lamp") (Some "Street lamp out")
               (Some "Hill Rd") (Some "9876500000") None (Some "Lights")
               (Some "lamp.jpg") (fun i => draws_A_then_S (6 + i)%nat)) _ _).
  - apply reachable_tick; [apply world_one_complaint_reachable|].
    vm_compute. discriminate.
  - intros i _. unfold draws_A_then_S, Js.valid_draw.
    destruct (6 + i <? 6)%nat; lia.
Qed.

Lemma world_one_of_each_reachable : reachable any_date world_one_of_each.
Proof.
  exact (reachable_request any_date world_one_complaint
           (POST_submit_missing_person (Some "Asha") (Some "9") (Some "F")
              (Some "2024-01-05") (Some "Main St") None (Some "9876543210")
              None draws_A)
           (world_one_complaint_reachable any_date) draws_A_valid).
Qed.

Lemma NoDup_map_inj {A B} (f : A -> B) (l : list A) (x y : A) :
  NoDup (map f l) -> In x l -> In y l -> f x = f y -> x = y.
Proof.
  induction l as [|a l IH]; intros Hnd Hx Hy Hf; [destruct Hx|].
  cbn [map] in Hnd. apply NoDup_cons_iff in Hnd as [Hnotin Hnd].
  destruct Hx as [-> | Hx], Hy as [-> | Hy].
  - reflexivity.
  - destruct Hnotin. rewrite Hf. now apply in_map.
  - destruct Hnotin. rewrite <- Hf. now apply in_map.
  - now apply IH.
Qed.

(** X7.  In every reachable world the identifiers of the complaints are
    primary keys handed out by the sequence: positive, at most the current
    sequence value, and distinct, so [WHERE id=$1] matches at most one
    row. *)
Theorem complaint_ids_are_keys
    (date_in : string -> option Z) (w : World) (r1 r2 : Complaint.row) :
  reachable date_in w ->
  In r1 (codinCluc (tables w)) ->
  In r2 (codinCluc (tables w)) ->
  Complaint.id r1 = Complaint.id r2 ->
  r1 = r2 /\ 0 < Complaint.id r1 <= codinCluc_id_seq (tables w).
Proof.
  intros Hreach H1 H2 Hid.
  destruct (reachable_store_inv date_in w Hreach)
    as (_ & (_ & Hids & Hall) & _).
  split.
  - now apply (NoDup_map_inj Complaint.id (codinCluc (tables w))).
  - rewrite Forall_forall in Hall. now apply Hall.
Qed.

Lemma complaint_ids_are_keys_witness :
  let r := Complaint.mk 1 (Some "CASE-AAAAAA") "Pothole" "Large pothole"
                        (Some "Roads") None 9876543210 (Some "Main St")
                        (Some 0) (Some "Submitted") in
  r = r /\ 0 < Complaint.id r <= codinCluc_id_seq (tables world_one_of_each).
Proof.
  apply (complaint_ids_are_keys any_date world_one_of_each
           (Complaint.mk 1 (Some "CASE-AAAAAA") "Pothole" "Large pothole"
                         (Some "Roads") None 9876543210 (Some "Main St")
                         (Some 0) (Some "Submitted"))
           (Complaint.mk 1 (Some "CASE-AAAAAA") "Pothole" "Large pothole"
                         (Some "Roads") None 9876543210 (Some "Main St")
                         (Some 0) (Some "Submitted"))).
  - apply world_one_of_each_reachable.
  - left; reflexivity.
  - left; reflexivity.
  - reflexivity.
Defined.

(** X8.  In every reachable world the status of a complaint is "Submitted"
    or "Resolved", the only values the code writes, so [getStatusColor]
    gives it orange or green and never falls to its default. *)
Theorem stored_status_has_colour
    (date_in : string -> option Z) (w : World) (row : Complaint.row) :
  reachable date_in w ->
  In row (codinCluc (tables w)) ->
  (Complaint.status row = Some "Submitted"
   /\ getStatusColor (Complaint.status row) = "#ff9800")
  \/ (Complaint.status row = Some "Resolved"
      /\ getStatusColor (Complaint.status row) = "#4caf50").
Proof.
  intros Hreach Hin.
  destruct (reachable_store_inv date_in w Hreach)
    as (_ & (_ & _ & Hall) & _).
  rewrite Forall_forall in Hall.
  destruct (Hall row Hin) as (_ & [-> | ->] & _);
    [left | right]; split; reflexivity.
Qed.

Lemma stored_status_has_colour_witness :
  let row := Complaint.mk 1 (Some "CASE-AAAAAA") "Pothole" "Large pothole"
                          (Some "Roads") None 9876543210 (Some "Main St")
                          (Some 0) (Some "Submitted") in
  (Complaint.status row = Some "Submitted"
   /\ getStatusColor (Complaint.status row) = "#ff9800")
  \/ (Complaint.status row = Some "Resolved"
      /\ getStatusColor (Complaint.status row) = "#4caf50").
Proof.
  apply (stored_status_has_colour any_date world_one_of_each
           (Complaint.mk 1 (Some "CASE-AAAAAA") "Pothole" "Large pothole"
                         (Some "Roads") None 9876543210 (Some "Main St")
                         (Some 0) (Some "Submitted"))).
  - apply world_one_of_each_reachable.
  - left; reflexivity.
Defined.

Lemma getMediaPath_uploaded (p : option string) :
  uploaded p ->
  getMediaPath p
  = match p with
    | Some path => path
    | None => "https://via.placeholder.com/320x200?text=No+Image"
    end.
Proof.
  intros [-> | (f & ->)]; [reflexivity|].
  unfold getMediaPath, startsWith. cbn. now destruct f.
Qed.

(** X9.  In every reachable world a stored complaint has what the validation
    asks for: a subject, a description, a category and a location that are
    not empty, and a generated case identifier.  Its image path is either
    absent, and [getMediaPath] shows the placeholder, or a path under
    ["/uploads/"], which [getMediaPath] returns as it is. *)
Theorem stored_complaint_is_complete
    (date_in : string -> option Z) (w : World) (row : Complaint.row) :
  reachable date_in w ->
  In row (codinCluc (tables w)) ->
  Complaint.subject row <> "" /\ Complaint.description row <> ""
  /\ filled (Complaint.category row) /\ filled (Complaint.location row)
  /\ (exists x, Complaint.case_id row = Some x /\ case_id_shape x = true)
  /\ uploaded (Complaint.image_path row)
  /\ getMediaPath (Complaint.image_path row)
     = match Complaint.image_path row with
       | Some path => path
       | None => "https://via.placeholder.com/320x200?text=No+Image"
       end.
Proof.
  intros Hreach Hin.
  destruct (reachable_store_inv date_in w Hreach)
    as (_ & (_ & _ & Hall) & _).
  destruct (reachable_invariants date_in w Hreach) as (_ & Hshape & _).
  rewrite Forall_forall in Hall, Hshape.
  destruct (Hall row Hin) as (_ & _ & Hs & Hd & Hc & Hl & Hup).
  repeat split; try assumption.
  - now apply Hshape.
  - now apply getMediaPath_uploaded.
Qed.

Lemma stored_complaint_is_complete_witness :
  let row := Complaint.mk 1 (Some "CASE-AAAAAA") "Pothole" "Large pothole"
                          (Some "Roads") None 9876543210 (Some "Main St")
                          (Some 0) (Some "Submitted") in
  Complaint.subject row <> "" /\ Complaint.description row <> ""
  /\ filled (Complaint.category row) /\ filled (Complaint.location row)
  /\ (exists x, Complaint.case_id row = Some x /\ case_id_shape x = true)
  /\ uploaded (Complaint.image_path row)
  /\ getMediaPath (Complaint.image_path row)
     = match Complaint.image_path row with
       | Some path => path
       | None => "https://via.placeholder.com/320x200?text=No+Image"
       end.
Proof.
  apply (stored_complaint_is_complete any_date world_one_of_each
           (Complaint.mk 1 (Some "CASE-AAAAAA") "Pothole" "Large pothole"
                         (Some "Roads") None 9876543210 (Some "Main St")
                         (Some 0) (Some "Submitted"))).
  - apply world_one_of_each_reachable.
  - left; reflexivity.
Defined.

(** X10.  In every reachable world a missing-person report has the status
    "Active" it was created with, since no route changes it, and a generated
    case identifier that no other report carries. *)
Theorem reports_stay_active
    (date_in : string -> option Z) (w : World) (r1 r2 : MissingPerson.row) :
  reachable date_in w ->
  In r1 (missing_persons (tables w)) ->
  In r2 (missing_persons (tables w)) ->
  MissingPerson.status r1 = Some "Active"
  /\ case_id_shape (MissingPerson.case_id r1) = true
  /\ (MissingPerson.case_id r1 = MissingPerson.case_id r2 -> r1 = r2).
Proof.
  intros Hreach H1 H2.
  destruct (reachable_store_inv date_in w Hreach)
    as (_ & _ & (_ & Hcase & _ & Hall)).
  rewrite Forall_forall in Hall.
  destruct (Hall r1 H1) as (Hshape & _ & _ & Hst & _).
  repeat split; [exact Hst | exact Hshape |].
  now apply (NoDup_map_inj MissingPerson.case_id (missing_persons (tables w))).
Qed.

Lemma reports_stay_active_witness :
  let r := MissingPerson.mk 1 "CASE-AAAAAA" "Asha" (Some 9) (Some "F") (Some 0)
                            (Some "Main St") None None (Some 9876543210)
                            (Some "Active") (Some 0) in
  MissingPerson.status r = Some "Active"
  /\ case_id_shape (MissingPerson.case_id r) = true
  /\ (MissingPerson.case_id r = MissingPerson.case_id r -> r = r).
Proof.
  apply (reports_stay_active any_date world_one_of_each
           (MissingPerson.mk 1 "CASE-AAAAAA" "Asha" (Some 9) (Some "F")
                             (Some 0) (Some "Main St") None None
                             (Some 9876543210) (Some "Active") (Some 0))
           (MissingPerson.mk 1 "CASE-AAAAAA" "Asha" (Some 9) (Some "F")
                             (Some 0) (Some "Main St") None None
                             (Some 9876543210) (Some "Active") (Some 0))).
  - apply world_one_of_each_reachable.
  - left; reflexivity.
  - left; reflexivity.
Defined.

(** ** Nothing is deleted *)

Lemma same_admin_refl (a : Admin.row) : same_admin a a.
Proof. unfold same_admin. repeat split. Qed.

(** X11.  No request deletes a row.  After any request every complaint is
    still stored, unchanged or with its status set to "Resolved"; every
    missing-person report is still stored unchanged; and every admin row is
    still stored with the same identifier, name, department and mobile
    number, only its code and expiry may differ. *)
Theorem requests_never_delete
    (date_in : string -> option Z) (r : request) (w : World) :
  let db := tables w in
  let db' := tables (snd (handle date_in r w)) in
  (forall row, In row (codinCluc db) ->
               In row (codinCluc db')
               \/ In (Complaint.set_status (Some "Resolved") row)
                     (codinCluc db'))
  /\ (forall row, In row (missing_persons db) -> In row (missing_persons db'))
  /\ (forall row, In row (admins db) ->
                  exists row', In row' (admins db') /\ same_admin row row').
Proof.
  cbv zeta.
  assert (forall db', db' = tables w ->
            (forall row, In row (codinCluc (tables w)) ->
               In row (codinCluc db')
               \/ In (Complaint.set_status (Some "Resolved") row)
                     (codinCluc db'))
            /\ (forall row, In row (missing_persons (tables w)) ->
                            In row (missing_persons db'))
            /\ (forall row, In row (admins (tables w)) ->
                  exists row', In row' (admins db') /\ same_admin row row'))
    as Hsame.
  { intros db' ->. repeat split; auto.
    intros row Hrow. exists row. split; [exact Hrow | apply same_admin_refl]. }
  destruct r; cbn [handle].
  - apply Hsame, get_home_frame.
  - destruct (adminLogin_effect name department_name department_id mobile_no
                                k w) as (Hc & _ & Hm & _ & Ha).
    cbv zeta in *. rewrite Hc, Hm. repeat split; auto.
    intros row Hrow.
    destruct Ha as [[-> _] | [[-> _] | (n & mob & _ & _ & -> & _)]].
    + exists row. split; [exact Hrow | apply same_admin_refl].
    + exists (if of_department department_id row
              then Admin.set_otp (Some (admin_otp k))
                                 (Some (timestamp_in w
                                          (clock w + otp_window))) row
              else row).
      split; [apply in_map_iff; exists row; split; [reflexivity | exact Hrow]|].
      destruct (of_department department_id row);
        unfold same_admin; repeat split.
    + exists row. split; [apply in_or_app; now left | apply same_admin_refl].
  - apply Hsame, verify_frame.
  - rewrite mark_resolved_spec. cbv zeta.
    destruct (online w); [|now apply Hsame].
    destruct (Pg.int4_in id) as [e|i]; [now apply Hsame|].
    cbn [snd tables codinCluc missing_persons admins].
    repeat split; auto.
    + intros row Hrow. apply (in_map (resolve_row i)) in Hrow.
      unfold resolve_row in Hrow at 1.
      destruct (Complaint.id row =? i); [now right | now left].
    + intros row Hrow. exists row. split; [exact Hrow | apply same_admin_refl].
  - destruct (submitComplaint_effect subject description location mobile otp
                                     category file rnd w)
      as (Ha & _ & Hm & _ & Hrows).
    cbv zeta in *. rewrite Ha, Hm. repeat split; auto.
    + intros row Hrow. left.
      destruct Hrows as [[-> _] | (s & d & m & _ & _ & _ & _ & -> & _)];
        [exact Hrow | apply in_or_app; now left].
    + intros row Hrow. exists row. split; [exact Hrow | apply same_admin_refl].
  - apply Hsame, trackStatus_frame.
  - destruct (submit_missing_person_effect date_in name age gender lastSeen
                location description reporter_mobile file rnd w)
      as (Ha & _ & Hc & _ & Hrows).
    cbv zeta in *. rewrite Ha, Hc. repeat split; auto.
    + intros row Hrow.
      destruct Hrows as [[-> _] | (n & a & dt & mob & _ & _ & -> & _)];
        [exact Hrow | apply in_or_app; now left].
    + intros row Hrow. exists row. split; [exact Hrow | apply same_admin_refl].
Qed.

(** ** How submitting, resolving, tracking and counting compose *)






Lemma resolve_row_matched (row : Complaint.row) :
  resolve_row (Complaint.id row) row
  = Complaint.set_status (Some "Resolved") row.
Proof. unfold resolve_row. now rewrite Z.eqb_refl. Qed.

(** Resolving the row with a given key resolves one more row, unless it was
    resolved already. *)
Lemma resolved_count_after (rows : list Complaint.row) (row : Complaint.row) :
  NoDup (map Complaint.id rows) ->
  In row rows ->
  List.length (filter is_resolved (map (resolve_row (Complaint.id row)) rows))
  = (List.length (filter is_resolved rows)
     + if is_resolved row then 0 else 1)%nat.
Proof.
  induction rows as [|a l IH]; intros Hnd Hin; [destruct Hin|].
  cbn [map] in Hnd. apply NoDup_cons_iff in Hnd as [Hnotin Hnd].
  cbn [map filter]. destruct Hin as [-> | Hin].
  - rewrite resolve_row_matched.
    rewrite resolve_rows_unmatched.
    + change (is_resolved (Complaint.set_status (Some "Resolved") row))
        with true.
      destruct (is_resolved row); cbn [List.length]; lia.
    + intros r Hr E. apply Hnotin. rewrite <- E. now apply in_map.
  - assert (Complaint.id a <> Complaint.id row) as Hne.
    { intros E. apply Hnotin. rewrite E. now apply in_map. }
    unfold resolve_row at 1. apply Z.eqb_neq in Hne. rewrite Hne.
    specialize (IH Hnd Hin).
    destruct (is_resolved a); cbn [List.length]; lia.
Qed.

(** X14.  In a reachable world, resolving a stored complaint that was not
    resolved moves one complaint from pending to resolved on the home page
    and leaves the total; resolving one that was resolved already leaves all
    three counts. *)
Theorem home_counts_after_resolve
    (date_in : string -> option Z) (w : World) (row : Complaint.row)
    (id : string) :
  reachable date_in w ->
  online w = true ->
  In row (codinCluc (tables w)) ->
  Pg.int4_in id = inr (Complaint.id row) ->
  let w' := snd (post_mark_resolved id w) in
  let moved := if is_resolved row then 0 else 1 in
  exists total resolved pending,
    fst (get_home w) = render_home total resolved pending
    /\ fst (get_home w')
       = render_home total (resolved + moved) (pending - moved).
Proof.
  intros Hreach Hon Hin Hid. cbv zeta.
  destruct (reachable_store_inv date_in w Hreach)
    as (_ & (_ & Hids & _) & _).
  rewrite mark_resolved_spec. cbv zeta. rewrite Hon, Hid. cbn [snd].
  rewrite (get_home_online w Hon). rewrite get_home_online by reflexivity.
  cbn [fst tables codinCluc]. cbv zeta.
  rewrite length_map, (resolved_count_after _ row Hids Hin).
  do 3 eexists. split; [reflexivity|].
  destruct (is_resolved row); f_equal; lia.
Qed.

Lemma home_counts_after_resolve_witness :
  let row := Complaint.mk 1 (Some "CASE-AAAAAA") "Pothole" "Large pothole"
                          (Some "Roads") None 9876543210 (Some "Main St")
                          (Some 0) (Some "Submitted") in
  let w' := snd (post_mark_resolved "1" world_one_complaint) in
  let moved := if is_resolved row then 0 else 1 in
  exists total resolved pending,
    fst (get_home world_one_complaint) = render_home total resolved pending
    /\ fst (get_home w')
       = render_home total (resolved + moved) (pending - moved).
Proof.
  apply (home_counts_after_resolve any_date world_one_complaint
           (Complaint.mk 1 (Some "CASE-AAAAAA") "Pothole" "Large pothole"
                         (Some "Roads") None 9876543210 (Some "Main St")
                         (Some 0) (Some "Submitted")) "1").
  - apply world_one_complaint_reachable.
  - reflexivity.
  - left; reflexivity.
  - reflexivity.
Defined.

(** X15.  After a stored complaint has been resolved by its row identifier,
    tracking by its case identifier, in any letter case, shows the same
    complaint with status "Resolved". *)
Theorem resolved_complaint_is_tracked_as_resolved
    (w : World) (row : Complaint.row) (id x y : string) :
  online w = true ->
  complaints_wf (tables w) ->
  In row (codinCluc (tables w)) ->
  Complaint.case_id row = Some x ->
  Pg.int4_in id = inr (Complaint.id row) ->
  case_variant x y ->
  fst (post_trackStatus (Some y) (snd (post_mark_resolved id w)))
  = render_trackStatusForm
      (Some (Complaint.set_status (Some "Resolved") row)) None.
Proof.
  intros Hon Hwf Hin Hx Hid Hy.
  destruct (mark_resolved_frame id w) as (_ & _ & Hids). cbv zeta in Hids.
  pose proof (wf_same_ids _ _ Hids Hwf) as Hwf'.
  revert Hwf'. rewrite mark_resolved_spec. cbv zeta. rewrite Hon, Hid.
  cbn [snd]. intros Hwf'.
  match goal with
  | |- fst (post_trackStatus _ ?w') = _ =>
      destruct (track_selects (tables w')
                  (Complaint.set_status (Some "Resolved") row) x y Hwf')
        as (Hne & Htrim & Hsel & Hnul);
      [cbn [tables codinCluc]; rewrite <- resolve_row_matched;
       now apply in_map
      | exact Hx | exact Hy |];
      rewrite <- Htrim in Hnul;
      rewrite (trackStatus_query y w' Hne eq_refl Hnul), Htrim, Hsel
  end.
  reflexivity.
Qed.

Lemma resolved_complaint_is_tracked_as_resolved_witness :
  let row := Complaint.mk 1 (Some "CASE-AAAAAA") "Pothole" "Large pothole"
                          (Some "Roads") None 9876543210 (Some "Main St")
                          (Some 0) (Some "Submitted") in
  fst (post_trackStatus (Some "case-aaaaaa")
         (snd (post_mark_resolved "1" world_one_complaint)))
  = render_trackStatusForm
      (Some (Complaint.set_status (Some "Resolved") row)) None.
Proof.
  apply (resolved_complaint_is_tracked_as_resolved world_one_complaint
           (Complaint.mk 1 (Some "CASE-AAAAAA") "Pothole" "Large pothole"
                         (Some "Roads") None 9876543210 (Some "Main St")
                         (Some 0) (Some "Submitted"))
           "1" "CASE-AAAAAA" "case-aaaaaa").
  - reflexivity.
  - exact world_one_complaint_wf.
  - left; reflexivity.
  - reflexivity.
  - reflexivity.
  - reflexivity.
Defined.

(** ** Missing-person reports *)

(** X16.  [POST /submit-missing-person] answers 400 when the name, the
    age, the gender, the last-seen date, the location or the reporter contact
    is missing or empty, and then sends nothing to the store; unlike for
    complaints, the contact is among the fields tested.  Otherwise it sends
    exactly one [INSERT] and answers by its outcome: success and one report
    more when the store took it, status 500 and the same reports when it did
    not. *)
Theorem missing_person_answers (date_in : string -> option Z)
    (name age gender lastSeen location description reporter_mobile file
     : option string) (rnd : nat -> Z) (w : World) :
  let out := post_submit_missing_person date_in name age gender lastSeen
               location description reporter_mobile file rnd w in
  if Js.falsy name || Js.falsy age || Js.falsy gender
     || Js.falsy lastSeen || Js.falsy location || Js.falsy reporter_mobile
  then out = (validation_error, w)
  else exists o,
         qlog (snd out)
         = (qlog w
            ++ [(insert_missing_person_query (generateCaseId rnd) name age
                   gender lastSeen location description (upload_path file)
                   reporter_mobile, o)])%list
         /\ ((o = None
              /\ fst out
                 = json 200 [("success", j_bool true);
                             ("caseId", j_str (generateCaseId rnd));
                             ("message",
                              j_str "Missing person report submitted successfully.")]
              /\ exists row,
                   missing_persons (tables (snd out))
                   = (missing_persons (tables w) ++ [row])%list)
             \/ (o <> None
                 /\ fst out = report_store_error
                 /\ missing_persons (tables (snd out))
                    = missing_persons (tables w))).
Proof.
  cbv zeta.
  destruct (Js.falsy name || Js.falsy age || Js.falsy gender
            || Js.falsy lastSeen || Js.falsy location
            || Js.falsy reporter_mobile) eqn:Hval.
  - unfold post_submit_missing_person. run_handler. now rewrite Hval.
  - rewrite submit_missing_person_insert by exact Hval. cbv zeta.
    destruct (online w).
    + destruct (fst (exec_insert_missing_person date_in (generateCaseId rnd)
                       name age gender lastSeen location description
                       (upload_path file) reporter_mobile (clock w)
                       (tables w))) as [e|[]] eqn:E.
      * eexists. split; [reflexivity|]. right.
        cbn [outcome fst snd tables]. repeat split; [discriminate|].
        now apply exec_insert_missing_person_rejected with e.
      * eexists. split; [reflexivity|]. left.
        cbn [outcome fst snd tables]. repeat split.
        revert E. unfold exec_insert_missing_person.
        destruct (Pg.nullable Pg.int4_in age); [discriminate|].
        destruct (date_param date_in lastSeen); [discriminate|].
        destruct (Pg.nullable Pg.int8_in reporter_mobile); [discriminate|].
        destruct name; [|discriminate].
        destruct (existsb _ _); [discriminate|].
        intros _. cbn [snd missing_persons]. now eexists.
    + eexists. split; [reflexivity|]. right.
      cbn [fst snd tables]. repeat split. discriminate.
Qed.



(** ** Tracking: edge cases *)

(** X18.  Tracking without a case identifier, or with an empty one, asks for
    one and sends nothing to the store.  In a store whose complaints carry
    generated identifiers, tracking an ASCII text that, once trimmed and
    upper-cased, is the identifier of no stored complaint answers
    "Case ID not found" and changes no table. *)
Theorem track_unknown_identifier (caseId : option string) (w : World) :
  online w = true ->
  complaints_wf (tables w) ->
  (forall y, caseId = Some y ->
             ascii_text (Js.trim y) = true
             /\ forall r, In r (codinCluc (tables w)) ->
                          Complaint.case_id r
                          <> Some (Pg.upper (Js.trim y))) ->
  post_trackStatus caseId w
  = match caseId with
    | None | Some "" =>
        (render_trackStatusForm None (Some "⚠️ Please enter a Case ID"), w)
    | Some y =>
        (render_trackStatusForm None (Some "❌ Case ID not found"),
         mkWorldIn (tables w) true (clock w)
                   (qlog w ++ [(mkQuery select_complaint_by_case_id
                                        [p_text (Js.trim y)], None)])
                   (zone_shift w))
    end.
Proof.
  intros Hon [Hshape _] Hnone.
  destruct caseId as [[|c y]|]; try reflexivity.
  destruct (Hnone (String c y) eq_refl) as [Hascii Hnew].
  rewrite trackStatus_query;
    [| discriminate | exact Hon | now apply ascii_text_no_nul].
  rewrite filter_none; [reflexivity|].
  intros r Hr. rewrite Forall_forall in Hshape.
  destruct (Hshape r Hr) as (z & Hz & Hsz).
  destruct (Pg.text_eq _ _) eqn:E; [|reflexivity].
  apply text_eq_true in E as (s & Hs & [= <-]).
  rewrite Hz in Hs. cbn [Pg.UPPER option_map] in Hs.
  rewrite (shape_upper z Hsz) in Hs.
  destruct (Hnew r Hr). congruence.
Qed.

Lemma track_unknown_identifier_witness :
  post_trackStatus
    (Some (join [nbsp; byte_order_mark] ++ "case-zzzzzz" ++ line_separator))
    world_one_complaint
  = (render_trackStatusForm None (Some "❌ Case ID not found"),
     mkWorldIn (tables world_one_complaint) true (clock world_one_complaint)
               (qlog world_one_complaint
                ++ [(mkQuery select_complaint_by_case_id
                             [p_text "case-zzzzzz"], None)])
               (zone_shift world_one_complaint)).
Proof.
  apply (track_unknown_identifier
           (Some (join [nbsp; byte_order_mark] ++ "case-zzzzzz"
                  ++ line_separator))
           world_one_complaint).
  - reflexivity.
  - exact world_one_complaint_wf.
  - intros y [= <-]. split; [reflexivity|].
    intros r [<- | []]. discriminate.
Defined.

(** X19.  White space around the identifier is ignored, be it of one byte
    or of more.  For a stored identifier, tracking a text whose trimmed form
    is a case variant of it shows the row that carries it; and so does
    tracking a case variant with any white space characters before and
    after it. *)
Theorem track_ignores_surrounding_space
    (w : World) (row : Complaint.row) (x : string) :
  online w = true ->
  complaints_wf (tables w) ->
  In row (codinCluc (tables w)) ->
  Complaint.case_id row = Some x ->
  (forall y,
     case_variant x (Js.trim y) ->
     fst (post_trackStatus (Some y) w)
     = render_trackStatusForm (Some row) None)
  /\ (forall before after z,
        Forall (fun u => Js.space_char u = true) before ->
        Forall (fun u => Js.space_char u = true) after ->
        case_variant x z ->
        fst (post_trackStatus (Some (join before ++ z ++ join after)) w)
        = render_trackStatusForm (Some row) None).
Proof.
  intros Hon Hwf Hin Hx.
  assert (forall y,
            case_variant x (Js.trim y) ->
            fst (post_trackStatus (Some y) w)
            = render_trackStatusForm (Some row) None) as Htrimmed.
  { intros y Hv.
    destruct (track_selects _ row x (Js.trim y) Hwf Hin Hx Hv)
      as (Hne & _ & Hsel & Hnul).
    assert (y <> "") as Hy' by (intros ->; now apply Hne).
    now rewrite (trackStatus_query y w Hy' Hon Hnul), Hsel. }
  split; [exact Htrimmed|].
  intros before after z Hb Ha Hz. apply Htrimmed.
  destruct (track_selects _ row x z Hwf Hin Hx Hz) as (Hne & _).
  rewrite trim_surrounded; [exact Hz | exact Hb | exact Ha | | exact Hne].
  destruct Hwf as [Hshape _]. rewrite Forall_forall in Hshape.
  destruct (Hshape row Hin) as (x' & Hx' & Hsx).
  rewrite Hx in Hx'. injection Hx' as <-.
  rewrite <- no_space_upper, (case_variant_upper x z Hz), (shape_upper x Hsx).
  now apply shape_no_space.
Qed.

Lemma track_ignores_surrounding_space_witness :
  let row := Complaint.mk 1 (Some "CASE-AAAAAA") "Pothole" "Large pothole"
                          (Some "Roads") None 9876543210 (Some "Main St")
                          (Some 0) (Some "Submitted") in
  (forall y,
     case_variant "CASE-AAAAAA" (Js.trim y) ->
     fst (post_trackStatus (Some y) world_one_complaint)
     = render_trackStatusForm (Some row) None)
  /\ (forall before after z,
        Forall (fun u => Js.space_char u = true) before ->
        Forall (fun u => Js.space_char u = true) after ->
        case_variant "CASE-AAAAAA" z ->
        fst (post_trackStatus (Some (join before ++ z ++ join after))
                              world_one_complaint)
        = render_trackStatusForm (Some row) None).
Proof.
  apply (track_ignores_surrounding_space world_one_complaint
           (Complaint.mk 1 (Some "CASE-AAAAAA") "Pothole" "Large pothole"
                         (Some "Roads") None 9876543210 (Some "Main St")
                         (Some 0) (Some "Submitted"))
           "CASE-AAAAAA").
  - reflexivity.
  - exact world_one_complaint_wf.
  - left; reflexivity.
  - reflexivity.
Defined.

(** ** Contacts that are not numbers *)

(** X20.  A complaint whose contact is present but does not begin, after
    white space and a sign, with a digit, an empty field for instance, is
    the text of no [BIGINT].  It passes the validation and is rejected by
    the store when the [INSERT] is bound: the answer is the store error with
    status 500, the one query is on record with its error, and the tables,
    sequences included, are as before. *)
Theorem submitComplaint_contact_not_a_number
    (subject description location otp category file : option string)
    (ms : string) (rnd : nat -> Z) (w : World) :
  online w = true ->
  Js.falsy subject || Js.falsy description
  || Js.falsy location || Js.falsy category = false ->
  Pg.not_a_number ms = true ->
  let out := post_submitComplaint subject description location (Some ms) otp
                                  category file rnd w in
  fst out = complaint_store_error
  /\ tables (snd out) = tables w
  /\ exists e,
       qlog (snd out)
       = (qlog w
          ++ [(insert_complaint_query (generateCaseId rnd) subject
                 description category (upload_path file) location
                 (Some ms), Some e)])%list.
Proof.
  intros Hon Hval He. cbv zeta.
  rewrite submitComplaint_insert by exact Hval. cbv zeta. rewrite Hon.
  unfold exec_insert_complaint. cbn [Pg.nullable].
  unfold Pg.int8_in. rewrite (not_a_number_int_in _ _ _ _ He).
  cbn [fst snd tables qlog outcome]. eauto.
Qed.

Lemma submitComplaint_contact_not_a_number_witness :
  let out := post_submitComplaint (Some "Lamp") (Some "Street lamp out")
               (Some "Hill Rd") (Some " +x1") None (Some "Lights") None
               draws_A world_one_complaint in
  fst out = complaint_store_error
  /\ tables (snd out) = tables world_one_complaint
  /\ exists e,
       qlog (snd out)
       = (qlog world_one_complaint
          ++ [(insert_complaint_query (generateCaseId draws_A)
                 (Some "Lamp") (Some "Street lamp out") (Some "Lights")
                 (upload_path None) (Some "Hill Rd") (Some " +x1"),
               Some e)])%list.
Proof.
  apply (submitComplaint_contact_not_a_number (Some "Lamp")
           (Some "Street lamp out") (Some "Hill Rd") None (Some "Lights") None
           " +x1" draws_A world_one_complaint);
    reflexivity.
Defined.

(** X21.  The mobile number of a login request reaches the store only on the
    first login of a department.  When it does not begin, after white space
    and a sign, with a digit, and so is the text of no [BIGINT], a department
    without a row gets "Server error" and nothing is stored, while a
    department that has a row is issued a code all the same. *)
Theorem adminLogin_mobile_checked_on_first_login
    (name department_name d : option string) (ms : string)
    (k : Z) (w : World) :
  online w = true ->
  Js.falsy name || Js.falsy department_name
  || Js.falsy d || Js.falsy (Some ms) = false ->
  Pg.not_a_number ms = true ->
  let out := post_adminLogin name department_name d (Some ms) k w in
  if existsb (of_department d) (admins (tables w))
  then fst out = otp_issued (admin_otp k)
  else fst out = json 200 [("success", j_bool false);
                           ("message", j_str "Server error")]
       /\ tables (snd out) = tables w.
Proof.
  intros Hon Hval He. cbv zeta. unfold post_adminLogin.
  rewrite Hval. fold (admin_otp k). run_handler. rewrite Hon.
  unfold exec_select_admin_id_by_department. frame.
  rewrite length_map. fold (of_department d).
  rewrite existsb_filter_nil.
  destruct (filter (of_department d) (admins (tables w))) as [|r0 rs].
  - cbn [List.length Nat.eqb negb Nat.ltb Nat.leb].
    unfold exec_insert_admin. cbn [Pg.nullable].
    unfold Pg.int8_in. rewrite (not_a_number_int_in _ _ _ _ He).
    split; reflexivity.
  - cbn [List.length Nat.eqb negb Nat.ltb Nat.leb]. reflexivity.
Qed.

Lemma adminLogin_mobile_checked_on_first_login_witness :
  let out := post_adminLogin (Some "Asha") (Some "Roads") (Some "D3")
                             (Some "none") 0 world_two_admins in
  if existsb (of_department (Some "D3")) (admins (tables world_two_admins))
  then fst out = otp_issued (admin_otp 0)
  else fst out = json 200 [("success", j_bool false);
                           ("message", j_str "Server error")]
       /\ tables (snd out) = tables world_two_admins.
Proof.
  apply (adminLogin_mobile_checked_on_first_login (Some "Asha") (Some "Roads")
           (Some "D3") "none" 0 world_two_admins);
    reflexivity.
Defined.

(** * The listings and the registration *)

(** ** Newest first *)

Lemma newer_asym (a b : option Z) : newer a b = true -> newer b a = false.
Proof.
  destruct a as [x|], b as [y|]; cbn [newer]; try discriminate; try reflexivity.
  intros H. apply Z.ltb_lt in H. apply Z.ltb_ge. lia.
Qed.

Lemma not_older_trans {A} (key : A -> option Z) (a b c : A) :
  not_older key a b -> not_older key b c -> not_older key a c.
Proof.
  unfold not_older.
  destruct (key a) as [x|], (key b) as [y|], (key c) as [z|]; cbn [newer];
    try discriminate; try reflexivity.
  rewrite !Z.ltb_ge. lia.
Qed.

Lemma insert_newest_perm {A} (key : A -> option Z) (x : A) (l : list A) :
  Permutation (insert_newest key x l) (x :: l).
Proof.
  induction l as [|y l IH]; cbn [insert_newest]; [reflexivity|].
  destruct (newer (key y) (key x)); [|reflexivity].
  rewrite IH. apply perm_swap.
Qed.

Lemma order_by_desc_perm {A} (key : A -> option Z) (l : list A) :
  Permutation (order_by_desc key l) l.
Proof.
  induction l as [|x l IH]; cbn [order_by_desc]; [reflexivity|].
  rewrite insert_newest_perm. now constructor.
Qed.

Lemma insert_newest_sorted {A} (key : A -> option Z) (x : A) (l : list A) :
  Sorted (not_older key) l -> Sorted (not_older key) (insert_newest key x l).
Proof.
  induction l as [|y l IH]; intros Hs; cbn [insert_newest].
  - repeat constructor.
  - destruct (newer (key y) (key x)) eqn:E.
    + apply Sorted_inv in Hs as [Hs Hhd].
      constructor; [now apply IH|].
      destruct l as [|z l]; cbn [insert_newest].
      * constructor. now apply newer_asym.
      * destruct (newer (key z) (key x)).
        -- constructor. now apply HdRel_inv in Hhd.
        -- constructor. now apply newer_asym.
    + constructor; [exact Hs|]. constructor. exact E.
Qed.

Lemma order_by_desc_sorted {A} (key : A -> option Z) (l : list A) :
  StronglySorted (not_older key) (order_by_desc key l).
Proof.
  apply Sorted_StronglySorted.
  - intros a b c. apply not_older_trans.
  - induction l as [|x l IH]; cbn [order_by_desc]; [constructor|].
    now apply insert_newest_sorted.
Qed.

(** ** [POST /my-complaints] *)

Ltac run_site :=
  unfold try_catchS, bindS, select_query, registry_query, retS, site_outcome.

Lemma my_complaints_page (ms : string) (m : Z) (s : Site) :
  online (core s) = true ->
  Pg.int8_in ms = inr m ->
  post_my_complaints (Some ms) s
  = (render_myComplaints
       (order_by_desc Complaint.created_at
          (filter (fun r => Complaint.mobile_no r =? m)
                  (codinCluc (tables (core s)))))
       (Some ms) None,
     mkSite (core s) (LoginDeatails s) (LoginDeatails_id_seq s)
            (site_log s
             ++ [(mkSiteQuery select_complaints_by_mobile [p_text ms],
                  None)])).
Proof.
  intros Hon Hm.
  destruct ms as [|c ms]; [discriminate Hm|].
  unfold post_my_complaints. run_site. rewrite Hon.
  unfold exec_select_complaints_by_mobile. now rewrite Hm.
Qed.

(** X22.  For a contact that is the text of a number, the listing shows
    exactly the complaints stored under that number, each once, none of them
    older than one listed after it; when there are none the list is empty
    and no error is shown.  Nothing but the record of queries changes. *)
Theorem my_complaints_lists_by_contact (ms : string) (m : Z) (s : Site) :
  online (core s) = true ->
  Pg.int8_in ms = inr m ->
  exists rows,
    post_my_complaints (Some ms) s
    = (render_myComplaints rows (Some ms) None,
       mkSite (core s) (LoginDeatails s) (LoginDeatails_id_seq s)
              (site_log s
               ++ [(mkSiteQuery select_complaints_by_mobile [p_text ms],
                    None)]))
    /\ Permutation rows
                   (filter (fun r => Complaint.mobile_no r =? m)
                           (codinCluc (tables (core s))))
    /\ StronglySorted (not_older Complaint.created_at) rows.
Proof.
  intros Hon Hm.
  exists (order_by_desc Complaint.created_at
            (filter (fun r => Complaint.mobile_no r =? m)
                    (codinCluc (tables (core s))))).
  split; [now apply my_complaints_page|].
  split; [apply order_by_desc_perm | apply order_by_desc_sorted].
Qed.

Lemma my_complaints_lists_by_contact_witness :
  exists rows,
    post_my_complaints (Some "9876543210") (mkSite world_one_complaint [] 0 [])
    = (render_myComplaints rows (Some "9876543210") None,
       mkSite world_one_complaint [] 0
              ([] ++ [(mkSiteQuery select_complaints_by_mobile
                                   [p_text "9876543210"], None)]))
    /\ Permutation rows
                   (filter (fun r => Complaint.mobile_no r =? 9876543210)
                           (codinCluc (tables world_one_complaint)))
    /\ StronglySorted (not_older Complaint.created_at) rows.
Proof.
  apply (my_complaints_lists_by_contact "9876543210" 9876543210
           (mkSite world_one_complaint [] 0 []));
    reflexivity.
Defined.

(** X23.  Without a contact, or with an empty one, the listing asks for a
    number and sends nothing to the store.  With a contact that does not
    begin with a digit after white space and a sign, which is the text of no
    number, it shows "Error fetching complaints." and an empty list.  The
    tables are untouched in both cases. *)
Theorem my_complaints_without_number (mobile : option string) (s : Site) :
  (forall ms, mobile = Some ms -> Pg.not_a_number ms = true) ->
  fst (post_my_complaints mobile s)
  = (if Js.falsy mobile
     then render_myComplaints [] None (Some "Please enter a mobile number.")
     else render_myComplaints [] mobile (Some "Error fetching complaints."))
  /\ core (snd (post_my_complaints mobile s)) = core s
  /\ LoginDeatails (snd (post_my_complaints mobile s)) = LoginDeatails s
  /\ (if Js.falsy mobile then snd (post_my_complaints mobile s) = s else True).
Proof.
  intros Hbad. destruct mobile as [[|c ms]|]; try (repeat split; reflexivity).
  unfold post_my_complaints. run_site.
  destruct (online (core s)); [|repeat split; reflexivity].
  unfold exec_select_complaints_by_mobile, Pg.int8_in.
  rewrite (not_a_number_int_in _ _ _ _ (Hbad (String c ms) eq_refl)).
  repeat split; reflexivity.
Qed.

Lemma my_complaints_without_number_witness :
  let s := mkSite world_one_complaint [] 0 [] in
  fst (post_my_complaints (Some "x98765") s)
  = (if Js.falsy (Some "x98765")
     then render_myComplaints [] None (Some "Please enter a mobile number.")
     else render_myComplaints [] (Some "x98765")
                              (Some "Error fetching complaints."))
  /\ core (snd (post_my_complaints (Some "x98765") s)) = core s
  /\ LoginDeatails (snd (post_my_complaints (Some "x98765") s))
     = LoginDeatails s
  /\ (if Js.falsy (Some "x98765")
      then snd (post_my_complaints (Some "x98765") s) = s else True).
Proof.
  apply (my_complaints_without_number (Some "x98765")
           (mkSite world_one_complaint [] 0 [])).
  intros ms [= <-]. reflexivity.
Defined.



(** ** [GET /adminDashboard], [GET /missing-persons] and [GET /map-view] *)

(** X25.  When the store answers, the dashboard shows every complaint and
    every missing-person report, each once, none of them older than one
    shown after it, and [GET /missing-persons] shows the same list of
    reports; when the store cannot be reached both answer with status 500.
    The tables are untouched. *)
Theorem dashboard_lists_everything (s : Site) :
  (if online (core s)
   then exists complaints reports,
          fst (get_adminDashboard s)
          = render_adminDashboard complaints reports
          /\ fst (get_missing_persons s) = render_missing_persons_list reports
          /\ Permutation complaints (codinCluc (tables (core s)))
          /\ StronglySorted (not_older Complaint.created_at) complaints
          /\ Permutation reports (missing_persons (tables (core s)))
          /\ StronglySorted (not_older MissingPerson.created_at) reports
   else fst (get_adminDashboard s) = send 500 "Database error"
        /\ fst (get_missing_persons s)
           = send 500 "Error fetching missing person reports.")
  /\ core (snd (get_adminDashboard s)) = core s
  /\ LoginDeatails (snd (get_adminDashboard s)) = LoginDeatails s
  /\ core (snd (get_missing_persons s)) = core s.
Proof.
  unfold get_adminDashboard, get_missing_persons. run_site.
  cbn [core online]. destruct (online (core s)) eqn:Hon.
  - cbn [core online LoginDeatails]. rewrite Hon.
    unfold exec_select_complaints_newest_first,
      exec_select_missing_persons_newest_first.
    cbn [fst snd core LoginDeatails].
    split; [|repeat split].
    do 2 eexists. split; [reflexivity|]. split; [reflexivity|].
    repeat split;
      first [apply order_by_desc_perm | apply order_by_desc_sorted].
  - repeat split.
Qed.

Lemma filter_all {A} (p : A -> bool) (l : list A) :
  (forall x, In x l -> p x = true) -> filter p l = l.
Proof.
  induction l as [|a l IH]; intros H; [reflexivity|].
  cbn [filter]. rewrite (H a (or_introl eq_refl)). f_equal.
  apply IH. intros x Hx. apply H. now right.
Qed.

(** X26.  In a reachable world every stored complaint has a location, so
    the map view shows all complaints, each once: the case identifier,
    subject, location and status of each.  The statement does not order
    them. *)
Theorem map_view_shows_every_complaint
    (date_in : string -> option Z)
    (scan_order : list Complaint.row -> list Complaint.row) (s : Site) :
  reachable date_in (core s) ->
  online (core s) = true ->
  (forall l, Permutation (scan_order l) l) ->
  exists shown,
    fst (get_map_view scan_order s) = render_map shown
    /\ Permutation shown
         (map (fun r => (Complaint.case_id r, Complaint.subject r,
                         Complaint.location r, Complaint.status r))
              (codinCluc (tables (core s)))).
Proof.
  intros Hreach Hon Hscan.
  destruct (reachable_store_inv date_in (core s) Hreach)
    as (_ & (_ & _ & Hall) & _).
  unfold get_map_view. run_site. rewrite Hon.
  unfold exec_select_complaints_located. cbn [fst].
  eexists. split; [reflexivity|].
  rewrite filter_all; [apply Permutation_map, Hscan|].
  intros r Hr. apply (Permutation_in _ (Hscan _)) in Hr.
  rewrite Forall_forall in Hall.
  destruct (Hall r Hr) as (_ & _ & _ & _ & _ & (loc & Hl & Hne) & _).
  unfold located. rewrite Hl.
  apply String.eqb_neq in Hne. now rewrite Hne.
Qed.

Lemma map_view_shows_every_complaint_witness :
  exists shown,
    fst (get_map_view (@rev Complaint.row)
                      (mkSite world_two_complaints [] 0 []))
    = render_map shown
    /\ Permutation shown
         (map (fun r => (Complaint.case_id r, Complaint.subject r,
                         Complaint.location r, Complaint.status r))
              (codinCluc (tables world_two_complaints))).
Proof.
  apply (map_view_shows_every_complaint any_date (@rev Complaint.row)
           (mkSite world_two_complaints [] 0 [])).
  - apply world_two_complaints_reachable.
  - reflexivity.
  - intros l. apply Permutation_sym, Permutation_rev.
Defined.

(** ** [POST /userLogin] *)

Lemma split_chars_length (n : nat) (s : string) :
  (Pg.char_length (fst (Pg.split_chars n s)) <= n)%nat.
Proof.
  revert n. induction s as [|c s IH]; intros n; [cbn; lia|].
  cbn [Pg.split_chars]. destruct (Pg.continuation c) eqn:E.
  - specialize (IH n). destruct (Pg.split_chars n s) as [a b].
    cbn [fst Pg.char_length] in *. now rewrite E.
  - destruct n as [|n]; [cbn; lia|].
    specialize (IH n). destruct (Pg.split_chars n s) as [a b].
    cbn [fst Pg.char_length] in *. rewrite E. lia.
Qed.

Lemma varchar_length (n : nat) (s t : string) :
  varchar n s = inr t -> (Pg.char_length t <= n)%nat.
Proof.
  unfold varchar. destruct (Nat.leb_spec (Pg.char_length s) n) as [Hle|Hgt].
  - intros [= <-]. exact Hle.
  - pose proof (split_chars_length n s) as Hlen.
    destruct (Pg.split_chars n s) as [kept cut].
    destruct (forallb _ _); [|discriminate].
    intros [= <-]. exact Hlen.
Qed.






Lemma registered_select (f l : string) (rows : list Registrant.row) :
  (List.length
     (firstn 1 (filter (fun r => String.eqb (Registrant.first_name r) f
                                 && String.eqb (Registrant.last_name r) l)
                       rows)) =? 0)%nat
  = negb (registered f l rows).
Proof.
  unfold registered. rewrite existsb_filter_nil.
  destruct (filter _ rows); reflexivity.
Qed.

(** What a registration that passes the validation does when the store
    answers. *)
Lemma userLogin_online
    (first_name last_name gender age email_id address : option string)
    (s : Site) :
  online (core s) = true ->
  Js.falsy first_name || Js.falsy last_name || Js.falsy gender
  || Js.falsy age || Js.falsy email_id || Js.falsy address = false ->
  let f := field_text first_name in
  let l := field_text last_name in
  let select := mkSiteQuery select_registrant_by_name
                            [p_field first_name; p_field last_name] in
  let insert := mkSiteQuery insert_registrant
                            [p_field first_name; p_field last_name;
                             p_field gender; p_field age; p_field email_id;
                             p_field address] in
  post_userLogin first_name last_name gender age email_id address s
  = if Pg.has_nul f || Pg.has_nul l
    then (render_userLogin (Some "Database error"),
          mkSite (core s) (LoginDeatails s) (LoginDeatails_id_seq s)
                 (site_log s
                  ++ [(select,
                       Some (store_error Pg.character_not_in_repertoire))]))
    else if registered f l (LoginDeatails s)
    then (redirect_to "/?login=success",
          mkSite (core s) (LoginDeatails s) (LoginDeatails_id_seq s)
                 (site_log s ++ [(select, None)]))
    else
      let r := exec_insert_registrant f l (field_text gender) (field_text age)
                 (field_text email_id) (field_text address)
                 (clock (core s)) (LoginDeatails s) (LoginDeatails_id_seq s) in
      (match fst r with
       | inr _ => redirect_to "/?login=success"
       | inl _ => render_userLogin (Some "Database error")
       end,
       mkSite (core s) (fst (snd r)) (snd (snd r))
              ((site_log s ++ [(select, None)])
               ++ [(insert, site_outcome (fst r))])).
Proof.
  intros Hon Hval. cbv zeta. unfold post_userLogin. rewrite Hval.
  run_site. rewrite Hon. unfold exec_select_registrant_by_name.
  unfold text_in, and_then.
  destruct (Pg.has_nul (field_text first_name)); [reflexivity|].
  destruct (Pg.has_nul (field_text last_name)); [reflexivity|].
  cbn [orb]. rewrite registered_select.
  destruct (registered _ _ _); cbn [negb]; [reflexivity|].
  cbn [core online LoginDeatails LoginDeatails_id_seq site_log].
  rewrite Hon.
  destruct (exec_insert_registrant _ _ _ _ _ _ _ _ _) as [[e|row] [rows seq]];
    reflexivity.
Qed.

(** The [INSERT] either is rejected and leaves the rows, or appends one row
    that respects the age check and the lengths of the columns. *)
Lemma exec_insert_registrant_rows
    (f l g age_text m ad : string) (now : Z) (rows : list Registrant.row)
    (seq : Z) :
  let r := exec_insert_registrant f l g age_text m ad now rows seq in
  (exists e, fst r = inl e /\ fst (snd r) = rows)
  \/ (exists row a,
         fst r = inr row
         /\ fst (snd r) = (rows ++ [row])%list
         /\ Pg.int4_in age_text = inr a
         /\ Registrant.age row = Some a /\ 5 <= a <= 120
         /\ (Pg.char_length (Registrant.first_name row) <= 100)%nat
         /\ (Pg.char_length (Registrant.last_name row) <= 100)%nat
         /\ (Pg.char_length (Registrant.gender row) <= 20)%nat
         /\ (Pg.char_length (Registrant.email_id row) <= 100)%nat
         /\ (Pg.char_length (Registrant.address row) <= 250)%nat).
Proof.
  cbv zeta. unfold exec_insert_registrant, int4_param, text_in, and_then.
  destruct (Pg.has_nul f); [left; eexists; split; reflexivity|].
  destruct (Pg.has_nul l); [left; eexists; split; reflexivity|].
  destruct (Pg.has_nul g); [left; eexists; split; reflexivity|].
  destruct (Pg.has_nul age_text); [left; eexists; split; reflexivity|].
  destruct (Pg.int4_in age_text) as [e|a]; [left; eexists; split; reflexivity|].
  destruct (Pg.has_nul m); [left; eexists; split; reflexivity|].
  destruct (Pg.has_nul ad); [left; eexists; split; reflexivity|].
  destruct (varchar 100 f) as [e|f'] eqn:Ef;
    [left; eexists; split; reflexivity|].
  destruct (varchar 100 l) as [e|l'] eqn:El;
    [left; eexists; split; reflexivity|].
  destruct (varchar 20 g) as [e|g'] eqn:Eg;
    [left; eexists; split; reflexivity|].
  destruct (varchar 100 m) as [e|m'] eqn:Em;
    [left; eexists; split; reflexivity|].
  destruct (varchar 250 ad) as [e|ad'] eqn:Ead;
    [left; eexists; split; reflexivity|].
  destruct (Z.leb_spec 5 a); cbn [andb];
    [|left; eexists; split; reflexivity].
  destruct (Z.leb_spec a 120); [|left; eexists; split; reflexivity].
  right. eexists. exists a. cbn [fst snd Registrant.age Registrant.first_name
    Registrant.last_name Registrant.gender Registrant.email_id
    Registrant.address].
  repeat split; try reflexivity; try lia;
    eapply varchar_length; eassumption.
Qed.

(** X27.  [POST /userLogin] answers "All fields are required" when a field
    is missing or empty, and then sends nothing to the store.  Otherwise it
    redirects to the home page, or answers "Database error", in which case
    no registrant has been stored.  It never touches the tables of the
    core. *)
Theorem userLogin_answers
    (first_name last_name gender age email_id address : option string)
    (s : Site) :
  let out := post_userLogin first_name last_name gender age email_id
                            address s in
  if Js.falsy first_name || Js.falsy last_name || Js.falsy gender
     || Js.falsy age || Js.falsy email_id || Js.falsy address
  then out = (render_userLogin (Some "All fields are required"), s)
  else core (snd out) = core s
       /\ (fst out = redirect_to "/?login=success"
           \/ (fst out = render_userLogin (Some "Database error")
               /\ LoginDeatails (snd out) = LoginDeatails s)).
Proof.
  cbv zeta.
  destruct (Js.falsy first_name || Js.falsy last_name || Js.falsy gender
            || Js.falsy age || Js.falsy email_id || Js.falsy address)
    eqn:Hval.
  - unfold post_userLogin. now rewrite Hval.
  - destruct (online (core s)) eqn:Hon.
    + rewrite userLogin_online by assumption. cbv zeta.
      destruct (Pg.has_nul _ || Pg.has_nul _);
        [split; [reflexivity | right; now split]|].
      destruct (registered _ _ _); [split; [reflexivity | now left]|].
      cbn [fst snd core LoginDeatails]. split; [reflexivity|].
      destruct (exec_insert_registrant_rows
                  (field_text first_name) (field_text last_name)
                  (field_text gender) (field_text age) (field_text email_id)
                  (field_text address) (clock (core s)) (LoginDeatails s)
                  (LoginDeatails_id_seq s))
        as [(e & He & Hrows) | (row & a & Hr & _)];
        cbv zeta in *.
      * rewrite He. right. now split.
      * rewrite Hr. now left.
    + unfold post_userLogin. rewrite Hval. run_site. rewrite Hon.
      split; [reflexivity | right; now split].
Qed.



(** X29.  A registration under a new name is answered with "Database error"
    and stores nothing when its age is the decimal text of an integer below
    5 or above 120, or does not begin with a digit after white space and a
    sign and so is the text of no integer. *)
Theorem userLogin_age_out_of_range
    (first_name last_name gender age email_id address : option string)
    (s : Site) :
  online (core s) = true ->
  Js.falsy first_name || Js.falsy last_name || Js.falsy gender
  || Js.falsy age || Js.falsy email_id || Js.falsy address = false ->
  registered (field_text first_name) (field_text last_name) (LoginDeatails s)
  = false ->
  (exists a, Pg.int4_in (field_text age) = inr a /\ (a < 5 \/ 120 < a))
  \/ Pg.not_a_number (field_text age) = true ->
  let out := post_userLogin first_name last_name gender age email_id
                            address s in
  fst out = render_userLogin (Some "Database error")
  /\ LoginDeatails (snd out) = LoginDeatails s
  /\ core (snd out) = core s.
Proof.
  intros Hon Hval Hnew Hage. cbv zeta.
  rewrite userLogin_online by assumption. cbv zeta.
  destruct (Pg.has_nul _ || Pg.has_nul _); [repeat split|].
  rewrite Hnew.
  destruct (exec_insert_registrant_rows
              (field_text first_name) (field_text last_name)
              (field_text gender) (field_text age) (field_text email_id)
              (field_text address) (clock (core s)) (LoginDeatails s)
              (LoginDeatails_id_seq s))
    as [(e & He & Hrows) | (row & a & _ & _ & Ha & _ & Hr & _)].
  - cbv zeta in He, Hrows. rewrite He. cbn [fst snd LoginDeatails core].
    repeat split. exact Hrows.
  - destruct Hage as [(a' & Ha' & Hout) | Hnot].
    + rewrite Ha in Ha'. injection Ha' as <-. lia.
    + unfold Pg.int4_in in Ha.
      rewrite (not_a_number_int_in _ _ _ _ Hnot) in Ha. discriminate Ha.
Qed.

Lemma userLogin_age_out_of_range_witness :
  let out := post_userLogin (Some "Asha") (Some "Rao") (Some "F") (Some "3")
               (Some "asha@example.org") (Some "12 Main St") site_start in
  fst out = render_userLogin (Some "Database error")
  /\ LoginDeatails (snd out) = LoginDeatails site_start
  /\ core (snd out) = core site_start.
Proof.
  apply (userLogin_age_out_of_range (Some "Asha") (Some "Rao") (Some "F")
           (Some "3") (Some "asha@example.org") (Some "12 Main St")
           site_start);
    try reflexivity.
  left. exists 3. split; [reflexivity | lia].
Defined.

(** X30.  Whatever the requests, every stored registrant has an age between
    5 and 120 and texts within the lengths of the columns, counted in
    characters: a registration keeps this, and never touches the tables of
    the core. *)
Theorem userLogin_keeps_registry
    (first_name last_name gender age email_id address : option string)
    (s : Site) :
  registry_inv (LoginDeatails s) ->
  let out := post_userLogin first_name last_name gender age email_id
                            address s in
  registry_inv (LoginDeatails (snd out)) /\ core (snd out) = core s.
Proof.
  intros Hinv. cbv zeta.
  destruct (Js.falsy first_name || Js.falsy last_name || Js.falsy gender
            || Js.falsy age || Js.falsy email_id || Js.falsy address)
    eqn:Hval.
  - unfold post_userLogin. rewrite Hval. now split.
  - destruct (online (core s)) eqn:Hon.
    + rewrite userLogin_online by assumption. cbv zeta.
      destruct (Pg.has_nul _ || Pg.has_nul _); [now split|].
      destruct (registered _ _ _); [now split|].
      destruct (exec_insert_registrant_rows
                  (field_text first_name) (field_text last_name)
                  (field_text gender) (field_text age) (field_text email_id)
                  (field_text address) (clock (core s)) (LoginDeatails s)
                  (LoginDeatails_id_seq s))
        as [(e & _ & Hrows) | (row & a & _ & Hrows & _ & Hrow)];
        cbv zeta in Hrows; cbn [snd LoginDeatails core]; rewrite Hrows;
        (split; [|reflexivity]); [exact Hinv|].
      unfold registry_inv. apply Forall_app. split; [exact Hinv|].
      constructor; [|constructor].
      destruct Hrow as (Ha & Hr & Hrest). split; [now exists a | exact Hrest].
    + unfold post_userLogin. rewrite Hval. run_site. rewrite Hon.
      now split.
Qed.

Lemma userLogin_keeps_registry_witness :
  let out := post_userLogin (Some long_name) (Some "Rao") (Some "F")
               (Some "34") (Some "asha@example.org") (Some "12 Main St")
               site_start in
  registry_inv (LoginDeatails (snd out)) /\ core (snd out) = core site_start.
Proof.
  apply (userLogin_keeps_registry (Some long_name) (Some "Rao") (Some "F")
           (Some "34") (Some "asha@example.org") (Some "12 Main St")
           site_start).
  constructor.
Defined.
